(** * LearnNest: enrollment lifecycle and progress computation

    A shallow embedding of the enrollment and progress handlers of
    [src/app.py]: [update_student_progress], [student_enroll], the instructor
    transitions ([instructor_approve_enrollment], [instructor_reject_enrollment],
    [instructor_block_student], [instructor_remove_student],
    [instructor_unblock_student]) and the two progress setters
    ([instructor_set_progress_bulk], [instructor_set_student_progress]).

    The SQLite database is a record of tables, each table a list of rows in
    rowid order; [fetchone] is the first row of the result.  A handler is a
    function from the committed database to the committed database it leaves
    behind, the HTTP response, the calls of [send_notification] it made and
    the notifications those calls stored.

    The storage answers every statement, with two exceptions.  The
    statements of [update_student_progress] can be made to raise: that
    function has an [except] clause of its own, whose effect is stated below.
    And the [INSERT] of [send_notification], which runs on a connection of
    its own, fails while the connection of the caller holds the write lock.

    Percentages ([REAL] columns, Python [float]) are the rationals that
    binary64 holds: the division and the multiplication of the progress
    calculator round to the nearest binary64 number.  The non-finite values
    that [float()] also accepts ("nan", "inf") are outside [Q]: the
    development speaks of the texts that [float()] reads as a finite number
    or refuses. *)

From Stdlib Require Import ZArith QArith List String DecimalString Bool Lia.
Import ListNotations.
Local Open Scope Z_scope.

Infix "+++" := String.append (right associativity, at level 60).

(** ** Tables *)

Definition timestamp := Z.

Record user := mk_user {
  u_id : Z;
  u_role : string;
  u_full_name : string }.

Record course := mk_course {
  c_id : Z;
  c_course_code : string;
  c_title : string;
  c_instructor_id : Z;
  c_max_students : Z;
  c_enrollment_key_hash : option string;
  c_is_active : bool }.

(** [enrollments]: [status TEXT], [approved_at TIMESTAMP] (nullable),
    [progress_percentage REAL DEFAULT 0], [manual_progress_override REAL
    DEFAULT NULL].  [payment_screenshot] is written by none of the handlers
    below and is left out. *)
Record enrollment := mk_enrollment {
  e_id : Z;
  e_student_id : Z;
  e_course_id : Z;
  e_status : string;
  e_enrolled_at : timestamp;
  e_approved_at : option timestamp;
  e_progress_percentage : Q;
  e_manual_progress_override : option Q }.

Record assignment := mk_assignment {
  a_id : Z;
  a_course_id : Z;
  a_assignment_type : string;
  a_is_active : bool }.

Record assignment_submission := mk_submission {
  s_assignment_id : Z;
  s_student_id : Z }.

Record notification := mk_notification {
  n_user_id : Z;
  n_title : string;
  n_message : string;
  n_type : string;
  n_related_id : option Z }.

(** [enrollments_seq] is the [sqlite_sequence] entry of [enrollments]
    ([id INTEGER PRIMARY KEY AUTOINCREMENT]): the largest id ever handed out. *)
Record db := mk_db {
  users : list user;
  courses : list course;
  enrollments : list enrollment;
  enrollments_seq : Z;
  assignments : list assignment;
  assignment_submissions : list assignment_submission;
  notifications : list notification }.

Definition with_enrollments (d : db) (l : list enrollment) : db :=
  {| users := users d; courses := courses d; enrollments := l;
     enrollments_seq := enrollments_seq d; assignments := assignments d;
     assignment_submissions := assignment_submissions d;
     notifications := notifications d |}.

Definition with_notification (d : db) (n : notification) : db :=
  {| users := users d; courses := courses d; enrollments := enrollments d;
     enrollments_seq := enrollments_seq d; assignments := assignments d;
     assignment_submissions := assignment_submissions d;
     notifications := notifications d ++ [n] |}.

(** ** SQL statements on [enrollments] *)

(** [UPDATE enrollments SET ... WHERE p] *)
Definition update_where (p : enrollment -> bool) (f : enrollment -> enrollment)
    (l : list enrollment) : list enrollment :=
  map (fun e => if p e then f e else e) l.

(** [DELETE FROM enrollments WHERE p] *)
Definition delete_where (p : enrollment -> bool) (l : list enrollment)
    : list enrollment :=
  filter (fun e => negb (p e)) l.

Definition set_status (s : string) (e : enrollment) : enrollment :=
  {| e_id := e_id e; e_student_id := e_student_id e; e_course_id := e_course_id e;
     e_status := s; e_enrolled_at := e_enrolled_at e;
     e_approved_at := e_approved_at e;
     e_progress_percentage := e_progress_percentage e;
     e_manual_progress_override := e_manual_progress_override e |}.

Definition set_approved (now : timestamp) (e : enrollment) : enrollment :=
  {| e_id := e_id e; e_student_id := e_student_id e; e_course_id := e_course_id e;
     e_status := "approved"; e_enrolled_at := e_enrolled_at e;
     e_approved_at := Some now;
     e_progress_percentage := e_progress_percentage e;
     e_manual_progress_override := e_manual_progress_override e |}.

Definition set_progress_percentage (p : Q) (e : enrollment) : enrollment :=
  {| e_id := e_id e; e_student_id := e_student_id e; e_course_id := e_course_id e;
     e_status := e_status e; e_enrolled_at := e_enrolled_at e;
     e_approved_at := e_approved_at e;
     e_progress_percentage := p;
     e_manual_progress_override := e_manual_progress_override e |}.

Definition set_manual_override (m : option Q) (e : enrollment) : enrollment :=
  {| e_id := e_id e; e_student_id := e_student_id e; e_course_id := e_course_id e;
     e_status := e_status e; e_enrolled_at := e_enrolled_at e;
     e_approved_at := e_approved_at e;
     e_progress_percentage := e_progress_percentage e;
     e_manual_progress_override := m |}.

(** [SET manual_progress_override = ?, progress_percentage = ?] *)
Definition set_override_and_percentage (m p : Q) (e : enrollment) : enrollment :=
  {| e_id := e_id e; e_student_id := e_student_id e; e_course_id := e_course_id e;
     e_status := e_status e; e_enrolled_at := e_enrolled_at e;
     e_approved_at := e_approved_at e;
     e_progress_percentage := p;
     e_manual_progress_override := Some m |}.

(** [WHERE student_id = ? AND course_id = ?] *)
Definition of_pair (student_id course_id : Z) (e : enrollment) : bool :=
  (e_student_id e =? student_id) && (e_course_id e =? course_id).

Definition has_id (enrollment_id : Z) (e : enrollment) : bool :=
  e_id e =? enrollment_id.

(** [SELECT COUNT( * ) FROM enrollments WHERE course_id = ? AND status = 'approved'] *)
Definition count_approved (d : db) (course_id : Z) : Z :=
  Z.of_nat (List.length (filter
    (fun e => (e_course_id e =? course_id) && String.eqb (e_status e) "approved")
    (enrollments d))).

(** [COALESCE(e.manual_progress_override, e.progress_percentage) as display_progress] *)
Definition display_progress (e : enrollment) : Q :=
  match e_manual_progress_override e with
  | Some m => m
  | None => e_progress_percentage e
  end.

(** ** Binary64 arithmetic *)

(** Python's [float] is IEEE 754 binary64.  A finite [float] is a rational;
    an operation returns the binary64 number nearest to the exact result,
    ties to even.  Results of magnitude [2^1024] or more (infinities) are
    outside [Q]; none arises from the percentages below. *)

(** [2^z] *)
Definition pow2 (z : Z) : Q :=
  match z with
  | Z0 => 1
  | Zpos p => inject_Z (2 ^ Zpos p)
  | Zneg p => 1 # (2 ^ p)
  end.

(** The integer nearest to [q], ties to even. *)
Definition round_half_even (q : Q) : Z :=
  let n := Qnum q in
  let d := Zpos (Qden q) in
  let twice := 2 * (n mod d) in
  if twice <? d then n / d
  else if d <? twice then n / d + 1
  else if Z.even (n / d) then n / d else n / d + 1.

(** [floor (log2 q)] for [0 < q] *)
Definition ilog2 (q : Q) : Z :=
  let e := Z.log2 (Qnum q) - Z.log2 (Zpos (Qden q)) in
  if Qle_bool (pow2 e) q then e else e - 1.

(** The multiple of [2^e] nearest to [q], ties to even. *)
Definition quantize (e : Z) (q : Q) : Q :=
  inject_Z (round_half_even (q / pow2 e)) * pow2 e.

(** The binary64 number nearest to [q]: 53 significant bits, and multiples
    of [2^-1074] below [2^-1022]. *)
Definition binary64 (q : Q) : Q :=
  match Qnum q with
  | Z0 => 0
  | Zpos _ => quantize (Z.max (ilog2 q - 52) (-1074)) q
  | Zneg _ => - quantize (Z.max (ilog2 (- q) - 52) (-1074)) (- q)
  end.

(** [(submitted / total) * 100] on two [int]: the quotient, then the
    product, each rounded to binary64. *)
Definition float_percentage (submitted total : Z) : Q :=
  binary64 (binary64 (inject_Z submitted / inject_Z total) * 100).

(** ** Progress calculator *)

(** [WHERE course_id = ? AND assignment_type = 'quiz' AND is_active = 1] *)
Definition is_active_quiz (course_id : Z) (a : assignment) : bool :=
  (a_course_id a =? course_id) && String.eqb (a_assignment_type a) "quiz"
  && a_is_active a.

Definition count_quizzes (d : db) (course_id : Z) : Z :=
  Z.of_nat (List.length (filter (is_active_quiz course_id) (assignments d))).

Definition has_submission (d : db) (student_id : Z) (a : assignment) : bool :=
  existsb (fun sub => (s_assignment_id sub =? a_id a) && (s_student_id sub =? student_id))
          (assignment_submissions d).

(** [SELECT COUNT(DISTINCT a.id) FROM assignments a INNER JOIN
    assignment_submissions sub ON a.id = sub.assignment_id WHERE ...] *)
Definition count_submitted (d : db) (student_id course_id : Z) : Z :=
  Z.of_nat (List.length (nodup Z.eq_dec (map a_id
    (filter (fun a => is_active_quiz course_id a && has_submission d student_id a)
            (assignments d))))).

(** The statements [update_student_progress] sends to the connection; a
    storage fault is the statement at which [conn] raises. *)
Inductive progress_stmt :=
| SelectOverride | CountQuizzes | CountSubmitted | UpdateProgress | Commit.

Definition progress_stmt_eqb (a b : progress_stmt) : bool :=
  match a, b with
  | SelectOverride, SelectOverride | CountQuizzes, CountQuizzes
  | CountSubmitted, CountSubmitted | UpdateProgress, UpdateProgress
  | Commit, Commit => true
  | _, _ => false
  end.

(** [execute fault s v] is the value [v] of statement [s], or [None] when the
    statement raises. *)
Definition execute {A : Type} (fault : option progress_stmt) (s : progress_stmt)
    (v : A) : option A :=
  match fault with
  | Some f => if progress_stmt_eqb f s then None else Some v
  | None => Some v
  end.

Notation "x <- c1 ;; c2" :=
  (match c1 with Some x => c2 | None => None end)
  (at level 61, c1 at next level, right associativity).

(** The body of the [try] block: the committed database and the value
    returned. *)
Definition update_student_progress_try (fault : option progress_stmt) (d : db)
    (student_id course_id : Z) : option (db * Q) :=
  enrollment <- execute fault SelectOverride
      (option_map e_manual_progress_override
         (find (of_pair student_id course_id) (enrollments d))) ;;
  total_quizzes <- execute fault CountQuizzes (count_quizzes d course_id) ;;
  auto_progress <-
    (if total_quizzes =? 0 then Some 0%Q
     else
       submitted_quizzes <- execute fault CountSubmitted
           (count_submitted d student_id course_id) ;;
       Some (float_percentage submitted_quizzes total_quizzes)) ;;
  d' <- execute fault UpdateProgress
      (with_enrollments d
         (update_where (of_pair student_id course_id)
            (set_progress_percentage auto_progress) (enrollments d))) ;;
  committed <- execute fault Commit d' ;;
  Some (committed,
        match enrollment with
        | Some (Some manual) => manual
        | _ => auto_progress
        end).

(** [except Exception: print(...); return 0].  Neither caller commits on the
    connection afterwards, so an [UPDATE] left pending by a failed [commit]
    is dropped when the caller closes the connection. *)
Definition update_student_progress (fault : option progress_stmt) (d : db)
    (student_id course_id : Z) : db * Q :=
  match update_student_progress_try fault d student_id course_id with
  | Some r => r
  | None => (d, 0%Q)
  end.

(** The transaction of the handler's connection at a call of
    [send_notification]: Python's sqlite3 opens one before an [INSERT],
    [UPDATE] or [DELETE] and keeps it, with the write lock of the database,
    until [commit] or [rollback]. *)
Inductive transaction := NoTransaction | OpenWrite.

(** [send_notification] inserts the row on a connection of its own and
    then emits it; an exception is logged and [False] is returned.  The
    result is the list of the rows stored.  While the caller's connection
    holds the write lock the [INSERT] waits for the [timeout] of the
    connection and raises "database is locked": nothing is stored or
    emitted. *)
Definition send_notification (caller : transaction) (n : notification)
    : list notification :=
  match caller with
  | NoTransaction => [n]
  | OpenWrite => []
  end.

(** The transaction [update_student_progress] leaves on [conn].  Its
    [except] clause does not roll back: when [conn.commit()] raises, the
    [UPDATE] stays uncommitted and the connection keeps the write lock.  A
    statement that raises before the [UPDATE], or the [UPDATE] itself, has
    written nothing. *)
Definition transaction_after (fault : option progress_stmt) : transaction :=
  match fault with
  | Some Commit => OpenWrite
  | _ => NoTransaction
  end.

(** The value the [if total_quizzes == 0: ... else: ...] block leaves in
    [auto_progress] when no statement raises. *)
Definition auto_progress_of (d : db) (student_id course_id : Z) : Q :=
  if count_quizzes d course_id =? 0 then 0%Q
  else float_percentage (count_submitted d student_id course_id)
                        (count_quizzes d course_id).

(** ** Requests and responses *)

(** [flask_login.current_user] *)
Record current_user := mk_current_user {
  cu_is_authenticated : bool;
  cu_id : Z;
  cu_role : string;
  cu_full_name : string;
  cu_instructor_approval_status : string }.

Definition is_admin (cu : current_user) : bool := String.eqb (cu_role cu) "admin".
Definition is_instructor (cu : current_user) : bool := String.eqb (cu_role cu) "instructor".
Definition is_student (cu : current_user) : bool := String.eqb (cu_role cu) "student".

Definition is_instructor_approved (cu : current_user) : bool :=
  if negb (is_instructor cu) then true
  else String.eqb (cu_instructor_approval_status cu) "approved".

(** The keys of the dictionaries handed to [jsonify]. *)
Record json := mk_json {
  j_success : bool;
  j_error : option string;
  j_message : option string;
  j_progress : option Q;
  j_is_manual : option bool;
  j_count : option Z }.

Definition json_error (msg : string) : json :=
  {| j_success := false; j_error := Some msg; j_message := None;
     j_progress := None; j_is_manual := None; j_count := None |}.

Inductive response :=
| Redirect (endpoint : string) (message category : string)
    (** [flash(message, category); return redirect(url_for(endpoint))] *)
| Jsonify (body : json) (status_code : Z)
    (** [return jsonify(body), status_code] *)
| Unhandled.
    (** an exception leaves the view function: Flask answers 500 *)

(** What a view function leaves behind: the database as its own connection
    committed it, the response, the calls of [send_notification]
    ([out_sent]) and the rows those calls stored ([out_stored]), which are
    kept apart from [out_db]. *)
Record outcome := mk_outcome {
  out_db : db;
  out_response : response;
  out_sent : list notification;
  out_stored : list notification }.

Definition reply (d : db) (r : response) : outcome :=
  {| out_db := d; out_response := r; out_sent := []; out_stored := [] |}.

Definition dq : string := String (Ascii.ascii_of_nat 34) EmptyString.

Fixpoint find_map {A B : Type} (f : A -> option B) (l : list A) : option B :=
  match l with
  | [] => None
  | x :: l' => match f x with
               | Some y => Some y
               | None => find_map f l'
               end
  end.

(** [@login_required] of flask_login, with [login_view = 'login'] and the
    [login_message] set in the source. *)
Definition login_required (cu : current_user) (view : outcome) (d : db) : outcome :=
  if negb (cu_is_authenticated cu)
  then reply d (Redirect "login" "Please log in to access this page." "message")
  else view.

Definition instructor_required (cu : current_user) (view : outcome) (d : db) : outcome :=
  if negb (cu_is_authenticated cu)
  then reply d (Redirect "login" "Access denied. Please log in." "error")
  else if is_admin cu then view
  else if negb (is_instructor cu)
  then reply d (Redirect "dashboard" "Access denied. Instructor privileges required." "error")
  else if negb (is_instructor_approved cu)
  then reply d (Redirect "dashboard"
         "Your instructor account is pending approval. Please wait for admin approval."
         "warning")
  else view.

(** ** Enrollment state machine *)

(** [FROM enrollments e JOIN courses c ON e.course_id = c.id
     JOIN users u ON e.student_id = u.id
     WHERE e.id = ? AND c.instructor_id = ? AND e.status = ?], [fetchone()] *)
Definition select_enrollment (d : db) (enrollment_id instructor_id : Z)
    (status : string) : option (enrollment * course * user) :=
  find_map (fun e =>
      if has_id enrollment_id e && String.eqb (e_status e) status then
        c <- find (fun c => (c_id c =? e_course_id e)
                            && (c_instructor_id c =? instructor_id)) (courses d) ;;
        u <- find (fun u => u_id u =? e_student_id e) (users d) ;;
        Some (e, c, u)
      else None)
    (enrollments d).

(** [INSERT INTO notifications (user_id, title, message, type, related_id)] on
    the handler's own connection. *)
Definition notify_student (d : db) (e : enrollment) (title message type : string) : db :=
  with_notification d
    {| n_user_id := e_student_id e; n_title := title; n_message := message;
       n_type := type; n_related_id := Some (e_course_id e) |}.

Definition instructor_approve_enrollment (now : timestamp) (cu : current_user)
    (enrollment_id : Z) (d : db) : outcome :=
  instructor_required cu
    match select_enrollment d enrollment_id (cu_id cu) "pending" with
    | None =>
        reply d (Redirect "instructor_enrollments"
                   "Enrollment not found or already processed." "error")
    | Some (e, c, u) =>
        let d1 := with_enrollments d
                    (update_where (has_id enrollment_id) (set_approved now)
                       (enrollments d)) in
        let d2 := notify_student d1 e "Enrollment Approved"
                    ("Great news! Your enrollment in " +++ dq +++ c_title c +++ dq
                     +++ " has been approved. You now have full access to the course.")
                    "success" in
        reply d2 (Redirect "instructor_enrollments"
                    ("Approved enrollment for " +++ u_full_name u +++ " in "
                     +++ c_title c +++ ".") "success")
    end d.

Definition instructor_reject_enrollment (cu : current_user)
    (enrollment_id : Z) (d : db) : outcome :=
  instructor_required cu
    match select_enrollment d enrollment_id (cu_id cu) "pending" with
    | None =>
        reply d (Redirect "instructor_enrollments"
                   "Enrollment not found or already processed." "error")
    | Some (e, c, u) =>
        let d1 := with_enrollments d
                    (update_where (has_id enrollment_id) (set_status "rejected")
                       (enrollments d)) in
        let d2 := notify_student d1 e "Enrollment Not Approved"
                    ("Your enrollment request for " +++ dq +++ c_title c +++ dq
                     +++ " was not approved. Please contact the instructor for more information.")
                    "warning" in
        reply d2 (Redirect "instructor_enrollments"
                    ("Rejected enrollment for " +++ u_full_name u +++ " in "
                     +++ c_title c +++ ".") "warning")
    end d.

Definition instructor_block_student (cu : current_user)
    (enrollment_id : Z) (d : db) : outcome :=
  instructor_required cu
    match select_enrollment d enrollment_id (cu_id cu) "approved" with
    | None =>
        reply d (Redirect "instructor_enrollments"
                   "Enrollment not found or cannot be blocked." "error")
    | Some (e, c, u) =>
        let d1 := with_enrollments d
                    (update_where (has_id enrollment_id) (set_status "blocked")
                       (enrollments d)) in
        let d2 := notify_student d1 e "Course Access Blocked"
                    ("Your access to " +++ dq +++ c_title c +++ dq
                     +++ " has been blocked by the instructor.")
                    "warning" in
        reply d2 (Redirect "instructor_enrollments"
                    ("Blocked " +++ u_full_name u +++ " from " +++ c_title c +++ ".")
                    "success")
    end d.

Definition instructor_remove_student (cu : current_user)
    (enrollment_id : Z) (d : db) : outcome :=
  instructor_required cu
    match select_enrollment d enrollment_id (cu_id cu) "approved" with
    | None =>
        reply d (Redirect "instructor_enrollments"
                   "Enrollment not found or cannot be removed." "error")
    | Some (e, c, u) =>
        let d1 := with_enrollments d
                    (delete_where (has_id enrollment_id) (enrollments d)) in
        let d2 := notify_student d1 e "Removed from Course"
                    ("You have been removed from " +++ dq +++ c_title c +++ dq
                     +++ " by the instructor.")
                    "warning" in
        reply d2 (Redirect "instructor_enrollments"
                    ("Removed " +++ u_full_name u +++ " from " +++ c_title c +++ ".")
                    "success")
    end d.

Definition instructor_unblock_student (cu : current_user)
    (enrollment_id : Z) (d : db) : outcome :=
  instructor_required cu
    match select_enrollment d enrollment_id (cu_id cu) "blocked" with
    | None =>
        reply d (Redirect "instructor_enrollments"
                   "Enrollment not found or cannot be unblocked." "error")
    | Some (e, c, u) =>
        let d1 := with_enrollments d
                    (update_where (has_id enrollment_id) (set_status "approved")
                       (enrollments d)) in
        let d2 := notify_student d1 e "Course Access Restored"
                    ("Your access to " +++ dq +++ c_title c +++ dq
                     +++ " has been restored by the instructor.")
                    "success" in
        reply d2 (Redirect "instructor_enrollments"
                    ("Unblocked " +++ u_full_name u +++ " for " +++ c_title c +++ ".")
                    "success")
    end d.

(** ** Handlers that depend on library functions *)

Section Handlers.

(** [str.strip], [str.upper], werkzeug's [check_password_hash(pwhash,
    password)], [float(s)] ([None] for [ValueError]), the format
    specification [:.0f] and the formatting of an [int]. *)
Variable strip : string -> string.
Variable upper : string -> string.
Variable check_password_hash : string -> string -> bool.
Variable float_of_string : string -> option Q.
Variable format_0f : Q -> string.
Variable str_of_int : Z -> string.

(** [not s] for a Python string *)
Definition is_empty (s : string) : bool :=
  match s with
  | EmptyString => true
  | String _ _ => false
  end.

(** [FROM courses c JOIN users u ON c.instructor_id = u.id
     WHERE c.course_code = ? AND c.is_active = 1], [fetchone()] *)
Definition select_course_by_code (d : db) (course_code : string)
    : option (course * user) :=
  find_map (fun c =>
      if String.eqb (c_course_code c) course_code && c_is_active c then
        u <- find (fun u => u_id u =? c_instructor_id c) (users d) ;;
        Some (c, u)
      else None)
    (courses d).

(** [not course['enrollment_key_hash'] or
     not check_password_hash(course['enrollment_key_hash'], enrollment_key)] *)
Definition key_rejected (c : course) (enrollment_key : string) : bool :=
  match c_enrollment_key_hash c with
  | None => true
  | Some h => is_empty h || negb (check_password_hash h enrollment_key)
  end.

Definition max_id (l : list enrollment) : Z :=
  fold_right Z.max 0 (map e_id l).

(** [INSERT INTO enrollments (student_id, course_id, status) VALUES (?, ?,
    'pending')]: the other columns take their defaults, the id comes from
    the sequence, and [UNIQUE(student_id, course_id)] raises
    [IntegrityError] ([None]). *)
Definition insert_enrollment (now : timestamp) (d : db) (student_id course_id : Z)
    : option db :=
  if existsb (of_pair student_id course_id) (enrollments d) then None
  else
    let new_id := Z.max (enrollments_seq d) (max_id (enrollments d)) + 1 in
    Some {| users := users d; courses := courses d;
            enrollments := enrollments d ++
              [ {| e_id := new_id; e_student_id := student_id;
                   e_course_id := course_id; e_status := "pending";
                   e_enrolled_at := now; e_approved_at := None;
                   e_progress_percentage := 0%Q;
                   e_manual_progress_override := None |} ];
            enrollments_seq := new_id; assignments := assignments d;
            assignment_submissions := assignment_submissions d;
            notifications := notifications d |}.

(** [course_code_field] and [enrollment_key_field] are
    [request.form.get(..., '')]. *)
Definition student_enroll (now : timestamp) (cu : current_user)
    (course_code_field enrollment_key_field : string) (d : db) : outcome :=
  login_required cu
    (if negb (is_student cu) then
       reply d (Redirect "dashboard" "Access denied. Student account required." "error")
     else
       let course_code := upper (strip course_code_field) in
       let enrollment_key := strip enrollment_key_field in
       if is_empty course_code || is_empty enrollment_key then
         reply d (Redirect "student_browse_courses"
                    "Course code and enrollment key are required." "error")
       else
         match select_course_by_code d course_code with
         | None =>
             reply d (Redirect "student_browse_courses"
                        ("Course with code " +++ dq +++ course_code +++ dq
                         +++ " not found or is inactive.") "error")
         | Some (c, instructor) =>
             if key_rejected c enrollment_key then
               reply d (Redirect "student_browse_courses"
                          "Invalid enrollment key. Please check with your instructor."
                          "error")
             else
               match find (of_pair (cu_id cu) (c_id c)) (enrollments d) with
               | Some existing_enrollment =>
                   reply d (Redirect "student_browse_courses"
                              "You have already requested enrollment for this course."
                              "warning")
               | None =>
                   if c_max_students c <=? count_approved d (c_id c) then
                     reply d (Redirect "student_browse_courses"
                                "Course is full. No more enrollments accepted."
                                "warning")
                   else
                     match insert_enrollment now d (cu_id cu) (c_id c) with
                     | Some d1 =>
                         let d2 := with_notification d1
                           {| n_user_id := c_instructor_id c;
                              n_title := "New Enrollment Request";
                              n_message :=
                                cu_full_name cu +++ " has requested enrollment in "
                                +++ dq +++ c_title c +++ dq +++ " (" +++ course_code
                                +++ "). Please review and approve.";
                              n_type := "info";
                              n_related_id := Some (c_id c) |} in
                         reply d2 (Redirect "student_browse_courses"
                           ("Enrollment request submitted for " +++ dq +++ c_title c
                            +++ dq +++ "! Your instructor (" +++ u_full_name instructor
                            +++ ") will review and approve your request.") "success")
                     | None =>
                         reply d (Redirect "student_browse_courses"
                           "Error submitting enrollment request. Please try again."
                           "error")
                     end
               end
         end)
    d.

(** ** Manual progress override *)

(** [SELECT * FROM courses WHERE id = ? AND instructor_id = ?], [fetchone()] *)
Definition select_own_course (d : db) (course_id instructor_id : Z) : option course :=
  find (fun c => (c_id c =? course_id) && (c_instructor_id c =? instructor_id))
       (courses d).

Definition progress_notification (student_id course_id : Z) (message : string)
    : notification :=
  {| n_user_id := student_id; n_title := "Course Progress Updated";
     n_message := message; n_type := "info"; n_related_id := Some course_id |}.

Definition updated_message (c : course) (progress : Q) : string :=
  "Your instructor has updated your progress in " +++ dq +++ c_title c +++ dq
  +++ " to " +++ format_0f progress +++ "%".

(** [FROM enrollments e JOIN users u ON e.student_id = u.id
     WHERE e.course_id = ? AND e.status = 'approved'], [fetchall()] *)
Definition select_approved_students (d : db) (course_id : Z) : list (Z * string) :=
  flat_map (fun e =>
      if (e_course_id e =? course_id) && String.eqb (e_status e) "approved" then
        map (fun u => (e_student_id e, u_full_name u))
            (filter (fun u => u_id u =? e_student_id e) (users d))
      else [])
    (enrollments d).

(** The [for student in students] loop: one [UPDATE] and one
    [send_notification] per row.  The [UPDATE] of the iteration is not
    committed when [send_notification] is called: [conn.commit()] follows
    the loop. *)
Fixpoint set_progress_loop (c : course) (course_id : Z) (progress : Q)
    (students : list (Z * string)) (l : list enrollment)
    (sent stored : list notification)
    : list enrollment * (list notification * list notification) :=
  match students with
  | [] => (l, (sent, stored))
  | student :: rest =>
      let n := progress_notification (fst student) course_id
                 (updated_message c progress) in
      set_progress_loop c course_id progress rest
        (update_where (of_pair (fst student) course_id)
           (set_override_and_percentage progress progress) l)
        (sent ++ [n]) (stored ++ send_notification OpenWrite n)
  end.

(** [progress < 0 or progress > 100] on a finite [float].  [float('nan')]
    is neither below 0 nor above 100: the setters let it through and sqlite3
    stores it as [NULL].  No rational stands for it, so a text that
    [float()] reads as NaN has no run here. *)
Definition out_of_range (progress : Q) : bool :=
  negb (Qle_bool 0 progress) || negb (Qle_bool progress 100).

(** [progress_field] is [request.form.get('progress')]. *)
Definition instructor_set_progress_bulk (cu : current_user) (course_id : Z)
    (progress_field : option string) (d : db) : outcome :=
  instructor_required cu
    match select_own_course d course_id (cu_id cu) with
    | None => reply d (Jsonify (json_error "Course not found or access denied") 403)
    | Some c =>
        match progress_field with
        | None => reply d (Jsonify (json_error "Please enter a progress value") 400)
        | Some text =>
            if is_empty text then
              reply d (Jsonify (json_error "Please enter a progress value") 400)
            else
              match float_of_string text with
              | None => reply d (Jsonify (json_error "Invalid progress value") 400)
              | Some progress =>
                  if out_of_range progress then
                    reply d (Jsonify
                      (json_error "Progress must be between 0 and 100") 400)
                  else
                    let students := select_approved_students d course_id in
                    let '(l, (sent, stored)) :=
                      set_progress_loop c course_id progress students
                        (enrollments d) [] [] in
                    let count := Z.of_nat (List.length students) in
                    {| out_db := with_enrollments d l;
                       out_response := Jsonify
                         {| j_success := true; j_error := None;
                            j_message := Some ("Progress set to " +++ format_0f progress
                              +++ "% for all " +++ str_of_int count
                              +++ " students");
                            j_progress := None; j_is_manual := None;
                            j_count := Some count |} 200;
                       out_sent := sent;
                       out_stored := stored |}
              end
        end
    end d.

(** The first [try] block of [instructor_set_student_progress]: clear the
    override, commit, recompute, notify.  [fault] is the statement of the
    nested [update_student_progress] at which the connection raises, if
    any. *)
Definition clear_manual_override (fault : option progress_stmt) (c : course)
    (course_id student_id : Z) (d : db) : outcome :=
  let d1 := with_enrollments d
              (update_where (of_pair student_id course_id)
                 (set_manual_override None) (enrollments d)) in
  let '(d2, auto_progress) :=
    update_student_progress fault d1 student_id course_id in
  let n := progress_notification student_id course_id
             ("Your progress in " +++ dq +++ c_title c +++ dq
              +++ " has been reset to automatic tracking ("
              +++ format_0f auto_progress +++ "%)") in
  {| out_db := d2;
     out_response := Jsonify
       {| j_success := true; j_error := None;
          j_message := Some ("Manual progress cleared. Automatic progress is "
                             +++ format_0f auto_progress +++ "%");
          j_progress := Some auto_progress; j_is_manual := Some false;
          j_count := None |} 200;
     out_sent := [n];
     out_stored := send_notification (transaction_after fault) n |}.

(** The second [try] block: [UPDATE], [send_notification], [commit],
    [close], and then the response.  [send_notification] is called while
    the [UPDATE] is not committed.  Without a row in [users],
    [student["full_name"]] raises [TypeError] after the commit, and
    [conn.rollback()] in the [except] clause raises on the closed
    connection. *)
Definition store_manual_override (c : course) (course_id student_id : Z)
    (progress : Q) (d : db) : outcome :=
  let d1 := with_enrollments d
              (update_where (of_pair student_id course_id)
                 (set_override_and_percentage progress progress)
                 (enrollments d)) in
  let n := progress_notification student_id course_id
             (updated_message c progress) in
  let sent := [n] in
  let stored := send_notification OpenWrite n in
  match find (fun u => u_id u =? student_id) (users d) with
  | Some student =>
      {| out_db := d1;
         out_response := Jsonify
           {| j_success := true; j_error := None;
              j_message := Some ("Progress set to " +++ format_0f progress
                                 +++ "% for " +++ u_full_name student);
              j_progress := Some progress; j_is_manual := Some true;
              j_count := None |} 200;
         out_sent := sent; out_stored := stored |}
  | None => {| out_db := d1; out_response := Unhandled; out_sent := sent;
               out_stored := stored |}
  end.

Definition instructor_set_student_progress (fault : option progress_stmt)
    (cu : current_user) (course_id student_id : Z)
    (progress_field : option string) (d : db) : outcome :=
  instructor_required cu
    match select_own_course d course_id (cu_id cu) with
    | None => reply d (Jsonify (json_error "Course not found or access denied") 403)
    | Some c =>
        match progress_field with
        | None => clear_manual_override fault c course_id student_id d
        | Some text =>
            if is_empty text then
              clear_manual_override fault c course_id student_id d
            else
              match float_of_string text with
              | None => reply d (Jsonify (json_error "Invalid progress value") 400)
              | Some progress =>
                  if out_of_range progress then
                    reply d (Jsonify
                      (json_error "Progress must be between 0 and 100") 400)
                  else store_manual_override c course_id student_id progress d
              end
        end
    end d.

End Handlers.

(** ** Requests *)

(** The routes of the core. *)
Inductive request :=
| StudentEnroll (course_code_field enrollment_key_field : string)
| ApproveEnrollment (enrollment_id : Z)
| RejectEnrollment (enrollment_id : Z)
| BlockStudent (enrollment_id : Z)
| RemoveStudent (enrollment_id : Z)
| UnblockStudent (enrollment_id : Z)
| SetProgressBulk (course_id : Z) (progress_field : option string)
| SetStudentProgress (course_id student_id : Z) (progress_field : option string).

Section Dispatch.

Variable strip : string -> string.
Variable upper : string -> string.
Variable check_password_hash : string -> string -> bool.
Variable float_of_string : string -> option Q.
Variable format_0f : Q -> string.
Variable str_of_int : Z -> string.

(** [now] is [CURRENT_TIMESTAMP]; [fault] is the statement of the nested
    [update_student_progress] at which the storage raises, if any. *)
Definition handle (now : timestamp) (fault : option progress_stmt)
    (cu : current_user) (r : request) (d : db) : outcome :=
  match r with
  | StudentEnroll code key =>
      student_enroll strip upper check_password_hash now cu code key d
  | ApproveEnrollment id => instructor_approve_enrollment now cu id d
  | RejectEnrollment id => instructor_reject_enrollment cu id d
  | BlockStudent id => instructor_block_student cu id d
  | RemoveStudent id => instructor_remove_student cu id d
  | UnblockStudent id => instructor_unblock_student cu id d
  | SetProgressBulk course_id field =>
      instructor_set_progress_bulk float_of_string format_0f str_of_int cu
        course_id field d
  | SetStudentProgress course_id student_id field =>
      instructor_set_student_progress float_of_string format_0f fault cu
        course_id student_id field d
  end.

End Dispatch.

(** ** Predicates used in the statements *)

(** The users [@instructor_required] lets through: a logged-in admin, or a
    logged-in instructor whose account is approved. *)
Definition passes_instructor_required (cu : current_user) : bool :=
  cu_is_authenticated cu
  && (is_admin cu || (is_instructor cu && is_instructor_approved cu)).

(** The instructor owns none of the courses an enrollment with this id
    refers to. *)
Definition owns_no_course_of (d : db) (instructor_id enrollment_id : Z) : Prop :=
  forall e c, In e (enrollments d) -> e_id e = enrollment_id ->
              In c (courses d) -> c_id c = e_course_id e ->
              c_instructor_id c <> instructor_id.

(** The row [e'] is [e] up to its status. *)
Definition same_but_status (e e' : enrollment) : Prop :=
  e_id e' = e_id e /\ e_student_id e' = e_student_id e /\
  e_course_id e' = e_course_id e /\ e_enrolled_at e' = e_enrolled_at e /\
  e_approved_at e' = e_approved_at e /\
  e_progress_percentage e' = e_progress_percentage e /\
  e_manual_progress_override e' = e_manual_progress_override e.

(** Rows that keep their id, status and approval time. *)
Definition keeps (e e' : enrollment) : Prop :=
  e_id e' = e_id e /\ e_status e' = e_status e /\
  e_approved_at e' = e_approved_at e.

Definition kept (l l' : list enrollment) : Prop :=
  forall e', In e' l' -> exists e, In e l /\ keeps e e'.

(** The responses that turn a request down: a JSON body with
    [success: False], a flash of category [error], the login message, and a
    [warning] anywhere but on [instructor_enrollments], where the only
    warning is the confirmation of a rejection. *)
Definition refused (r : response) : bool :=
  match r with
  | Redirect endpoint _ category =>
      String.eqb category "error" || String.eqb category "message"
      || (String.eqb category "warning"
          && negb (String.eqb endpoint "instructor_enrollments"))
  | Jsonify body _ => negb (j_success body)
  | Unhandled => false
  end.

Definition untouched (d : db) (out : outcome) : Prop :=
  refused (out_response out) = true ->
  out_db out = d /\ out_sent out = [] /\ out_stored out = [].

(** A statement that [update_student_progress] reaches: [CountSubmitted] is
    skipped when the course has no quiz. *)
Definition reached (d : db) (course_id : Z) (s : progress_stmt) : Prop :=
  s = CountSubmitted -> count_quizzes d course_id <> 0.

(** ** A sample database

    One instructor, two students and the course CS101 with room for a single
    student and four active quizzes. *)

Module Sample.

Local Open Scope string_scope.

(** Stand-ins for the library functions, on ASCII text and integer
    literals. *)
Definition is_space (a : Ascii.ascii) : bool :=
  let n := Ascii.nat_of_ascii a in
  Nat.eqb n 32 || (Nat.leb 9 n && Nat.leb n 13).

Fixpoint lstrip (s : string) : string :=
  match s with
  | EmptyString => EmptyString
  | String a rest => if is_space a then lstrip rest else s
  end.

Fixpoint rstrip (s : string) : string :=
  match s with
  | EmptyString => EmptyString
  | String a rest =>
      match rstrip rest with
      | EmptyString => if is_space a then EmptyString else String a EmptyString
      | kept_rest => String a kept_rest
      end
  end.

Definition strip (s : string) : string := rstrip (lstrip s).

Definition upper_ascii (a : Ascii.ascii) : Ascii.ascii :=
  let n := Ascii.nat_of_ascii a in
  if Nat.leb 97 n && Nat.leb n 122 then Ascii.ascii_of_nat (n - 32) else a.

Fixpoint upper (s : string) : string :=
  match s with
  | EmptyString => EmptyString
  | String a rest => String (upper_ascii a) (upper rest)
  end.

Definition check_password_hash (pwhash password : string) : bool :=
  String.eqb pwhash ("hash:" +++ password).

Definition float_of_string (s : string) : option Q :=
  option_map (fun i => inject_Z (Z.of_int i)) (NilZero.int_of_string s).

Definition str_of_int (z : Z) : string := NilZero.string_of_int (Z.to_int z).

Definition format_0f (q : Q) : string := str_of_int (round_half_even q).

Definition teacher : current_user :=
  {| cu_is_authenticated := true; cu_id := 1; cu_role := "instructor";
     cu_full_name := "Tess"; cu_instructor_approval_status := "approved" |}.
Definition other_teacher : current_user :=
  {| cu_is_authenticated := true; cu_id := 4; cu_role := "instructor";
     cu_full_name := "Omar"; cu_instructor_approval_status := "approved" |}.
Definition alice : current_user :=
  {| cu_is_authenticated := true; cu_id := 2; cu_role := "student";
     cu_full_name := "Alice"; cu_instructor_approval_status := "approved" |}.
Definition bob : current_user :=
  {| cu_is_authenticated := true; cu_id := 3; cu_role := "student";
     cu_full_name := "Bob"; cu_instructor_approval_status := "approved" |}.

Definition cs101 : course :=
  {| c_id := 10; c_course_code := "CS101"; c_title := "Intro";
     c_instructor_id := 1; c_max_students := 1;
     c_enrollment_key_hash := Some "hash:secret"; c_is_active := true |}.

Definition quiz (id : Z) : assignment :=
  {| a_id := id; a_course_id := 10; a_assignment_type := "quiz";
     a_is_active := true |}.

(** No enrollment yet. *)
Definition db0 : db :=
  {| users := [ mk_user 1 "instructor" "Tess"; mk_user 2 "student" "Alice";
                mk_user 3 "student" "Bob"; mk_user 4 "instructor" "Omar" ];
     courses := [ cs101 ];
     enrollments := [];
     enrollments_seq := 0;
     assignments := [ quiz 21; quiz 22; quiz 23; quiz 24 ];
     assignment_submissions := [ mk_submission 21 2; mk_submission 22 2 ];
     notifications := [] |}.

(** The form as a student types it: the code in lower case, with blanks. *)
Definition enroll (now : timestamp) (cu : current_user) (d : db) : outcome :=
  student_enroll strip upper check_password_hash now cu " cs101 " "secret " d.

Definition set_progress (fault : option progress_stmt) (cu : current_user)
    (course_id student_id : Z) (field : option string) (d : db) : outcome :=
  instructor_set_student_progress float_of_string format_0f fault cu
    course_id student_id field d.

(** Alice has requested enrollment. *)
Definition db1 : db := out_db (enroll 100 alice db0).
(** Alice is approved: the course is full. *)
Definition db2 : db := out_db (instructor_approve_enrollment 101 teacher 1 db1).
(** Alice's two submissions out of four quizzes are counted. *)
Definition db3 : db := fst (update_student_progress None db2 2 10).
(** The instructor sets Alice's progress to 90. *)
Definition db4 : db := out_db (set_progress None teacher 10 2 (Some "90") db3).

(** Bob requests enrollment while Alice is still pending; then Alice is
    approved. *)
Definition db1b : db := out_db (enroll 102 bob db1).
Definition db2b : db := out_db (instructor_approve_enrollment 103 teacher 1 db1b).

End Sample.

(** Alice has submitted eleven of the twenty quizzes of the course. *)
Module Twenty.

Definition quizzes : list assignment :=
  map (fun n => Sample.quiz (100 + Z.of_nat n)) (seq 1 20).

Definition submissions : list assignment_submission :=
  map (fun n => mk_submission (100 + Z.of_nat n) 2) (seq 1 11).

Definition db0 : db :=
  {| users := users Sample.db2; courses := courses Sample.db2;
     enrollments := enrollments Sample.db2;
     enrollments_seq := enrollments_seq Sample.db2;
     assignments := quizzes; assignment_submissions := submissions;
     notifications := [] |}.

End Twenty.

(** * The rest of the application *)

(** ** Predicates on the enrollment table *)

(** [UNIQUE(student_id, course_id)] *)
Definition enrollment_pairs (d : db) : list (Z * Z) :=
  map (fun e => (e_student_id e, e_course_id e)) (enrollments d).

(** The status changes of the transition table: none, or the one the request
    stands for. *)
Definition follows_table (r : request) (s s' : string) : Prop :=
  s' = s \/
  match r with
  | ApproveEnrollment _ => s = "pending"%string /\ s' = "approved"%string
  | RejectEnrollment _ => s = "pending"%string /\ s' = "rejected"%string
  | BlockStudent _ => s = "approved"%string /\ s' = "blocked"%string
  | UnblockStudent _ => s = "blocked"%string /\ s' = "approved"%string
  | _ => False
  end.

(** No row has an id beyond the sequence. *)
Definition ids_below_seq (d : db) : Prop :=
  forall e, In e (enrollments d) -> e_id e <= enrollments_seq d.

(** Rows that keep their id, student, course and status. *)
Definition carries (e e' : enrollment) : Prop :=
  e_id e' = e_id e /\ e_student_id e' = e_student_id e /\
  e_course_id e' = e_course_id e /\ e_status e' = e_status e.

Definition carried (l l' : list enrollment) : Prop :=
  forall e, In e l -> exists e', In e' l' /\ carries e e'.

(** ** Access control *)

(** [User.is_instructor_pending], [User.is_instructor_rejected] *)
Definition is_instructor_pending (cu : current_user) : bool :=
  is_instructor cu && String.eqb (cu_instructor_approval_status cu) "pending".

Definition is_instructor_rejected (cu : current_user) : bool :=
  is_instructor cu && String.eqb (cu_instructor_approval_status cu) "rejected".

Definition admin_required (cu : current_user) (view : outcome) (d : db) : outcome :=
  if negb (cu_is_authenticated cu) || negb (is_admin cu)
  then reply d (Redirect "dashboard" "Access denied. Admin privileges required." "error")
  else view.

(** ** The schema of [assignments] *)

(** The columns [init_db] gives the table: those of [CREATE TABLE IF NOT
    EXISTS assignments] and those of the four [ALTER TABLE assignments ADD
    COLUMN]. *)
Definition init_db_assignments_columns : list string :=
  [ "id"; "course_id"; "title"; "description"; "instructions"; "due_date";
    "max_points"; "allow_late_submission"; "created_at";
    "assignment_type"; "status"; "published_at"; "ai_context" ]%string.

(** The columns of [assignments] that a statement of
    [update_student_progress] names. *)
Definition assignments_columns_of (s : progress_stmt) : list string :=
  match s with
  | SelectOverride => []
  | CountQuizzes => [ "course_id"; "assignment_type"; "is_active" ]%string
  | CountSubmitted => [ "id"; "course_id"; "assignment_type"; "is_active" ]%string
  | UpdateProgress => []
  | Commit => []
  end.

(** sqlite3 raises [OperationalError] (no such column) for a statement that
    names a column the table lacks: the first such statement, if any. *)
Definition schema_fault (columns : list string) : option progress_stmt :=
  find (fun s => negb (forallb (fun col => existsb (String.eqb col) columns)
                               (assignments_columns_of s)))
       [ SelectOverride; CountQuizzes; CountSubmitted; UpdateProgress; Commit ].

(** ** Quiz submission *)

(** [assignment_submissions] with the columns the quiz handlers touch; the
    table of the core is its projection on [(assignment_id, student_id)]. *)
Record submission_row := mk_submission_row {
  sr_id : Z;
  sr_assignment_id : Z;
  sr_student_id : Z;
  sr_submission_text : option string;
  sr_submitted_at : timestamp;
  sr_grade : option Q;
  sr_ai_feedback : option string;
  sr_instructor_feedback : option string;
  sr_graded_at : option timestamp }.

(** [quiz_questions]: [points INTEGER DEFAULT 1], [correct_answer TEXT] *)
Record quiz_question := mk_quiz_question {
  qq_id : Z;
  qq_assignment_id : Z;
  qq_points : Z;
  qq_correct_answer : option string }.

(** [student_mcq_answers], [UNIQUE(submission_id, question_id)] *)
Record mcq_answer := mk_mcq_answer {
  ma_submission_id : Z;
  ma_question_id : Z;
  ma_selected_option : string;
  ma_is_correct : bool;
  ma_points_earned : Z }.

(** The database with the quiz tables; [sc_submissions_seq] is the
    [sqlite_sequence] entry of [assignment_submissions]. *)
Record school := mk_school {
  sc_db : db;
  sc_submissions : list submission_row;
  sc_submissions_seq : Z;
  sc_quiz_questions : list quiz_question;
  sc_mcq_answers : list mcq_answer }.

Definition to_submission (r : submission_row) : assignment_submission :=
  {| s_assignment_id := sr_assignment_id r; s_student_id := sr_student_id r |}.

(** The core database of a school: its [assignment_submissions] are the
    rows of [sc_submissions]. *)
Definition core (s : school) : db :=
  {| users := users (sc_db s); courses := courses (sc_db s);
     enrollments := enrollments (sc_db s);
     enrollments_seq := enrollments_seq (sc_db s);
     assignments := assignments (sc_db s);
     assignment_submissions := map to_submission (sc_submissions s);
     notifications := notifications (sc_db s) |}.


(** The dictionaries appended to [mcq_answers]. *)
Record graded_answer := mk_graded_answer {
  ga_question_id : Z;
  ga_selected_option : string;
  ga_is_correct : bool;
  ga_points_earned : Z }.

(** The [for question in questions] loop: [total_score], [total_possible]
    and [mcq_answers]. *)
Fixpoint grading_loop (strip : string -> string) (form : Z -> string)
    (questions : list quiz_question)
    (total_score total_possible : Z) (mcq_answers : list graded_answer)
    : Z * Z * list graded_answer :=
  match questions with
  | [] => (total_score, total_possible, mcq_answers)
  | question :: rest =>
      let selected_answer := strip (form (qq_id question)) in
      if is_empty selected_answer then
        grading_loop strip form rest
          total_score (total_possible + qq_points question) mcq_answers
      else
        let is_correct :=
          match qq_correct_answer question with
          | Some correct => String.eqb selected_answer correct
          | None => false
          end in
        let points_earned := if is_correct then qq_points question else 0 in
        grading_loop strip form rest
          (total_score + points_earned) (total_possible + qq_points question)
          (mcq_answers ++
           [ {| ga_question_id := qq_id question;
                ga_selected_option := selected_answer;
                ga_is_correct := is_correct;
                ga_points_earned := points_earned |} ])
  end.



(** [UPDATE assignment_submissions SET ... WHERE p] *)
Definition update_submissions (p : submission_row -> bool)
    (f : submission_row -> submission_row) (l : list submission_row)
    : list submission_row :=
  map (fun r => if p r then f r else r) l.




Section Quiz.

Variable strip : string -> string.
Variable str_of_int : Z -> string.
Variable format_1f : Q -> string.


End Quiz.

(** ** Constraints of the quiz tables *)

(** The primary keys, the [UNIQUE] constraints, the sequence and the
    reference from [student_mcq_answers] to [assignment_submissions]. *)
Definition school_ok (s : school) : Prop :=
  NoDup (map qq_id (sc_quiz_questions s)) /\
  NoDup (map sr_id (sc_submissions s)) /\
  NoDup (map (fun r => (sr_assignment_id r, sr_student_id r)) (sc_submissions s)) /\
  (forall r, In r (sc_submissions s) -> sr_id r <= sc_submissions_seq s) /\
  (forall a, In a (sc_mcq_answers s) ->
     exists r, In r (sc_submissions s) /\ sr_id r = ma_submission_id a) /\
  NoDup (map (fun a => (ma_submission_id a, ma_question_id a)) (sc_mcq_answers s)).

(** ** Notions used to state the grading *)

Definition total (l : list Z) : Z := fold_right Z.add 0 l.

(** The question was answered: the field is not empty once stripped. *)
Definition answered (strip : string -> string) (form : Z -> string)
    (q : quiz_question) : bool :=
  negb (is_empty (strip (form (qq_id q)))).

(** The question was answered with its [correct_answer]. *)
Definition answered_correctly (strip : string -> string) (form : Z -> string)
    (q : quiz_question) : bool :=
  answered strip form q
  && match qq_correct_answer q with
     | Some correct => String.eqb (strip (form (qq_id q))) correct
     | None => false
     end.

(** ** Deleting a quiz *)

(** What [instructor_required] answers when it does not call the view. *)
Definition instructor_refusal (cu : current_user) : option response :=
  if negb (cu_is_authenticated cu)
  then Some (Redirect "login" "Access denied. Please log in." "error")
  else if is_admin cu then None
  else if negb (is_instructor cu)
  then Some (Redirect "dashboard"
               "Access denied. Instructor privileges required." "error")
  else if negb (is_instructor_approved cu)
  then Some (Redirect "dashboard"
         "Your instructor account is pending approval. Please wait for admin approval."
         "warning")
  else None.

Definition with_assignments (d : db) (l : list assignment) : db :=
  {| users := users d; courses := courses d; enrollments := enrollments d;
     enrollments_seq := enrollments_seq d; assignments := l;
     assignment_submissions := assignment_submissions d;
     notifications := notifications d |}.

(** [FROM assignments a JOIN courses c ON a.course_id = c.id
     WHERE a.id = ? AND a.course_id = ? AND c.instructor_id = ?],
    [fetchone()] *)
Definition select_own_quiz (d : db) (quiz_id course_id instructor_id : Z)
    : option assignment :=
  find (fun a =>
      (a_id a =? quiz_id) && (a_course_id a =? course_id)
      && existsb (fun c => (c_id c =? a_course_id a)
                           && (c_instructor_id c =? instructor_id))
                 (courses d))
    (assignments d).

(** [DELETE FROM student_mcq_answers WHERE submission_id IN
     (SELECT id FROM assignment_submissions WHERE assignment_id = ?)] *)
Definition delete_answers_of_quiz (quiz_id : Z) (submissions : list submission_row)
    (table : list mcq_answer) : list mcq_answer :=
  filter (fun a =>
      negb (existsb (fun r => (sr_assignment_id r =? quiz_id)
                              && (sr_id r =? ma_submission_id a))
                    submissions))
    table.

(** [title quiz] is the [title] column of the row, which only the message
    shows.  The redirect goes to the quizzes of [course_id]. *)
Definition instructor_delete_quiz (title : assignment -> string)
    (cu : current_user) (course_id quiz_id : Z) (s : school)
    : school * response :=
  match instructor_refusal cu with
  | Some refusal => (s, refusal)
  | None =>
      match select_own_quiz (core s) quiz_id course_id (cu_id cu) with
      | None =>
          (s, Redirect "instructor_course_quizzes"
                "Quiz not found or access denied." "error")
      | Some quiz =>
          ({| sc_db :=
                with_assignments (sc_db s)
                  (filter (fun a => negb (a_id a =? quiz_id))
                          (assignments (sc_db s)));
              sc_submissions :=
                filter (fun r => negb (sr_assignment_id r =? quiz_id))
                       (sc_submissions s);
              sc_submissions_seq := sc_submissions_seq s;
              sc_quiz_questions :=
                filter (fun q => negb (qq_assignment_id q =? quiz_id))
                       (sc_quiz_questions s);
              sc_mcq_answers :=
                delete_answers_of_quiz quiz_id (sc_submissions s)
                  (sc_mcq_answers s) |},
           Redirect "instructor_course_quizzes"
             ("Quiz " +++ dq +++ title quiz +++ dq
              +++ " and all associated data deleted successfully.")
             "success")
      end
  end.

(** ** Deleting a course *)

Definition with_courses (d : db) (l : list course) : db :=
  {| users := users d; courses := l; enrollments := enrollments d;
     enrollments_seq := enrollments_seq d; assignments := assignments d;
     assignment_submissions := assignment_submissions d;
     notifications := notifications d |}.

(** [DELETE FROM enrollments WHERE course_id = ?] and [DELETE FROM courses
    WHERE id = ?].  The six deletions in between are on tables outside [db],
    each in a [try] whose [except] passes. *)
Definition instructor_delete_course (cu : current_user) (course_id : Z) (d : db)
    : outcome :=
  instructor_required cu
    (match select_own_course d course_id (cu_id cu) with
     | None =>
         reply d (Redirect "instructor_courses"
                    "Course not found or access denied." "error")
     | Some course =>
         reply
           (with_courses
              (with_enrollments d
                 (delete_where (fun e => e_course_id e =? course_id)
                               (enrollments d)))
              (filter (fun c => negb (c_id c =? course_id)) (courses d)))
           (Redirect "instructor_courses"
              ("Course " +++ dq +++ c_title course +++ dq
               +++ " has been deleted successfully.") "success")
     end)
    d.

(** ** Accounts *)

(** [users] with the columns the account handlers touch.  [is_active] is
    [true] for 1; the table of the core is the projection on [id], [role]
    and [full_name]. *)
Record account := mk_account {
  ac_id : Z;
  ac_role : string;
  ac_full_name : string;
  ac_instructor_approval_status : option string;
  ac_approved_by : option Z;
  ac_approved_at : option timestamp;
  ac_is_active : bool }.

Record site := mk_site {
  st_accounts : list account;
  st_db : db }.

Definition to_user (a : account) : user :=
  {| u_id := ac_id a; u_role := ac_role a; u_full_name := ac_full_name a |}.

(** The core database of a site: its [users] are the rows of
    [st_accounts]. *)
Definition site_db (s : site) : db :=
  {| users := map to_user (st_accounts s); courses := courses (st_db s);
     enrollments := enrollments (st_db s);
     enrollments_seq := enrollments_seq (st_db s);
     assignments := assignments (st_db s);
     assignment_submissions := assignment_submissions (st_db s);
     notifications := notifications (st_db s) |}.

(** [load_user]: [SELECT * FROM users WHERE id = ? AND is_active = 1],
    [fetchone()], and
    [user['instructor_approval_status'] if user['instructor_approval_status']
     else 'approved']. *)
Definition user_of_account (a : account) : current_user :=
  {| cu_is_authenticated := true; cu_id := ac_id a; cu_role := ac_role a;
     cu_full_name := ac_full_name a;
     cu_instructor_approval_status :=
       match ac_instructor_approval_status a with
       | Some status => if is_empty status then "approved" else status
       | None => "approved"
       end |}.

Definition load_user (accounts : list account) (user_id : Z)
    : option current_user :=
  option_map user_of_account
    (find (fun a => (ac_id a =? user_id) && ac_is_active a) accounts).

(** What [admin_required] and [login_required] answer when they do not call
    the view. *)
Definition admin_refusal (cu : current_user) : option response :=
  if negb (cu_is_authenticated cu) || negb (is_admin cu)
  then Some (Redirect "dashboard" "Access denied. Admin privileges required."
               "error")
  else None.

Definition login_refusal (cu : current_user) : option response :=
  if negb (cu_is_authenticated cu)
  then Some (Redirect "login" "Please log in to access this page." "message")
  else None.

(** [UPDATE users SET ... WHERE id = ?] *)
Definition update_account (user_id : Z) (f : account -> account)
    (l : list account) : list account :=
  map (fun a => if ac_id a =? user_id then f a else a) l.

(** [SET instructor_approval_status = ?, approved_by = ?,
     approved_at = CURRENT_TIMESTAMP] *)
Definition set_decision (status : string) (admin_id : Z) (now : timestamp)
    (a : account) : account :=
  {| ac_id := ac_id a; ac_role := ac_role a; ac_full_name := ac_full_name a;
     ac_instructor_approval_status := Some status;
     ac_approved_by := Some admin_id; ac_approved_at := Some now;
     ac_is_active := ac_is_active a |}.

(** [SET is_active = ?] *)
Definition set_is_active (new_status : bool) (a : account) : account :=
  {| ac_id := ac_id a; ac_role := ac_role a; ac_full_name := ac_full_name a;
     ac_instructor_approval_status := ac_instructor_approval_status a;
     ac_approved_by := ac_approved_by a; ac_approved_at := ac_approved_at a;
     ac_is_active := new_status |}.

(** [WHERE id = ? AND role = 'instructor' AND
     instructor_approval_status = 'pending'], [fetchone()] *)
Definition select_pending_instructor (accounts : list account)
    (instructor_id : Z) : option account :=
  find (fun a =>
      (ac_id a =? instructor_id) && String.eqb (ac_role a) "instructor"
      && match ac_instructor_approval_status a with
         | Some status => String.eqb status "pending"
         | None => false
         end)
    accounts.

(** [WHERE id = ? AND role = ?], [fetchone()] *)
Definition select_account (accounts : list account) (user_id : Z)
    (role : string) : option account :=
  find (fun a => (ac_id a =? user_id) && String.eqb (ac_role a) role) accounts.

(** The body shared by [admin_approve_instructor] and
    [admin_reject_instructor], which differ in the status written, the
    notification and the message. *)
Definition decide_instructor (status : string) (notice : notification)
    (message : account -> string) (category : string) (now : timestamp)
    (cu : current_user) (instructor_id : Z) (s : site) : site * response :=
  match admin_refusal cu with
  | Some refusal => (s, refusal)
  | None =>
      match select_pending_instructor (st_accounts s) instructor_id with
      | None =>
          (s, Redirect "admin_instructors"
                "Instructor not found or already processed." "error")
      | Some instructor =>
          ({| st_accounts :=
                update_account instructor_id
                  (set_decision status (cu_id cu) now) (st_accounts s);
              st_db := with_notification (st_db s) notice |},
           Redirect "admin_instructors" (message instructor) category)
      end
  end.

Definition admin_approve_instructor (now : timestamp) (cu : current_user)
    (instructor_id : Z) (s : site) : site * response :=
  decide_instructor "approved"
    {| n_user_id := instructor_id; n_title := "Instructor Account Approved";
       n_message :=
         "Congratulations! Your instructor account has been approved. You can now create courses and access all instructor features.";
       n_type := "success"; n_related_id := None |}
    (fun instructor =>
       "Instructor " +++ ac_full_name instructor
       +++ " has been approved successfully.")
    "success" now cu instructor_id s.

Definition admin_reject_instructor (now : timestamp) (cu : current_user)
    (instructor_id : Z) (s : site) : site * response :=
  decide_instructor "rejected"
    {| n_user_id := instructor_id; n_title := "Instructor Application Rejected";
       n_message :=
         "We regret to inform you that your instructor application has been rejected. Please contact the administrator for more information.";
       n_type := "error"; n_related_id := None |}
    (fun instructor =>
       "Instructor " +++ ac_full_name instructor +++ " has been rejected.")
    "warning" now cu instructor_id s.

(** [new_status = 0 if instructor['is_active'] else 1] *)
Definition admin_toggle_instructor_block (cu : current_user)
    (instructor_id : Z) (s : site) : site * response :=
  match admin_refusal cu with
  | Some refusal => (s, refusal)
  | None =>
      match select_account (st_accounts s) instructor_id "instructor" with
      | None => (s, Redirect "admin_instructors" "Instructor not found." "error")
      | Some instructor =>
          let new_status := negb (ac_is_active instructor) in
          let action := (if new_status then "unblocked" else "blocked")%string in
          ({| st_accounts :=
                update_account instructor_id (set_is_active new_status)
                  (st_accounts s);
              st_db := st_db s |},
           Redirect "admin_instructors"
             ("Instructor " +++ ac_full_name instructor +++ " has been "
              +++ action +++ ".") "success")
      end
  end.

Definition json_message (msg : string) : json :=
  {| j_success := true; j_error := None; j_message := Some msg;
     j_progress := None; j_is_manual := None; j_count := None |}.

Definition admin_toggle_student_block (cu : current_user) (student_id : Z)
    (s : site) : site * response :=
  match login_refusal cu with
  | Some refusal => (s, refusal)
  | None =>
      match admin_refusal cu with
      | Some refusal => (s, refusal)
      | None =>
          match select_account (st_accounts s) student_id "student" with
          | None => (s, Jsonify (json_error "Student not found") 404)
          | Some student =>
              let new_status := negb (ac_is_active student) in
              ({| st_accounts :=
                    update_account student_id (set_is_active new_status)
                      (st_accounts s);
                  st_db := st_db s |},
               Jsonify
                 (json_message
                    ("Student "
                     +++ (if new_status then "unblocked" else "blocked")%string
                     +++ " successfully")) 200)
          end
      end
  end.

(** The tables [init_db] creates. *)
Definition init_db_tables : list string :=
  [ "users"; "courses"; "enrollments"; "assignments"; "assignment_assets";
    "assignment_submissions"; "quiz_questions"; "question_options";
    "student_mcq_answers"; "forums"; "forum_topics"; "forum_replies";
    "chat_messages"; "direct_messages"; "file_uploads"; "notifications";
    "course_resources"; "course_meeting_links"; "course_video_playlists";
    "student_video_playlists"; "ai_notes" ]%string.

(** [tables] are the tables of the database: sqlite3 raises
    [OperationalError] (no such table) at [DELETE FROM student_notes] when
    the table is missing, the [except] clause answers 500 with the text of
    the error, and nothing has been committed. *)
Definition admin_delete_student (tables : list string) (cu : current_user)
    (student_id : Z) (s : site) : site * response :=
  match login_refusal cu with
  | Some refusal => (s, refusal)
  | None =>
      match admin_refusal cu with
      | Some refusal => (s, refusal)
      | None =>
          match select_account (st_accounts s) student_id "student" with
          | None => (s, Jsonify (json_error "Student not found") 404)
          | Some student =>
              if negb (existsb (String.eqb "student_notes") tables) then
                (s, Jsonify (json_error "no such table: student_notes") 500)
              else
                ({| st_accounts :=
                      filter (fun a => negb (ac_id a =? student_id))
                             (st_accounts s);
                    st_db :=
                      with_enrollments (st_db s)
                        (delete_where (fun e => e_student_id e =? student_id)
                                      (enrollments (st_db s))) |},
                 Jsonify (json_message "Student deleted successfully") 200)
          end
      end
  end.

(** ** Grading a submission *)

(** [SET grade = ?, instructor_feedback = ?, graded_at = ?] *)
Definition set_grade (grade_value : option Q) (feedback : string)
    (now : timestamp) (r : submission_row) : submission_row :=
  {| sr_id := sr_id r; sr_assignment_id := sr_assignment_id r;
     sr_student_id := sr_student_id r;
     sr_submission_text := sr_submission_text r;
     sr_submitted_at := sr_submitted_at r; sr_grade := grade_value;
     sr_ai_feedback := sr_ai_feedback r;
     sr_instructor_feedback := Some feedback; sr_graded_at := Some now |}.

(** [jsonify({'success': False, 'message': msg})] *)
Definition json_failure (msg : string) : json :=
  {| j_success := false; j_error := None; j_message := Some msg;
     j_progress := None; j_is_manual := None; j_count := None |}.

(** [grade_value is not None and
     (grade_value < 0 or grade_value > assignment['max_points'])]; the
    comparison with a [max_points] that is [NULL] raises [TypeError]. *)
Inductive range_check := InRange | OutOfRange | RaisesTypeError.

Definition check_grade (grade_value : option Q) (max_points : option Z)
    : range_check :=
  match grade_value with
  | None => InRange
  | Some g =>
      if negb (Qle_bool 0 g) then OutOfRange
      else match max_points with
           | None => RaisesTypeError
           | Some m => if negb (Qle_bool g (inject_Z m)) then OutOfRange
                       else InRange
           end
  end.

Section Grade.

Variable strip : string -> string.
Variable float_of_string : string -> option Q.
Variable str_of_int : Z -> string.

(** [max_points a] is the [max_points] column of the row.  [grade_field]
    and [feedback_field] are [request.form.get(..., '')]; [float] raises
    [ValueError] where [float_of_string] is [None]. *)
Definition instructor_grade_submission (max_points : assignment -> option Z)
    (now : timestamp) (cu : current_user)
    (course_id assignment_id submission_id : Z)
    (grade_field feedback_field : string) (s : school) : school * response :=
  match instructor_refusal cu with
  | Some refusal => (s, refusal)
  | None =>
      match select_own_quiz (core s) assignment_id course_id (cu_id cu) with
      | None => (s, Jsonify (json_failure "Access denied") 403)
      | Some assignment =>
          let grade := strip grade_field in
          let feedback := strip feedback_field in
          match (if is_empty grade then Some None
                 else option_map Some (float_of_string grade)) with
          | None => (s, Jsonify (json_failure "Invalid grade value") 400)
          | Some grade_value =>
              match check_grade grade_value (max_points assignment) with
              | OutOfRange =>
                  (s, Jsonify
                        (json_failure
                           ("Grade must be between 0 and "
                            +++ match max_points assignment with
                                | Some m => str_of_int m
                                | None => "None"
                                end)) 400)
              | RaisesTypeError =>
                  (s, Jsonify
                        (json_failure
                           "'>' not supported between instances of 'float' and 'NoneType'")
                        500)
              | InRange =>
                  ({| sc_db := sc_db s;
                      sc_submissions :=
                        update_submissions (fun r => sr_id r =? submission_id)
                          (set_grade grade_value feedback now)
                          (sc_submissions s);
                      sc_submissions_seq := sc_submissions_seq s;
                      sc_quiz_questions := sc_quiz_questions s;
                      sc_mcq_answers := sc_mcq_answers s |},
                   Jsonify (json_message "Submission graded successfully") 200)
              end
          end
      end
  end.

End Grade.

(** ** Creating a course *)

(** The database with the [sqlite_sequence] entry of [courses]. *)
Record catalog := mk_catalog {
  ct_db : db;
  ct_courses_seq : Z }.

(** What a view that shows a form answers: a response of the kinds above,
    or [flash(message, category)], if any, and
    [return render_template(template)]. *)
Inductive page :=
| Respond (r : response)
| Render (template : string) (flash : option (string * string)).

(** The fields of the form of [instructor_create_course] that reach the
    tracked columns: [request.form.get('course_code', '')],
    [request.form.get('title', '')], [request.form.get('enrollment_key', '')]
    and [request.form.get('max_students')], [None] when the field is
    missing. *)
Record course_form := mk_course_form {
  cf_course_code : string;
  cf_title : string;
  cf_enrollment_key : string;
  cf_max_students : option string }.

(** [len(s)] for a Python [str] held as its UTF-8 bytes: the number of code
    points, that is, of the bytes that are not continuation bytes
    ([0x80] to [0xBF]). *)
Fixpoint len (s : string) : nat :=
  match s with
  | EmptyString => 0%nat
  | String a rest =>
      let byte := Ascii.nat_of_ascii a in
      if Nat.leb 128 byte && Nat.leb byte 191 then len rest else S (len rest)
  end.

(** sqlite3 binds a Python [int] as a 64-bit [INTEGER] and raises
    [OverflowError] for any other. *)
Definition fits_sqlite_integer (z : Z) : bool :=
  (- 2 ^ 63 <=? z) && (z <? 2 ^ 63).

Section CreateCourse.

Variable strip : string -> string.
Variable upper : string -> string.
Variable int_of_string : string -> option Z.
Variable generate_password_hash : string -> string.

(** [form] is [None] for a GET request.  [int] raises [ValueError], outside
    any [try], where [int_of_string] is [None]; [generate_password_hash] is
    the hash werkzeug produces in this call.  The [INSERT] is inside the
    [try]: when [max_students] does not fit a 64-bit integer it raises, the
    [except] clause rolls back and flashes, and the form is rendered again.
    The columns [description], [syllabus], [category], [start_date] and
    [end_date] are outside [course]. *)
Definition instructor_create_course (cu : current_user)
    (form : option course_form) (s : catalog) : catalog * page :=
  match instructor_refusal cu with
  | Some refusal => (s, Respond refusal)
  | None =>
      match form with
      | None => (s, Render "instructor/create_course.html" None)
      | Some form =>
          let course_code := upper (strip (cf_course_code form)) in
          let title := strip (cf_title form) in
          let enrollment_key := strip (cf_enrollment_key form) in
          if is_empty course_code then
            (s, Render "instructor/create_course.html"
                  (Some ("Course Code is required."%string,
                               "error"%string)))
          else if is_empty title then
            (s, Render "instructor/create_course.html"
                  (Some ("Course Title is required."%string,
                               "error"%string)))
          else if is_empty enrollment_key then
            (s, Render "instructor/create_course.html"
                  (Some ("Enrollment Key is required."%string,
                               "error"%string)))
          else
            match (match cf_max_students form with
                   | Some text => int_of_string text
                   | None => Some 50
                   end) with
            | None => (s, Respond Unhandled)
            | Some max_students =>
                if (len enrollment_key <? 6)%nat then
                  (s, Render "instructor/create_course.html"
                        (Some ("Enrollment key must be at least 6 characters long."%string,
                               "error"%string)))
                else
                  let enrollment_key_hash :=
                    generate_password_hash enrollment_key in
                  match find (fun c => String.eqb (c_course_code c) course_code)
                             (courses (ct_db s)) with
                  | Some existing_course =>
                      (s, Render "instructor/create_course.html"
                            (Some ("Course code already exists. Please choose a different one."%string,
                               "error"%string)))
                  | None =>
                      if negb (fits_sqlite_integer max_students) then
                        (s, Render "instructor/create_course.html"
                              (Some ("Error creating course. Please try again."%string,
                                     "error"%string)))
                      else
                      let new_id :=
                        Z.max (ct_courses_seq s)
                              (fold_right Z.max 0
                                 (map c_id (courses (ct_db s)))) + 1 in
                      ({| ct_db :=
                            with_courses (ct_db s)
                              (courses (ct_db s) ++
                               [ {| c_id := new_id;
                                    c_course_code := course_code;
                                    c_title := title;
                                    c_instructor_id := cu_id cu;
                                    c_max_students := max_students;
                                    c_enrollment_key_hash :=
                                      Some enrollment_key_hash;
                                    c_is_active := true |} ]);
                          ct_courses_seq := new_id |},
                       Respond
                         (Redirect "instructor_courses"
                            ("Course " +++ dq +++ title +++ dq
                             +++ " created successfully!") "success"))
                  end
            end
      end
  end.

End CreateCourse.

(** ** The inbox *)

(** [notifications] with the columns the inbox handlers read or write;
    [is_read] is [true] for 1. *)
Record inbox_row := mk_inbox_row {
  nt_id : Z;
  nt_user_id : Z;
  nt_title : string;
  nt_message : string;
  nt_type : string;
  nt_related_id : option Z;
  nt_is_read : bool }.

(** [SET is_read = 1] *)
Definition set_read (n : inbox_row) : inbox_row :=
  {| nt_id := nt_id n; nt_user_id := nt_user_id n; nt_title := nt_title n;
     nt_message := nt_message n; nt_type := nt_type n;
     nt_related_id := nt_related_id n; nt_is_read := true |}.

(** [UPDATE notifications SET is_read = 1 WHERE p] *)
Definition mark_where (p : inbox_row -> bool) (table : list inbox_row)
    : list inbox_row :=
  map (fun n => if p n then set_read n else n) table.

(** The pages [handle_notification_redirect] sends to. *)
Inductive target :=
| Dashboard
| StudentCourseForums (course_id : Z)
| CourseDiscussionForum (course_id : Z)
| StudentCourseView (course_id : Z).

(** What the inbox handlers answer: the refusal of [login_required], the
    rendered page (its rows are left out), [jsonify({'count': count})],
    [jsonify({'success': True})], or a redirect without a flash. *)
Inductive inbox_response :=
| InboxRefused (refusal : response)
| InboxPage
| InboxCount (count : Z)
| InboxSuccess
| InboxRedirect (page : target).

(** [SELECT COUNT( * ) FROM notifications WHERE user_id = ? AND is_read = 0] *)
Definition unread_count (table : list inbox_row) (user_id : Z) : Z :=
  Z.of_nat (List.length
    (filter (fun n => (nt_user_id n =? user_id) && negb (nt_is_read n)) table)).

(** The view function [notifications]: the rows are selected for the page,
    then [UPDATE notifications SET is_read = 1 WHERE user_id = ? AND
    is_read = 0]. *)
Definition notifications_view (cu : current_user) (table : list inbox_row)
    : list inbox_row * inbox_response :=
  match login_refusal cu with
  | Some refusal => (table, InboxRefused refusal)
  | None =>
      (mark_where (fun n => (nt_user_id n =? cu_id cu) && negb (nt_is_read n))
                  table,
       InboxPage)
  end.

Definition get_unread_notifications_count (cu : current_user)
    (table : list inbox_row) : list inbox_row * inbox_response :=
  match login_refusal cu with
  | Some refusal => (table, InboxRefused refusal)
  | None => (table, InboxCount (unread_count table (cu_id cu)))
  end.

Definition mark_notification_read (cu : current_user) (notification_id : Z)
    (table : list inbox_row) : list inbox_row * inbox_response :=
  match login_refusal cu with
  | Some refusal => (table, InboxRefused refusal)
  | None =>
      (mark_where (fun n => (nt_id n =? notification_id)
                            && (nt_user_id n =? cu_id cu)) table,
       InboxSuccess)
  end.

(** Python's [needle in haystack] on strings. *)
Fixpoint contains (needle haystack : string) : bool :=
  String.prefix needle haystack
  || match haystack with
     | EmptyString => false
     | String _ rest => contains needle rest
     end.

(** [if course_id: ... else: ...] on [notification['related_id']]: [None]
    and 0 are false. *)
Definition with_course (related_id : option Z) (page : Z -> target) : target :=
  match related_id with
  | Some course_id => if course_id =? 0 then Dashboard else page course_id
  | None => Dashboard
  end.

Definition handle_notification_redirect (lower : string -> string)
    (cu : current_user) (notification_id : Z) (table : list inbox_row)
    : list inbox_row * inbox_response :=
  match login_refusal cu with
  | Some refusal => (table, InboxRefused refusal)
  | None =>
      match find (fun n => (nt_id n =? notification_id)
                           && (nt_user_id n =? cu_id cu)) table with
      | None => (table, InboxRedirect Dashboard)
      | Some notification =>
          let table' := mark_where (fun n => nt_id n =? notification_id) table in
          let message_lower := lower (nt_message notification) in
          let course_id := nt_related_id notification in
          (table',
           InboxRedirect
             (if contains "forum" message_lower
                 || contains "discussion" message_lower
                 || contains "topic" message_lower
              then with_course course_id StudentCourseForums
              else if contains "message" message_lower
                      || contains "chat" message_lower
                      || contains "community" message_lower
              then with_course course_id CourseDiscussionForum
              else if contains "quiz" message_lower
                      || contains "assignment" message_lower
                      || contains "grade" message_lower
              then with_course course_id StudentCourseView
              else if contains "enrollment" message_lower
                      || contains "course" message_lower
                      || contains "approved" message_lower
              then with_course course_id StudentCourseView
              else if contains "progress" message_lower
              then with_course course_id StudentCourseView
              else with_course course_id StudentCourseView))
      end
  end.

(** The requests of the inbox. *)
Inductive inbox_request :=
| ViewNotifications
| UnreadCount
| MarkRead (notification_id : Z)
| FollowNotification (notification_id : Z).

Definition inbox_handle (lower : string -> string) (cu : current_user)
    (r : inbox_request) (table : list inbox_row)
    : list inbox_row * inbox_response :=
  match r with
  | ViewNotifications => notifications_view cu table
  | UnreadCount => get_unread_notifications_count cu table
  | MarkRead notification_id => mark_notification_read cu notification_id table
  | FollowNotification notification_id =>
      handle_notification_redirect lower cu notification_id table
  end.

(** The row [n'] is [n], or [n] was an unread row of [user_id] and [n'] is
    [n] marked as read. *)
Definition read_by (user_id : Z) (n n' : inbox_row) : Prop :=
  n' = n \/
  (nt_user_id n = user_id /\ nt_is_read n = false /\ n' = set_read n).

(** ** A sample school *)

Module QuizSample.

Local Open Scope string_scope.


Definition row (id assignment_id student_id grade : Z) : submission_row :=
  {| sr_id := id; sr_assignment_id := assignment_id;
     sr_student_id := student_id; sr_submission_text := None;
     sr_submitted_at := 50; sr_grade := Some (inject_Z grade);
     sr_ai_feedback := None; sr_instructor_feedback := None;
     sr_graded_at := None |}.

(** Alice is approved in the course and has submitted quizzes 21 and 22;
    quiz 23 has three questions. *)
Definition school0 : school :=
  {| sc_db := Sample.db2;
     sc_submissions := [ row 1 21 2 1; row 2 22 2 0 ];
     sc_submissions_seq := 2;
     sc_quiz_questions :=
       [ mk_quiz_question 1 23 2 (Some "B");
         mk_quiz_question 2 23 3 (Some "A");
         mk_quiz_question 3 23 1 None;
         mk_quiz_question 4 21 1 (Some "A") ];
     sc_mcq_answers := [ mk_mcq_answer 1 4 "A" true 1 ] |}.

(** Question 1 answered with its correct option, question 2 with another
    one, question 3 left blank. *)
Definition form0 (question_id : Z) : string :=
  if Z.eqb question_id 1 then " B "
  else if Z.eqb question_id 2 then "C"
  else if Z.eqb question_id 4 then "A"
  else "".

Definition title (a : assignment) : string :=
  "Quiz " +++ Sample.str_of_int (a_id a).

(** Omar has another course, with one assignment. *)
Definition cs202 : course :=
  {| c_id := 20; c_course_code := "CS202"; c_title := "Logic";
     c_instructor_id := 4; c_max_students := 30;
     c_enrollment_key_hash := Some "hash:logic1"; c_is_active := true |}.

Definition essay : assignment :=
  {| a_id := 31; a_course_id := 20; a_assignment_type := "essay";
     a_is_active := true |}.

Definition school1 : school :=
  {| sc_db := with_assignments
                (with_courses Sample.db2 [ Sample.cs101; cs202 ])
                (assignments Sample.db2 ++ [ essay ]);
     sc_submissions := sc_submissions school0;
     sc_submissions_seq := 2;
     sc_quiz_questions := sc_quiz_questions school0;
     sc_mcq_answers := sc_mcq_answers school0 |}.

Definition max_points (a : assignment) : option Z := Some 100.


End QuizSample.

(** ** A sample site *)

Module SiteSample.

Local Open Scope string_scope.

Definition row (id : Z) (role full_name : string) (status : option string)
    : account :=
  {| ac_id := id; ac_role := role; ac_full_name := full_name;
     ac_instructor_approval_status := status; ac_approved_by := None;
     ac_approved_at := None; ac_is_active := true |}.

Definition tess : account := row 1 "instructor" "Tess" (Some "approved").
Definition alice : account := row 2 "student" "Alice" (Some "approved").
Definition bob : account := row 3 "student" "Bob" (Some "approved").
Definition omar : account := row 4 "instructor" "Omar" (Some "approved").
Definition pia : account := row 5 "instructor" "Pia" (Some "pending").
Definition root : account := row 9 "admin" "Root" (Some "approved").

(** The accounts of the sample database, a pending instructor and an
    admin. *)
Definition site0 : site :=
  {| st_accounts := [ tess; alice; bob; omar; pia; root ];
     st_db := Sample.db2 |}.

Definition admin : current_user := user_of_account root.

Definition view : outcome :=
  reply Sample.db2 (Jsonify (json_message "instructor view") 200).

End SiteSample.

(** ** A sample inbox *)

Module InboxSample.

Local Open Scope string_scope.

Definition lower_ascii (a : Ascii.ascii) : Ascii.ascii :=
  let n := Ascii.nat_of_ascii a in
  if Nat.leb 65 n && Nat.leb n 90 then Ascii.ascii_of_nat (n + 32) else a.

Fixpoint lower (s : string) : string :=
  match s with
  | EmptyString => EmptyString
  | String a rest => String (lower_ascii a) (lower rest)
  end.

(** Two notifications of Alice, one of them read, and one of Bob. *)
Definition inbox0 : list inbox_row :=
  [ mk_inbox_row 1 2 "Enrollment Approved"
      "Your enrollment in Intro has been approved." "success" (Some 10) false;
    mk_inbox_row 2 3 "Enrollment Rejected"
      "Your enrollment in Intro has been rejected." "warning" (Some 10) false;
    mk_inbox_row 3 2 "Course Progress Updated"
      "Your instructor has updated your progress." "info" (Some 10) true ].

End InboxSample.

(** ** A sample catalog *)

Module CatalogSample.

Local Open Scope string_scope.

(** Stand-ins matching [Sample.check_password_hash]. *)
Definition generate_password_hash (password : string) : string :=
  "hash:" +++ password.

Definition int_of_string (s : string) : option Z :=
  option_map Z.of_int (NilZero.int_of_string (Sample.strip s)).

Definition catalog0 : catalog :=
  {| ct_db := Sample.db2; ct_courses_seq := 10 |}.

Definition form0 : course_form :=
  {| cf_course_code := " cs202 "; cf_title := " Logic ";
     cf_enrollment_key := " logic1 "; cf_max_students := Some "30" |}.

Definition create (cu : current_user) (form : option course_form)
    (s : catalog) : catalog * page :=
  instructor_create_course Sample.strip Sample.upper int_of_string
    generate_password_hash cu form s.

End CatalogSample.

(** * Properties *)

(** ** Binary64 rounding *)

Lemma round_half_even_nonneg (q : Q) : (0 <= q)%Q -> 0 <= round_half_even q.
Proof.
  unfold Qle, round_half_even. cbn [Qnum Qden]. intros H.
  assert (Hn : 0 <= Qnum q) by lia.
  pose proof (Z.div_pos (Qnum q) (Zpos (Qden q)) Hn ltac:(lia)) as Hdiv.
  cbv zeta. destruct (_ <? _); [exact Hdiv|].
  destruct (_ <? _); [lia|]. destruct (Z.even _); lia.
Qed.

Lemma round_half_even_le (q : Q) (k : Z) :
  (q <= inject_Z k)%Q -> round_half_even q <= k.
Proof.
  unfold Qle, round_half_even. cbn [Qnum Qden inject_Z]. intros H.
  set (n := Qnum q) in *. set (d := Zpos (Qden q)) in *.
  assert (Hd : 0 < d) by (unfold d; lia).
  pose proof (Z.div_mod n d ltac:(lia)) as Hdm.
  pose proof (Z.mod_pos_bound n d Hd) as Hmod.
  assert (Hfloor : n / d <= k) by nia.
  cbv zeta. destruct (2 * (n mod d) <? d) eqn:Hlow; [exact Hfloor|].
  apply Z.ltb_ge in Hlow.
  assert (n / d < k) by nia.
  destruct (_ <? _); [lia|]. destruct (Z.even _); lia.
Qed.

Lemma quantize_nonneg (e : Z) (q : Q) : (0 <= q)%Q -> (0 <= quantize e q)%Q.
Proof.
  intros H. unfold quantize.
  assert (Hp : (0 < pow2 e)%Q).
  { destruct e; cbn; unfold Qlt; cbn; lia. }
  apply Qmult_le_0_compat; [|apply Qlt_le_weak; exact Hp].
  change 0%Q with (inject_Z 0). rewrite <- Zle_Qle.
  apply round_half_even_nonneg.
  apply Qle_shift_div_l; [exact Hp|]. rewrite Qmult_0_l. exact H.
Qed.

(** Below an integer that the grid holds, the nearest multiple stays below
    it. *)
Lemma quantize_le (e : Z) (q : Q) (k : Z) :
  e <= 0 -> (q <= inject_Z k)%Q -> (quantize e q <= inject_Z k)%Q.
Proof.
  intros He Hq. unfold quantize. destruct e as [|p|p]; [| lia |].
  - cbn [pow2]. rewrite Qmult_1_r, <- Zle_Qle. apply round_half_even_le.
    unfold Qdiv. rewrite Qinv_1 || idtac.
    setoid_replace (q / 1)%Q with q by field. exact Hq.
  - cbn [pow2].
    assert (Hk : round_half_even (q / (1 # 2 ^ p)) <= k * Zpos (2 ^ p)).
    { apply round_half_even_le.
      setoid_replace (q / (1 # 2 ^ p))%Q with (q * inject_Z (Zpos (2 ^ p)))%Q.
      - rewrite inject_Z_mult. apply Qmult_le_compat_r; [exact Hq|].
        unfold Qle; cbn; lia.
      - unfold Qdiv, Qinv. cbn. reflexivity. }
    unfold Qle in *. cbn [Qnum Qden inject_Z Qmult] in *. nia.
Qed.

Lemma ilog2_le (q : Q) (k : Z) :
  0 < Qnum q -> (q <= inject_Z k)%Q -> k < 2 ^ 53 -> ilog2 q <= 52.
Proof.
  intros Hn Hq Hk. unfold ilog2. cbv zeta.
  set (a := Z.log2 (Qnum q)). set (b := Z.log2 (Zpos (Qden q))).
  destruct (Qle_bool (pow2 (a - b)) q) eqn:Hcheck.
  - apply Qle_bool_iff in Hcheck.
    destruct (Z_le_gt_dec (a - b) 52) as [Hle|Hgt]; [exact Hle|exfalso].
    destruct (a - b) as [|p|p] eqn:Hab; try lia. cbn [pow2] in Hcheck.
    assert (H1 : (inject_Z (2 ^ Zpos p) <= inject_Z k)%Q)
      by (eapply Qle_trans; eassumption).
    rewrite <- Zle_Qle in H1.
    pose proof (Z.pow_le_mono_r 2 53 (Zpos p) ltac:(lia) ltac:(lia)). lia.
  - assert (a < b + 54); [|lia].
    apply Z.log2_lt_pow2; [exact Hn|].
    pose proof (Z.log2_spec (Zpos (Qden q)) ltac:(lia)) as [_ Hd]. fold b in Hd.
    pose proof (Z.log2_nonneg (Zpos (Qden q))) as Hb. fold b in Hb.
    unfold Qle in Hq. cbn [Qnum Qden inject_Z] in Hq.
    replace (b + 54) with (53 + Z.succ b) by lia.
    rewrite Z.pow_add_r by lia.
    assert (0 < k) by nia. nia.
Qed.

Lemma binary64_nonneg (q : Q) : (0 <= q)%Q -> (0 <= binary64 q)%Q.
Proof.
  intros H. unfold binary64. destruct (Qnum q) eqn:Hn.
  - apply Qle_refl.
  - apply quantize_nonneg. exact H.
  - unfold Qle in H. cbn in H. lia.
Qed.

(** An integer below [2^53] is a binary64 number, so rounding does not
    cross it. *)
Lemma binary64_le (q : Q) (k : Z) :
  (0 <= q)%Q -> (q <= inject_Z k)%Q -> k < 2 ^ 53 ->
  (binary64 q <= inject_Z k)%Q.
Proof.
  intros H0 Hq Hk. unfold binary64. destruct (Qnum q) eqn:Hn.
  - unfold Qle in *. cbn [Qnum Qden inject_Z] in *. nia.
  - apply quantize_le; [|exact Hq].
    pose proof (ilog2_le q k ltac:(lia) Hq Hk). lia.
  - unfold Qle in H0. cbn in H0. lia.
Qed.

Lemma float_percentage_bounds (submitted total : Z) :
  0 <= submitted <= total -> 0 < total ->
  (0 <= float_percentage submitted total)%Q /\
  (float_percentage submitted total <= 100)%Q.
Proof.
  intros Hs Ht. unfold float_percentage.
  set (ratio := (inject_Z submitted / inject_Z total)%Q).
  assert (Hpos : (0 < inject_Z total)%Q) by (unfold Qlt; cbn; lia).
  assert (H0 : (0 <= ratio)%Q).
  { apply Qle_shift_div_l; [exact Hpos|]. rewrite Qmult_0_l.
    unfold Qle; cbn; lia. }
  assert (H1 : (ratio <= inject_Z 1)%Q).
  { apply Qle_shift_div_r; [exact Hpos|]. rewrite Qmult_1_l.
    rewrite <- Zle_Qle. lia. }
  pose proof (binary64_nonneg ratio H0) as Hq0.
  pose proof (binary64_le ratio 1 H0 H1 ltac:(reflexivity)) as Hq1.
  split.
  - apply binary64_nonneg. apply Qmult_le_0_compat; [exact Hq0|].
    unfold Qle; cbn; lia.
  - apply (binary64_le _ 100); [| |reflexivity].
    + apply Qmult_le_0_compat; [exact Hq0|]. unfold Qle; cbn; lia.
    + setoid_replace (inject_Z 100) with (inject_Z 1 * 100)%Q by reflexivity.
      apply Qmult_le_compat_r; [exact Hq1|]. unfold Qle; cbn; lia.
Qed.


(** The values CPython prints for [0.1], [(1 / 3) * 100], [(7 / 9) * 100],
    [(29 / 30) * 100] and [(2 / 4) * 100]: [0.1], [33.33333333333333],
    [77.77777777777779], [96.66666666666667] and [50.0]. *)
Example binary64_values :
  (binary64 (1 # 10) == 3602879701896397 # 36028797018963968)%Q /\
  (float_percentage 1 3 == 2345624805922133 # 70368744177664)%Q /\
  (float_percentage 7 9 == 5473124547151645 # 70368744177664)%Q /\
  (float_percentage 29 30 == 6802311937174187 # 70368744177664)%Q /\
  (float_percentage 2 4 == 50)%Q.
Proof. vm_compute. repeat split. Qed.

(** ** Rows after an [UPDATE] or a [DELETE] *)

Lemma in_update_where (p : enrollment -> bool) (f : enrollment -> enrollment)
    (l : list enrollment) (e' : enrollment) :
  In e' (update_where p f l) <->
  exists e, In e l /\ e' = (if p e then f e else e).
Proof.
  unfold update_where. rewrite in_map_iff.
  split; intros [e [H1 H2]]; exists e; auto.
Qed.


Lemma find_none_forall {A : Type} (p : A -> bool) (l : list A) :
  find p l = None <-> (forall x, In x l -> p x = false).
Proof.
  split.
  - intros H x Hx. exact (find_none p l H x Hx).
  - induction l as [|y l IH]; intros H; simpl; [reflexivity|].
    rewrite (H y (or_introl eq_refl)). apply IH.
    intros x Hx. apply H. right. exact Hx.
Qed.


(** ** Automatic progress *)

Lemma update_student_progress_no_fault (d : db) (student_id course_id : Z) :
  update_student_progress None d student_id course_id
  = (with_enrollments d
       (update_where (of_pair student_id course_id)
          (set_progress_percentage (auto_progress_of d student_id course_id))
          (enrollments d)),
     match find (of_pair student_id course_id) (enrollments d) with
     | Some e => match e_manual_progress_override e with
                 | Some manual => manual
                 | None => auto_progress_of d student_id course_id
                 end
     | None => auto_progress_of d student_id course_id
     end).
Proof.
  unfold update_student_progress, update_student_progress_try, execute,
    auto_progress_of.
  destruct (count_quizzes d course_id =? 0); cbn;
    (destruct (find _ _) as [e|]; cbn;
       [destruct (e_manual_progress_override e)|]; reflexivity).
Qed.

Lemma update_student_progress_fault (s : progress_stmt) (d : db)
    (student_id course_id : Z) :
  reached d course_id s ->
  update_student_progress_try (Some s) d student_id course_id = None.
Proof.
  unfold reached, update_student_progress_try. intros Hs.
  destruct s; cbn; try reflexivity.
  - destruct (count_quizzes d course_id =? 0) eqn:Hz; [|reflexivity].
    apply Z.eqb_eq in Hz. destruct (Hs eq_refl Hz).
  - destruct (count_quizzes d course_id =? 0); reflexivity.
  - destruct (count_quizzes d course_id =? 0); reflexivity.
Qed.

Lemma nodup_length_le {A : Type} (dec : forall x y : A, {x = y} + {x <> y})
    (l : list A) :
  (List.length (nodup dec l) <= List.length l)%nat.
Proof.
  induction l as [|x l IH]; simpl; [lia|].
  destruct (in_dec dec x l); simpl; lia.
Qed.

Lemma filter_and_length_le {A : Type} (p q : A -> bool) (l : list A) :
  (List.length (filter (fun x => p x && q x) l) <= List.length (filter p l))%nat.
Proof.
  induction l as [|x l IH]; simpl; [lia|].
  destruct (p x), (q x); simpl; lia.
Qed.

Lemma count_submitted_le_quizzes (d : db) (student_id course_id : Z) :
  0 <= count_submitted d student_id course_id <= count_quizzes d course_id.
Proof.
  unfold count_submitted, count_quizzes. split; [lia|].
  apply inj_le.
  eapply Nat.le_trans; [apply nodup_length_le|].
  rewrite length_map. apply filter_and_length_le.
Qed.

Lemma auto_progress_of_bounds (d : db) (student_id course_id : Z) :
  (0 <= auto_progress_of d student_id course_id)%Q /\
  (auto_progress_of d student_id course_id <= 100)%Q.
Proof.
  unfold auto_progress_of.
  pose proof (count_submitted_le_quizzes d student_id course_id) as Hcount.
  destruct (count_quizzes d course_id =? 0) eqn:Hz.
  - split; unfold Qle; cbn; lia.
  - apply Z.eqb_neq in Hz. apply float_percentage_bounds; lia.
Qed.

(** A fault at a statement the run does not reach changes nothing. *)
Lemma update_student_progress_unreached (fault : option progress_stmt)
    (d : db) (student_id course_id : Z) :
  (forall s, fault = Some s -> ~ reached d course_id s) ->
  update_student_progress fault d student_id course_id
  = update_student_progress None d student_id course_id /\
  transaction_after fault = NoTransaction.
Proof.
  intros Hfault. destruct fault as [s|]; [|split; reflexivity].
  specialize (Hfault s eq_refl). unfold reached in Hfault.
  destruct s; try (destruct Hfault; intros H; discriminate H).
  assert (Hz : count_quizzes d course_id = 0).
  { destruct (Z.eq_dec (count_quizzes d course_id) 0) as [E|E]; [exact E|].
    destruct Hfault. intros _. exact E. }
  split; [|reflexivity].
  unfold update_student_progress, update_student_progress_try, execute.
  cbn [progress_stmt_eqb]. rewrite Hz. reflexivity.
Qed.

Lemma update_student_progress_raises (s : progress_stmt) (d : db)
    (student_id course_id : Z) :
  reached d course_id s ->
  update_student_progress (Some s) d student_id course_id = (d, 0%Q).
Proof.
  intros Hs. unfold update_student_progress.
  rewrite (update_student_progress_fault s d student_id course_id Hs).
  reflexivity.
Qed.

Lemma update_where_map (p : enrollment -> bool) (f : enrollment -> enrollment)
    (l : list enrollment) :
  update_where p f l = map (fun e => if p e then f e else e) l.
Proof. reflexivity. Qed.

(** C4, as the code has it.  The automatic value is [0] when the course
    has no active quiz and otherwise [(submitted / total) * 100] in binary64:
    the quotient rounded, then the product rounded; it lies between 0 and
    100.  When no statement of the recomputation raises, every row of the
    pair receives it in [progress_percentage], whatever its override, which
    stays as it was, no other row changes, and the function returns the
    override of the fetched row when it has one and the automatic value
    otherwise.  When a statement raises, the function returns [0] and the
    database is as it was. *)
Theorem update_student_progress_value (fault : option progress_stmt) (d : db)
    (student_id course_id : Z) :
  let total := count_quizzes d course_id in
  let submitted := count_submitted d student_id course_id in
  let auto_progress :=
    if total =? 0 then 0%Q else float_percentage submitted total in
  let of_this_pair := fun e =>
    (e_student_id e =? student_id) && (e_course_id e =? course_id) in
  let out := update_student_progress fault d student_id course_id in
  ((0 <= auto_progress)%Q /\ (auto_progress <= 100)%Q) /\
  ((forall s, fault = Some s -> ~ reached d course_id s) ->
   enrollments (fst out)
   = map (fun e => if of_this_pair e
                   then {| e_id := e_id e; e_student_id := e_student_id e;
                           e_course_id := e_course_id e;
                           e_status := e_status e;
                           e_enrolled_at := e_enrolled_at e;
                           e_approved_at := e_approved_at e;
                           e_progress_percentage := auto_progress;
                           e_manual_progress_override :=
                             e_manual_progress_override e |}
                   else e)
         (enrollments d) /\
   fst out = with_enrollments d (enrollments (fst out)) /\
   snd out = match find of_this_pair (enrollments d) with
             | Some e => match e_manual_progress_override e with
                         | Some manual => manual
                         | None => auto_progress
                         end
             | None => auto_progress
             end) /\
  (forall s, fault = Some s -> reached d course_id s -> out = (d, 0%Q)).
Proof.
  cbv zeta. split; [exact (auto_progress_of_bounds d student_id course_id)|].
  split.
  - intros Hfault.
    rewrite (proj1 (update_student_progress_unreached fault d student_id
                      course_id Hfault)).
    rewrite update_student_progress_no_fault. cbn [fst snd].
    split; [reflexivity|]. split; reflexivity.
  - intros s -> Hs. apply update_student_progress_raises. exact Hs.
Qed.

(** Alice's two submissions out of four quizzes are counted while Bob's
    request is pending: Alice's row receives the value, Bob's row stays. *)
Lemma update_student_progress_value_witness :
  map (fun e => (e_student_id e, e_progress_percentage e))
      (enrollments (fst (update_student_progress None Sample.db2b 2 10)))
    = [ (2, float_percentage 2 4); (3, 0%Q) ] /\
  (float_percentage 2 4 == 50)%Q /\
  (snd (update_student_progress None Sample.db2b 2 10) == 50)%Q.
Proof.
  destruct (update_student_progress_value None Sample.db2b 2 10)
    as (_ & H & _).
  destruct H as (Hrows & _ & Hret); [intros s Hs; discriminate Hs|].
  rewrite Hrows, Hret. repeat split.
Defined.

(** C4 fails on the code.  With eleven of twenty quizzes submitted the
    quotient [11 / 20] is rounded to binary64 before it is multiplied by 100,
    and the value persisted and returned is [55.00000000000001], that is
    [55 + 2^-47], not [100 * 11 / 20 = 55].  On the schema [init_db] creates,
    [assignments] has no column [is_active]: the count of the quizzes
    raises, the function returns [0] and persists nothing, although two of
    Alice's four quizzes are submitted. *)
Lemma update_student_progress_value_counterexample :
  (count_quizzes Twenty.db0 10 = 20 /\
   count_submitted Twenty.db0 2 10 = 11 /\
   (snd (update_student_progress None Twenty.db0 2 10)
    == 55 + (1 # 140737488355328))%Q /\
   ~ (snd (update_student_progress None Twenty.db0 2 10) == 100 * 11 / 20)%Q /\
   map e_progress_percentage
     (enrollments (fst (update_student_progress None Twenty.db0 2 10)))
   = [ snd (update_student_progress None Twenty.db0 2 10) ]) /\
  schema_fault init_db_assignments_columns = Some CountQuizzes /\
  update_student_progress (schema_fault init_db_assignments_columns)
    Sample.db2 2 10 = (Sample.db2, 0%Q) /\
  count_quizzes Sample.db2 10 = 4 /\ count_submitted Sample.db2 2 10 = 2.
Proof.
  vm_compute. repeat split. discriminate.
Qed.

(** ** Enrollment request *)

Lemma find_map_none {A B : Type} (f : A -> option B) (l : list A) :
  (forall x, In x l -> f x = None) -> find_map f l = None.
Proof.
  induction l as [|x l IH]; intros H; simpl; [reflexivity|].
  rewrite (H x (or_introl eq_refl)). apply IH.
  intros y Hy. apply H. right. exact Hy.
Qed.

Lemma find_map_some {A B : Type} (f : A -> option B) (l : list A) (y : B) :
  find_map f l = Some y -> exists x, In x l /\ f x = Some y.
Proof.
  induction l as [|x l IH]; simpl; [discriminate|].
  destruct (f x) as [y'|] eqn:Hx.
  - intros H. inversion H; subst. exists x. auto.
  - intros H. destruct (IH H) as [x' [H1 H2]]. exists x'. auto.
Qed.

Lemma max_id_bound (l : list enrollment) (e : enrollment) :
  In e l -> e_id e <= max_id l.
Proof.
  unfold max_id. induction l as [|x l IH]; simpl; [contradiction|].
  intros [->|H]; [lia|]. specialize (IH H). lia.
Qed.

Lemma of_pair_true (student_id course_id : Z) (e : enrollment) :
  of_pair student_id course_id e = true <->
  e_student_id e = student_id /\ e_course_id e = course_id.
Proof.
  unfold of_pair. rewrite andb_true_iff, !Z.eqb_eq. tauto.
Qed.

Section EnrollmentRequest.

Variable strip : string -> string.
Variable upper : string -> string.
Variable check_password_hash : string -> string -> bool.

(** C2. A request of a logged-in student with a non-empty course code and
    key.  It is answered with the "not found or is inactive" error when no
    active course has the code; with the "Invalid enrollment key" error
    when the key does not verify against the stored hash; with the "already
    requested" warning when a row of (student, course) exists, whatever its
    status; with the "Course is full" warning when the approved count has
    reached [max_students]; each of these leaves the database as it was.
    Otherwise exactly one row is appended, with status pending and a fresh
    id, and the rows that were there are kept as they were. *)
Theorem student_enroll_contract (now : timestamp) (cu : current_user)
    (course_code_field enrollment_key_field : string) (d : db) :
  cu_is_authenticated cu = true ->
  is_student cu = true ->
  is_empty (upper (strip course_code_field)) = false ->
  is_empty (strip enrollment_key_field) = false ->
  let course_code := upper (strip course_code_field) in
  let enrollment_key := strip enrollment_key_field in
  let out := student_enroll strip upper check_password_hash now cu
               course_code_field enrollment_key_field d in
  ((forall c, In c (courses d) -> c_course_code c = course_code ->
              c_is_active c = false) ->
     out = reply d (Redirect "student_browse_courses"
                      ("Course with code " +++ dq +++ course_code +++ dq
                       +++ " not found or is inactive.") "error")) /\
  (forall c instructor,
     select_course_by_code d course_code = Some (c, instructor) ->
     ((forall h, c_enrollment_key_hash c = Some h ->
                 check_password_hash h enrollment_key = false) ->
        out = reply d (Redirect "student_browse_courses"
                "Invalid enrollment key. Please check with your instructor."
                "error")) /\
     (key_rejected check_password_hash c enrollment_key = false ->
        ((exists e, In e (enrollments d) /\ e_student_id e = cu_id cu
                    /\ e_course_id e = c_id c) ->
           out = reply d (Redirect "student_browse_courses"
                   "You have already requested enrollment for this course."
                   "warning")) /\
        ((forall e, In e (enrollments d) ->
                    ~ (e_student_id e = cu_id cu /\ e_course_id e = c_id c)) ->
           (c_max_students c <= count_approved d (c_id c) ->
              out = reply d (Redirect "student_browse_courses"
                      "Course is full. No more enrollments accepted."
                      "warning")) /\
           (count_approved d (c_id c) < c_max_students c ->
              exists e_new,
                enrollments (out_db out) = enrollments d ++ [e_new] /\
                e_student_id e_new = cu_id cu /\
                e_course_id e_new = c_id c /\
                e_status e_new = "pending"%string /\
                e_approved_at e_new = None /\
                e_manual_progress_override e_new = None /\
                (forall e, In e (enrollments d) -> e_id e <> e_id e_new) /\
                out_response out =
                  Redirect "student_browse_courses"
                    ("Enrollment request submitted for " +++ dq +++ c_title c
                     +++ dq +++ "! Your instructor (" +++ u_full_name instructor
                     +++ ") will review and approve your request.") "success")))).
Proof.
  intros Hauth Hstud Hcode Hkey. cbv zeta.
  unfold student_enroll, login_required.
  rewrite Hauth, Hstud. cbn [negb]. cbv zeta.
  rewrite Hcode, Hkey. cbn [orb].
  set (course_code := upper (strip course_code_field)).
  set (enrollment_key := strip enrollment_key_field).
  split.
  - intros Hnone. unfold select_course_by_code.
    rewrite (find_map_none _ (courses d)); [reflexivity|].
    intros c Hc. destruct (String.eqb_spec (c_course_code c) course_code) as [E|E];
      [|reflexivity].
    rewrite (Hnone c Hc E). reflexivity.
  - intros c instructor Hsel. rewrite Hsel. split.
    + intros Hbad.
      assert (Hrej : key_rejected check_password_hash c enrollment_key = true).
      { unfold key_rejected. destruct (c_enrollment_key_hash c) as [h|]; [|reflexivity].
        rewrite (Hbad h eq_refl). apply orb_true_r. }
      rewrite Hrej. reflexivity.
    + intros Hok. rewrite Hok. split.
      * intros [e [He [Hs Hc]]].
        destruct (find (of_pair (cu_id cu) (c_id c)) (enrollments d)) eqn:Hf;
          [reflexivity|].
        rewrite find_none_forall in Hf. specialize (Hf e He).
        assert (Ht : of_pair (cu_id cu) (c_id c) e = true)
          by (apply of_pair_true; auto).
        congruence.
      * intros Hnew.
        assert (Hf : find (of_pair (cu_id cu) (c_id c)) (enrollments d) = None).
        { apply find_none_forall. intros e He.
          destruct (of_pair (cu_id cu) (c_id c) e) eqn:Ht; [|reflexivity].
          apply of_pair_true in Ht. destruct (Hnew e He Ht). }
        rewrite Hf. split.
        -- intros Hfull. apply Z.leb_le in Hfull. rewrite Hfull. reflexivity.
        -- intros Hroom. apply Z.leb_gt in Hroom. rewrite Hroom.
           unfold insert_enrollment.
           assert (Hex : existsb (of_pair (cu_id cu) (c_id c)) (enrollments d) = false).
           { destruct (existsb _ _) eqn:Hx; [|reflexivity].
             apply existsb_exists in Hx. destruct Hx as [e [He Ht]].
             apply of_pair_true in Ht. destruct (Hnew e He Ht). }
           rewrite Hex. eexists. cbn.
           repeat split.
           intros e He Heq. apply max_id_bound in He. cbn in Heq. lia.
Qed.

End EnrollmentRequest.

Example sample_db3_enrollments :
  enrollments Sample.db3 =
  [ {| e_id := 1; e_student_id := 2; e_course_id := 10; e_status := "approved";
       e_enrolled_at := 100; e_approved_at := Some 101;
       e_progress_percentage := float_percentage 2 4;
       e_manual_progress_override := None |} ].
Proof. vm_compute. reflexivity. Qed.

(** ** The decorator and the ownership query *)

Lemma instructor_required_pass (cu : current_user) (view : outcome) (d : db) :
  passes_instructor_required cu = true -> instructor_required cu view d = view.
Proof.
  unfold passes_instructor_required, instructor_required.
  destruct (cu_is_authenticated cu); [|discriminate].
  destruct (is_admin cu); [reflexivity|].
  destruct (is_instructor cu); [|discriminate].
  destruct (is_instructor_approved cu); [reflexivity|discriminate].
Qed.

Lemma instructor_required_db (cu : current_user) (view : outcome) (d : db) :
  out_db (instructor_required cu view d) = d \/
  instructor_required cu view d = view.
Proof.
  unfold instructor_required.
  destruct (cu_is_authenticated cu); cbn; auto.
  destruct (is_admin cu); auto.
  destruct (is_instructor cu); cbn; auto.
  destruct (is_instructor_approved cu); cbn; auto.
Qed.

Lemma instructor_required_case (P : outcome -> Prop) (cu : current_user)
    (view : outcome) (d : db) :
  P view -> (forall r, P (reply d r)) -> P (instructor_required cu view d).
Proof.
  intros Hview Hreply. unfold instructor_required.
  destruct (cu_is_authenticated cu); cbn; auto.
  destruct (is_admin cu); auto.
  destruct (is_instructor cu); cbn; auto.
  destruct (is_instructor_approved cu); cbn; auto.
Qed.

Lemma select_enrollment_some (d : db) (enrollment_id instructor_id : Z)
    (status : string) (e : enrollment) (c : course) (u : user) :
  select_enrollment d enrollment_id instructor_id status = Some (e, c, u) ->
  In e (enrollments d) /\ e_id e = enrollment_id /\ e_status e = status /\
  In c (courses d) /\ c_id c = e_course_id e /\ c_instructor_id c = instructor_id /\
  In u (users d) /\ u_id u = e_student_id e.
Proof.
  unfold select_enrollment. intros H.
  apply find_map_some in H. destruct H as [e0 [He0 H]].
  destruct (has_id enrollment_id e0 && String.eqb (e_status e0) status) eqn:Hc;
    [|discriminate].
  apply andb_true_iff in Hc. destruct Hc as [Hid Hst].
  destruct (find _ (courses d)) as [c0|] eqn:Hfc; [|discriminate].
  destruct (find _ (users d)) as [u0|] eqn:Hfu; [|discriminate].
  inversion H; subst e0 c0 u0.
  apply find_some in Hfc. destruct Hfc as [Hc1 Hc2].
  apply find_some in Hfu. destruct Hfu as [Hu1 Hu2].
  apply andb_true_iff in Hc2. destruct Hc2 as [Hc2 Hc3].
  unfold has_id in Hid.
  rewrite Z.eqb_eq in Hid, Hc2, Hc3, Hu2. apply String.eqb_eq in Hst.
  repeat split; assumption.
Qed.

Lemma select_enrollment_not_owner (d : db) (enrollment_id instructor_id : Z)
    (status : string) :
  owns_no_course_of d instructor_id enrollment_id ->
  select_enrollment d enrollment_id instructor_id status = None.
Proof.
  intros Hno.
  destruct (select_enrollment d enrollment_id instructor_id status)
    as [[[e c] u]|] eqn:H; [|reflexivity].
  apply select_enrollment_some in H.
  destruct H as (He & Hid & _ & Hc & Hcid & Hown & _).
  destruct (Hno e c He Hid Hc Hcid Hown).
Qed.

Lemma select_own_course_not_owner (d : db) (course_id instructor_id : Z) :
  (forall c, In c (courses d) -> c_id c = course_id ->
             c_instructor_id c <> instructor_id) ->
  select_own_course d course_id instructor_id = None.
Proof.
  intros Hno. unfold select_own_course. apply find_none_forall.
  intros c Hc.
  destruct (c_id c =? course_id) eqn:H1; [|reflexivity].
  destruct (c_instructor_id c =? instructor_id) eqn:H2; [|reflexivity].
  apply Z.eqb_eq in H1, H2. destruct (Hno c Hc H1 H2).
Qed.

(** ** Authorization *)

Section Authorization.

Variable float_of_string : string -> option Q.
Variable format_0f : Q -> string.
Variable str_of_int : Z -> string.

(** C6. An instructor who passes the decorator but owns no course that the
    enrollment (or, for the progress setters, the course id of the request)
    refers to: approve, reject, block, unblock and remove answer with their
    "Enrollment not found or ..." error, the two progress setters answer
    403 with "Course not found or access denied"; in each case the database
    is the one the request found and no notification is sent. *)
Theorem not_owner_is_refused (now : timestamp) (cu : current_user)
    (fault : option progress_stmt) (enrollment_id course_id student_id : Z)
    (progress_field : option string) (d : db) :
  passes_instructor_required cu = true ->
  owns_no_course_of d (cu_id cu) enrollment_id ->
  (forall c, In c (courses d) -> c_id c = course_id ->
             c_instructor_id c <> cu_id cu) ->
  instructor_approve_enrollment now cu enrollment_id d
    = reply d (Redirect "instructor_enrollments"
                 "Enrollment not found or already processed." "error") /\
  instructor_reject_enrollment cu enrollment_id d
    = reply d (Redirect "instructor_enrollments"
                 "Enrollment not found or already processed." "error") /\
  instructor_block_student cu enrollment_id d
    = reply d (Redirect "instructor_enrollments"
                 "Enrollment not found or cannot be blocked." "error") /\
  instructor_unblock_student cu enrollment_id d
    = reply d (Redirect "instructor_enrollments"
                 "Enrollment not found or cannot be unblocked." "error") /\
  instructor_remove_student cu enrollment_id d
    = reply d (Redirect "instructor_enrollments"
                 "Enrollment not found or cannot be removed." "error") /\
  instructor_set_student_progress float_of_string format_0f fault cu
      course_id student_id progress_field d
    = reply d (Jsonify (json_error "Course not found or access denied") 403) /\
  instructor_set_progress_bulk float_of_string format_0f str_of_int cu
      course_id progress_field d
    = reply d (Jsonify (json_error "Course not found or access denied") 403).
Proof.
  intros Hpass Hno Hcourse.
  unfold instructor_approve_enrollment, instructor_reject_enrollment,
    instructor_block_student, instructor_unblock_student,
    instructor_remove_student, instructor_set_student_progress,
    instructor_set_progress_bulk.
  rewrite !(instructor_required_pass cu _ d Hpass).
  rewrite !(select_enrollment_not_owner d enrollment_id (cu_id cu) _ Hno).
  rewrite !(select_own_course_not_owner d course_id (cu_id cu) Hcourse).
  repeat split; reflexivity.
Qed.

End Authorization.

(** An instructor other than the owner tries each transition on Alice's
    approved enrollment and both progress setters on CS101. *)
Lemma not_owner_is_refused_witness :
  instructor_block_student Sample.other_teacher 1 Sample.db3
    = reply Sample.db3 (Redirect "instructor_enrollments"
                          "Enrollment not found or cannot be blocked." "error") /\
  Sample.set_progress None Sample.other_teacher 10 2 (Some "90"%string) Sample.db3
    = reply Sample.db3 (Jsonify (json_error "Course not found or access denied") 403).
Proof.
  assert (H1 : passes_instructor_required Sample.other_teacher = true)
    by reflexivity.
  assert (H2 : owns_no_course_of Sample.db3 (cu_id Sample.other_teacher) 1).
  { intros e c He Hid Hc Hcid.
    destruct Hc as [<-|[]]. cbn. discriminate. }
  assert (H3 : forall c, In c (courses Sample.db3) -> c_id c = 10 ->
                         c_instructor_id c <> cu_id Sample.other_teacher).
  { intros c [<-|[]] _. cbn. discriminate. }
  pose proof (not_owner_is_refused Sample.float_of_string Sample.format_0f
                Sample.str_of_int 0 Sample.other_teacher None 1 10 2
                (Some "90"%string) Sample.db3 H1 H2 H3) as H.
  split; [apply H | apply H].
Defined.

(** ** Which fields a request may change *)

Lemma nodup_id_unique (l : list enrollment) (e1 e2 : enrollment) :
  NoDup (map e_id l) -> In e1 l -> In e2 l -> e_id e1 = e_id e2 -> e1 = e2.
Proof.
  induction l as [|x l IH]; simpl; intros Hnd H1 H2 Heq; [contradiction|].
  inversion Hnd as [|? ? Hnot Hnd']; subst.
  destruct H1 as [->|H1], H2 as [->|H2]; auto.
  - exfalso. apply Hnot. rewrite Heq. apply in_map. exact H2.
  - exfalso. apply Hnot. rewrite <- Heq. apply in_map. exact H1.
Qed.

(** The rows a transition leaves: those it found, the ones with the id
    changed by [f] when a row was selected. *)
Lemma transition_rows (d : db) (cu : current_user) (enrollment_id : Z)
    (status : string) (f : enrollment -> enrollment)
    (fail : outcome) (succeed : enrollment * course * user -> outcome) :
  out_db fail = d ->
  (forall r, enrollments (out_db (succeed r))
             = update_where (has_id enrollment_id) f (enrollments d)) ->
  NoDup (map e_id (enrollments d)) ->
  forall e',
    In e' (enrollments (out_db
      (instructor_required cu
         match select_enrollment d enrollment_id (cu_id cu) status with
         | None => fail
         | Some r => succeed r
         end d))) ->
    exists e, In e (enrollments d) /\
      (e' = e \/ (e_id e = enrollment_id /\ e_status e = status /\ e' = f e)).
Proof.
  intros Hfail Hsucc Hnd e' Hin.
  destruct (instructor_required_db cu
    match select_enrollment d enrollment_id (cu_id cu) status with
    | None => fail
    | Some r => succeed r
    end d) as [E|E]; rewrite E in Hin.
  - exists e'. auto.
  - destruct (select_enrollment d enrollment_id (cu_id cu) status)
      as [[[e0 c] u]|] eqn:Hsel.
    + rewrite Hsucc in Hin. apply in_update_where in Hin.
      destruct Hin as [e [He ->]]. exists e. split; [exact He|].
      destruct (has_id enrollment_id e) eqn:Hid; [right|left; reflexivity].
      unfold has_id in Hid. apply Z.eqb_eq in Hid.
      apply select_enrollment_some in Hsel.
      destruct Hsel as (He0 & Hid0 & Hst0 & _).
      assert (e = e0) by (apply (nodup_id_unique (enrollments d)); congruence).
      subst e0. auto.
    + rewrite Hfail in Hin. exists e'. auto.
Qed.

Lemma keeps_refl e : keeps e e.
Proof. repeat split. Qed.

Lemma kept_refl l : kept l l.
Proof. intros e' H. exists e'. split; [exact H | apply keeps_refl]. Qed.

Lemma kept_trans l1 l2 l3 : kept l1 l2 -> kept l2 l3 -> kept l1 l3.
Proof.
  intros H12 H23 e3 H3.
  destruct (H23 e3 H3) as [e2 [H2 (A & B & C)]].
  destruct (H12 e2 H2) as [e1 [H1 (A' & B' & C')]].
  exists e1. split; [exact H1|]. repeat split; congruence.
Qed.

Lemma kept_update l p f :
  (forall e, keeps e (f e)) -> kept l (update_where p f l).
Proof.
  intros Hf e' H. apply in_update_where in H. destruct H as [e [He ->]].
  exists e. split; [exact He|]. destruct (p e); [apply Hf | apply keeps_refl].
Qed.

Lemma update_student_progress_kept (fault : option progress_stmt) (d : db)
    (student_id course_id : Z) :
  kept (enrollments d)
       (enrollments (fst (update_student_progress fault d student_id course_id))).
Proof.
  unfold update_student_progress, update_student_progress_try.
  destruct fault as [[]|]; cbn;
    destruct (count_quizzes d course_id =? 0); cbn;
    try apply kept_refl;
    apply kept_update; intros e; repeat split.
Qed.

Section Frames.

Variable strip : string -> string.
Variable upper : string -> string.
Variable check_password_hash : string -> string -> bool.
Variable float_of_string : string -> option Q.
Variable format_0f : Q -> string.
Variable str_of_int : Z -> string.

Lemma set_progress_loop_kept (c : course) (course_id : Z) (progress : Q)
    (students : list (Z * string)) (l : list enrollment)
    (sent stored : list notification) :
  kept l (fst (set_progress_loop format_0f c course_id progress students l sent stored)).
Proof.
  revert l sent stored. induction students as [|s rest IH]; intros l sent stored; simpl.
  - apply kept_refl.
  - eapply kept_trans; [|apply IH].
    apply kept_update. intros e. repeat split.
Qed.

Lemma set_progress_bulk_kept (cu : current_user) (course_id : Z)
    (progress_field : option string) (d : db) :
  kept (enrollments d)
       (enrollments (out_db (instructor_set_progress_bulk float_of_string
          format_0f str_of_int cu course_id progress_field d))).
Proof.
  unfold instructor_set_progress_bulk.
  apply instructor_required_case; [|intros r; apply kept_refl].
  destruct (select_own_course d course_id (cu_id cu)) as [c|];
    [|apply kept_refl].
  destruct progress_field as [text|]; [|apply kept_refl].
  destruct (is_empty text); [apply kept_refl|].
  destruct (float_of_string text) as [progress|]; [|apply kept_refl].
  destruct (out_of_range progress); [apply kept_refl|].
  cbv zeta.
  pose proof (set_progress_loop_kept c course_id progress
                (select_approved_students d course_id) (enrollments d) [] []) as H.
  destruct (set_progress_loop format_0f c course_id progress
              (select_approved_students d course_id) (enrollments d) [] [])
    as [l [sent stored]].
  exact H.
Qed.

End Frames.

Section Lifecycle.

Variable strip : string -> string.
Variable upper : string -> string.
Variable check_password_hash : string -> string -> bool.
Variable float_of_string : string -> option Q.
Variable format_0f : Q -> string.
Variable str_of_int : Z -> string.

Lemma clear_manual_override_kept (fault : option progress_stmt) (c : course)
    (course_id student_id : Z) (d : db) :
  kept (enrollments d)
       (enrollments (out_db (clear_manual_override format_0f fault c
                               course_id student_id d))).
Proof.
  unfold clear_manual_override. cbv zeta.
  pose proof (update_student_progress_kept fault
    (with_enrollments d
       (update_where (of_pair student_id course_id)
          (set_manual_override None) (enrollments d)))
    student_id course_id) as H.
  destruct (update_student_progress fault _ student_id course_id) as [d2 a].
  cbn in *. eapply kept_trans; [|exact H].
  apply kept_update. intros e. repeat split.
Qed.

Lemma set_student_progress_kept (fault : option progress_stmt)
    (cu : current_user) (course_id student_id : Z)
    (progress_field : option string) (d : db) :
  kept (enrollments d)
       (enrollments (out_db (instructor_set_student_progress float_of_string
          format_0f fault cu course_id student_id progress_field d))).
Proof.
  unfold instructor_set_student_progress.
  apply instructor_required_case; [|intros r; apply kept_refl].
  destruct (select_own_course d course_id (cu_id cu)) as [c|];
    [|apply kept_refl].
  destruct progress_field as [text|]; [|apply clear_manual_override_kept].
  destruct (is_empty text); [apply clear_manual_override_kept|].
  destruct (float_of_string text) as [progress|]; [|apply kept_refl].
  destruct (out_of_range progress); [apply kept_refl|].
  unfold store_manual_override. cbv zeta.
  destruct (find _ (users d)); cbn;
    apply kept_update; intros e; repeat split.
Qed.

(** The rows after an enrollment request: those that were there, and at
    most one new row, pending and without approval time. *)
Lemma student_enroll_rows (now : timestamp) (cu : current_user)
    (course_code_field enrollment_key_field : string) (d : db) (e' : enrollment) :
  In e' (enrollments (out_db (student_enroll strip upper check_password_hash
           now cu course_code_field enrollment_key_field d))) ->
  In e' (enrollments d) \/
  (e_approved_at e' = None /\ e_status e' = "pending"%string /\
   forall e, In e (enrollments d) -> e_id e <> e_id e').
Proof.
  unfold student_enroll, login_required.
  destruct (negb (cu_is_authenticated cu)); cbn; auto.
  destruct (negb (is_student cu)); cbn; auto.
  destruct (is_empty _ || is_empty _); cbn; auto.
  destruct (select_course_by_code d _) as [[c u]|]; cbn; auto.
  destruct (key_rejected _ _ _); cbn; auto.
  destruct (find _ (enrollments d)); cbn; auto.
  destruct (c_max_students c <=? count_approved d (c_id c)); cbn; auto.
  unfold insert_enrollment.
  destruct (existsb _ _); cbn; auto.
  intros H. apply in_app_or in H. destruct H as [H|[<-|[]]]; auto.
  right. cbn. repeat split.
  intros e He Heq. apply max_id_bound in He. lia.
Qed.

(** The table after a transition that found its row: the [UPDATE ...
    WHERE id = ?] applied to the table. *)
Lemma transition_done (d : db) (cu : current_user) (enrollment_id : Z)
    (status : string) (f : enrollment -> enrollment) (fail : outcome)
    (succeed : enrollment * course * user -> outcome)
    (r0 : enrollment * course * user) :
  passes_instructor_required cu = true ->
  select_enrollment d enrollment_id (cu_id cu) status = Some r0 ->
  (forall r, enrollments (out_db (succeed r))
             = update_where (has_id enrollment_id) f (enrollments d)) ->
  enrollments (out_db
    (instructor_required cu
       match select_enrollment d enrollment_id (cu_id cu) status with
       | None => fail
       | Some r => succeed r
       end d))
  = map (fun x => if e_id x =? enrollment_id then f x else x) (enrollments d).
Proof.
  intros Hpass Hsel Hsucc.
  rewrite (instructor_required_pass cu _ d Hpass), Hsel, Hsucc. reflexivity.
Qed.

(** With unique ids the [UPDATE ... WHERE id = ?] rewrites one row. *)
Lemma updated_row (l : list enrollment) (enrollment_id : Z)
    (f : enrollment -> enrollment) (e : enrollment) :
  NoDup (map e_id l) -> In e l -> e_id e = enrollment_id ->
  (forall x, e_id (f x) = e_id x) ->
  In (f e) (map (fun x => if e_id x =? enrollment_id then f x else x) l) /\
  forall e', In e' (map (fun x => if e_id x =? enrollment_id then f x else x) l) ->
             (e_id e' = enrollment_id -> e' = f e) /\
             (e_id e' <> enrollment_id -> In e' l).
Proof.
  intros Hnd He Hid Hf. split.
  - apply in_map_iff. exists e. split; [|exact He].
    rewrite Hid, Z.eqb_refl. reflexivity.
  - intros e' Hin. apply in_map_iff in Hin. destruct Hin as [x [<- Hx]].
    destruct (e_id x =? enrollment_id) eqn:E.
    + apply Z.eqb_eq in E. split.
      * intros _. f_equal. apply (nodup_id_unique l); congruence.
      * intros Hne. rewrite Hf in Hne. contradiction.
    + apply Z.eqb_neq in E. split; [contradiction|]. intros _. exact Hx.
Qed.

(** A row that is pending or rejected has never been approved: if such
    rows have no approval time before a request, they have none after. *)
Lemma never_approved_invariant (now : timestamp)
    (fault : option progress_stmt) (cu : current_user) (r : request) (d : db) :
  NoDup (map e_id (enrollments d)) ->
  (forall e, In e (enrollments d) ->
             e_status e = "pending"%string \/ e_status e = "rejected"%string ->
             e_approved_at e = None) ->
  forall e',
    In e' (enrollments (out_db (handle strip upper check_password_hash
             float_of_string format_0f str_of_int now fault cu r d))) ->
    e_status e' = "pending"%string \/ e_status e' = "rejected"%string ->
    e_approved_at e' = None.
Proof.
  intros Hnd Hinv e' Hin Hst.
  destruct r as [code key|id|id|id|id|id|cid field|cid sid field];
    cbn [handle] in Hin.
  - apply student_enroll_rows in Hin. destruct Hin as [H|H]; [auto|tauto].
  - unfold instructor_approve_enrollment in Hin.
    apply (transition_rows d cu id "pending" (set_approved now)) in Hin;
      [|reflexivity|intros [[e c] u]; reflexivity|exact Hnd].
    destruct Hin as [e [He [->|(_ & _ & ->)]]]; [auto|].
    cbn in Hst. destruct Hst as [H|H]; discriminate H.
  - unfold instructor_reject_enrollment in Hin.
    apply (transition_rows d cu id "pending" (set_status "rejected")) in Hin;
      [|reflexivity|intros [[e c] u]; reflexivity|exact Hnd].
    destruct Hin as [e [He [->|(_ & Hp & ->)]]]; [auto|].
    cbn. apply (Hinv e He). left. exact Hp.
  - unfold instructor_block_student in Hin.
    apply (transition_rows d cu id "approved" (set_status "blocked")) in Hin;
      [|reflexivity|intros [[e c] u]; reflexivity|exact Hnd].
    destruct Hin as [e [He [->|(_ & _ & ->)]]]; [auto|].
    cbn in Hst. destruct Hst as [H|H]; discriminate H.
  - unfold instructor_remove_student in Hin.
    revert Hin. apply instructor_required_case.
    + destruct (select_enrollment d id (cu_id cu) "approved") as [[[e c] u]|];
        cbn; intros Hin; [apply filter_In in Hin; destruct Hin|]; auto.
    + intros r Hin. auto.
  - unfold instructor_unblock_student in Hin.
    apply (transition_rows d cu id "blocked" (set_status "approved")) in Hin;
      [|reflexivity|intros [[e c] u]; reflexivity|exact Hnd].
    destruct Hin as [e [He [->|(_ & _ & ->)]]]; [auto|].
    cbn in Hst. destruct Hst as [H|H]; discriminate H.
  - apply set_progress_bulk_kept in Hin.
    destruct Hin as [e [He (A & B & C)]].
    rewrite C. apply (Hinv e He). rewrite <- B. exact Hst.
  - apply set_student_progress_kept in Hin.
    destruct Hin as [e [He (A & B & C)]].
    rewrite C. apply (Hinv e He). rewrite <- B. exact Hst.
Qed.

(** C5. What a request does to the approval time of the rows with unique
    ids.  A row after the request is
    - a row from before with the same id and the same [approved_at], which
      has not become pending; after a block or an unblock it is either
      untouched or the selected approved (resp. blocked) row with nothing
      but the status changed; or
    - for an approval, the selected pending row with status approved and
      [approved_at] set to the current time; or
    - for an enrollment request, the new pending row, whose [approved_at]
      is null.
    Recomputing the progress keeps id, status and [approved_at] of every
    row.
    An approval that finds its pending row does set the time: the table
    after it is the table before with status approved and [approved_at]
    the current time in the row of that id, whatever [approved_at] held,
    and every other field and row as before.  A block (an unblock, a
    rejection) that finds its row leaves the table with status blocked
    (approved, rejected) in that row and every other field and row as
    before, [approved_at] included.  And [approved_at] is null until the
    first approval: if no pending or rejected row has an approval time
    before the request, none has one after it. *)
Theorem approved_at_lifecycle (now : timestamp) (fault : option progress_stmt)
    (cu : current_user) (r : request) (d : db) :
  NoDup (map e_id (enrollments d)) ->
  (forall e',
     In e' (enrollments (out_db (handle strip upper check_password_hash
              float_of_string format_0f str_of_int now fault cu r d))) ->
     (exists e, In e (enrollments d) /\ e_id e' = e_id e /\
        e_approved_at e' = e_approved_at e /\
        (e_status e' = "pending"%string -> e_status e = "pending"%string) /\
        match r with
        | BlockStudent id =>
            e' = e \/ (e_id e = id /\ e_status e = "approved"%string /\
                       e_status e' = "blocked"%string /\ same_but_status e e')
        | UnblockStudent id =>
            e' = e \/ (e_id e = id /\ e_status e = "blocked"%string /\
                       e_status e' = "approved"%string /\ same_but_status e e')
        | _ => True
        end) \/
     (exists id e, r = ApproveEnrollment id /\ In e (enrollments d) /\
        e_id e = id /\ e_status e = "pending"%string /\
        e' = set_approved now e) \/
     (exists code key, r = StudentEnroll code key /\
        e_approved_at e' = None /\ e_status e' = "pending"%string /\
        forall e, In e (enrollments d) -> e_id e <> e_id e')) /\
  (forall student_id course_id,
     kept (enrollments d)
          (enrollments (fst (update_student_progress fault d student_id course_id)))) /\
  (forall id e c u,
     r = ApproveEnrollment id ->
     passes_instructor_required cu = true ->
     select_enrollment d id (cu_id cu) "pending" = Some (e, c, u) ->
     let rows := enrollments (out_db (handle strip upper check_password_hash
                      float_of_string format_0f str_of_int now fault cu r d)) in
     rows
     = map (fun x => if e_id x =? id
                     then {| e_id := e_id x; e_student_id := e_student_id x;
                        e_course_id := e_course_id x; e_status := "approved";
                        e_enrolled_at := e_enrolled_at x;
                        e_approved_at := Some now;
                        e_progress_percentage := e_progress_percentage x;
                        e_manual_progress_override :=
                          e_manual_progress_override x |}
                     else x)
           (enrollments d) /\
     (exists e', In e' rows /\ e_id e' = id) /\
     (forall e', In e' rows -> e_id e' = id ->
        e_status e' = "approved"%string /\ e_approved_at e' = Some now /\
        e_student_id e' = e_student_id e /\ e_course_id e' = e_course_id e /\
        e_enrolled_at e' = e_enrolled_at e /\
        e_progress_percentage e' = e_progress_percentage e /\
        e_manual_progress_override e' = e_manual_progress_override e) /\
     (forall e', In e' rows -> e_id e' <> id -> In e' (enrollments d))) /\
  (forall id e c u,
     r = BlockStudent id ->
     passes_instructor_required cu = true ->
     select_enrollment d id (cu_id cu) "approved" = Some (e, c, u) ->
     let rows := enrollments (out_db (handle strip upper check_password_hash
                      float_of_string format_0f str_of_int now fault cu r d)) in
     rows
     = map (fun x => if e_id x =? id
                     then {| e_id := e_id x; e_student_id := e_student_id x;
                        e_course_id := e_course_id x; e_status := "blocked";
                        e_enrolled_at := e_enrolled_at x;
                        e_approved_at := e_approved_at x;
                        e_progress_percentage := e_progress_percentage x;
                        e_manual_progress_override :=
                          e_manual_progress_override x |}
                     else x)
           (enrollments d) /\
     (exists e', In e' rows /\ e_id e' = id) /\
     (forall e', In e' rows -> e_id e' = id ->
        e_status e' = "blocked"%string /\ same_but_status e e') /\
     (forall e', In e' rows -> e_id e' <> id -> In e' (enrollments d))) /\
  (forall id e c u,
     r = UnblockStudent id ->
     passes_instructor_required cu = true ->
     select_enrollment d id (cu_id cu) "blocked" = Some (e, c, u) ->
     let rows := enrollments (out_db (handle strip upper check_password_hash
                      float_of_string format_0f str_of_int now fault cu r d)) in
     rows
     = map (fun x => if e_id x =? id
                     then {| e_id := e_id x; e_student_id := e_student_id x;
                        e_course_id := e_course_id x; e_status := "approved";
                        e_enrolled_at := e_enrolled_at x;
                        e_approved_at := e_approved_at x;
                        e_progress_percentage := e_progress_percentage x;
                        e_manual_progress_override :=
                          e_manual_progress_override x |}
                     else x)
           (enrollments d) /\
     (exists e', In e' rows /\ e_id e' = id) /\
     (forall e', In e' rows -> e_id e' = id ->
        e_status e' = "approved"%string /\ same_but_status e e') /\
     (forall e', In e' rows -> e_id e' <> id -> In e' (enrollments d))) /\
  (forall id e c u,
     r = RejectEnrollment id ->
     passes_instructor_required cu = true ->
     select_enrollment d id (cu_id cu) "pending" = Some (e, c, u) ->
     let rows := enrollments (out_db (handle strip upper check_password_hash
                      float_of_string format_0f str_of_int now fault cu r d)) in
     rows
     = map (fun x => if e_id x =? id
                     then {| e_id := e_id x; e_student_id := e_student_id x;
                        e_course_id := e_course_id x; e_status := "rejected";
                        e_enrolled_at := e_enrolled_at x;
                        e_approved_at := e_approved_at x;
                        e_progress_percentage := e_progress_percentage x;
                        e_manual_progress_override :=
                          e_manual_progress_override x |}
                     else x)
           (enrollments d) /\
     (exists e', In e' rows /\ e_id e' = id) /\
     (forall e', In e' rows -> e_id e' = id ->
        e_status e' = "rejected"%string /\ same_but_status e e') /\
     (forall e', In e' rows -> e_id e' <> id -> In e' (enrollments d))) /\
  ((forall e, In e (enrollments d) ->
               e_status e = "pending"%string \/ e_status e = "rejected"%string ->
               e_approved_at e = None) ->
   forall e',
     In e' (enrollments (out_db (handle strip upper check_password_hash
              float_of_string format_0f str_of_int now fault cu r d))) ->
     e_status e' = "pending"%string \/ e_status e' = "rejected"%string ->
     e_approved_at e' = None).
Proof.
  intros Hnd.
  split; [|split; [intros; apply update_student_progress_kept|]].
  { intros e' Hin. 
      destruct r as [code key|id|id|id|id|id|cid field|cid sid field];
        cbn [handle] in Hin.
      - apply student_enroll_rows in Hin. destruct Hin as [H|H].
        + left. exists e'. repeat split; auto.
        + right. right. exists code, key. tauto.
      - unfold instructor_approve_enrollment in Hin.
        apply (transition_rows d cu id "pending" (set_approved now)) in Hin;
          [|reflexivity|intros [[e c] u]; reflexivity|exact Hnd].
        destruct Hin as [e [He [->|(Hid & Hst & ->)]]].
        + left. exists e. repeat split; auto.
        + right. left. exists id, e. auto.
      - unfold instructor_reject_enrollment in Hin.
        apply (transition_rows d cu id "pending" (set_status "rejected")) in Hin;
          [|reflexivity|intros [[e c] u]; reflexivity|exact Hnd].
        destruct Hin as [e [He [->|(Hid & Hst & ->)]]];
          left; exists e; repeat split; auto.
      - unfold instructor_block_student in Hin.
        apply (transition_rows d cu id "approved" (set_status "blocked")) in Hin;
          [|reflexivity|intros [[e c] u]; reflexivity|exact Hnd].
        destruct Hin as [e [He [->|(Hid & Hst & ->)]]];
          left; exists e; repeat split; auto.
        + cbn. discriminate.
        + right. repeat split; auto.
      - unfold instructor_remove_student in Hin.
        revert Hin. apply instructor_required_case.
        + destruct (select_enrollment d id (cu_id cu) "approved") as [[[e c] u]|];
            cbn; intros Hin.
          * apply filter_In in Hin. left. exists e'. repeat split; tauto.
          * left. exists e'. repeat split; auto.
        + intros r Hin. left. exists e'. repeat split; auto.
      - unfold instructor_unblock_student in Hin.
        apply (transition_rows d cu id "blocked" (set_status "approved")) in Hin;
          [|reflexivity|intros [[e c] u]; reflexivity|exact Hnd].
        destruct Hin as [e [He [->|(Hid & Hst & ->)]]];
          left; exists e; repeat split; auto.
        + cbn. discriminate.
        + right. repeat split; auto.
      - apply set_progress_bulk_kept in Hin.
        destruct Hin as [e [He (A & B & C)]].
        left. exists e. repeat split; auto. congruence.
      - apply set_student_progress_kept in Hin.
        destruct Hin as [e [He (A & B & C)]].
        left. exists e. repeat split; auto. congruence.
  }
  split; [|split; [|split; [|split]]].
  - intros id e c u -> Hpass Hsel. cbv zeta. cbn [handle].
    unfold instructor_approve_enrollment.
    rewrite (transition_done d cu id "pending" (set_approved now) _ _ _
               Hpass Hsel) by (intros [[e1 c1] u1]; reflexivity).
    apply select_enrollment_some in Hsel. destruct Hsel as (He & Hid & _).
    destruct (updated_row (enrollments d) id (set_approved now) e Hnd He Hid
                (fun x => eq_refl)) as [Hin Hrows].
    split; [reflexivity|]. split; [exists (set_approved now e); auto|]. split.
    + intros e' H' Hid'. rewrite (proj1 (Hrows e' H') Hid'). repeat split.
    + intros e' H' Hid'. exact (proj2 (Hrows e' H') Hid').
  - intros id e c u -> Hpass Hsel. cbv zeta. cbn [handle].
    unfold instructor_block_student.
    rewrite (transition_done d cu id "approved" (set_status "blocked") _ _ _
               Hpass Hsel) by (intros [[e1 c1] u1]; reflexivity).
    apply select_enrollment_some in Hsel. destruct Hsel as (He & Hid & _).
    destruct (updated_row (enrollments d) id (set_status "blocked") e Hnd He
                Hid (fun x => eq_refl)) as [Hin Hrows].
    split; [reflexivity|]. split; [exists (set_status "blocked" e); auto|].
    split.
    + intros e' H' Hid'. rewrite (proj1 (Hrows e' H') Hid'). repeat split.
    + intros e' H' Hid'. exact (proj2 (Hrows e' H') Hid').
  - intros id e c u -> Hpass Hsel. cbv zeta. cbn [handle].
    unfold instructor_unblock_student.
    rewrite (transition_done d cu id "blocked" (set_status "approved") _ _ _
               Hpass Hsel) by (intros [[e1 c1] u1]; reflexivity).
    apply select_enrollment_some in Hsel. destruct Hsel as (He & Hid & _).
    destruct (updated_row (enrollments d) id (set_status "approved") e Hnd He
                Hid (fun x => eq_refl)) as [Hin Hrows].
    split; [reflexivity|]. split; [exists (set_status "approved" e); auto|].
    split.
    + intros e' H' Hid'. rewrite (proj1 (Hrows e' H') Hid'). repeat split.
    + intros e' H' Hid'. exact (proj2 (Hrows e' H') Hid').
  - intros id e c u -> Hpass Hsel. cbv zeta. cbn [handle].
    unfold instructor_reject_enrollment.
    rewrite (transition_done d cu id "pending" (set_status "rejected") _ _ _
               Hpass Hsel) by (intros [[e1 c1] u1]; reflexivity).
    apply select_enrollment_some in Hsel. destruct Hsel as (He & Hid & _).
    destruct (updated_row (enrollments d) id (set_status "rejected") e Hnd He
                Hid (fun x => eq_refl)) as [Hin Hrows].
    split; [reflexivity|]. split; [exists (set_status "rejected" e); auto|].
    split.
    + intros e' H' Hid'. rewrite (proj1 (Hrows e' H') Hid'). repeat split.
    + intros e' H' Hid'. exact (proj2 (Hrows e' H') Hid').
  - apply never_approved_invariant. exact Hnd.
Qed.

End Lifecycle.

(** The primary key is kept by every request. *)

Lemma update_where_ids (p : enrollment -> bool) (f : enrollment -> enrollment)
    (l : list enrollment) :
  (forall e, e_id (f e) = e_id e) ->
  map e_id (update_where p f l) = map e_id l.
Proof.
  intros Hf. unfold update_where. rewrite map_map. apply map_ext.
  intros e. destruct (p e); [apply Hf|reflexivity].
Qed.

Lemma delete_where_ids (p : enrollment -> bool) (l : list enrollment) :
  NoDup (map e_id l) -> NoDup (map e_id (delete_where p l)).
Proof.
  unfold delete_where. induction l as [|x l IH]; simpl; intros H; [constructor|].
  inversion H as [|? ? Hnot Hnd]; subst.
  destruct (negb (p x)); simpl; [|apply IH; exact Hnd].
  constructor; [|apply IH; exact Hnd].
  intros Hin. apply Hnot. apply in_map_iff in Hin.
  destruct Hin as [e [He Hin]]. apply filter_In in Hin.
  apply in_map_iff. exists e. tauto.
Qed.

Lemma nodup_snoc (l : list Z) (x : Z) :
  NoDup l -> ~ In x l -> NoDup (l ++ [x]).
Proof.
  induction l as [|y l IH]; simpl; intros Hnd Hx.
  - constructor; [intros []|constructor].
  - inversion Hnd as [|? ? Hnot Hnd']; subst. constructor.
    + intros Hin. apply in_app_or in Hin. destruct Hin as [Hin|[->|[]]]; tauto.
    + apply IH; tauto.
Qed.

Section PrimaryKey.

Variable strip : string -> string.
Variable upper : string -> string.
Variable check_password_hash : string -> string -> bool.
Variable float_of_string : string -> option Q.
Variable format_0f : Q -> string.
Variable str_of_int : Z -> string.

Lemma set_progress_loop_ids (c : course) (course_id : Z) (progress : Q)
    (students : list (Z * string)) (l : list enrollment)
    (sent stored : list notification) :
  map e_id (fst (set_progress_loop format_0f c course_id progress students l sent stored))
  = map e_id l.
Proof.
  revert l sent stored. induction students as [|s rest IH]; intros l sent stored; simpl;
    [reflexivity|].
  rewrite IH. apply update_where_ids. intros e. reflexivity.
Qed.

Lemma update_student_progress_ids (fault : option progress_stmt) (d : db)
    (student_id course_id : Z) :
  map e_id (enrollments (fst (update_student_progress fault d student_id course_id)))
  = map e_id (enrollments d).
Proof.
  unfold update_student_progress, update_student_progress_try.
  destruct fault as [[]|]; cbn;
    destruct (count_quizzes d course_id =? 0); cbn;
    try reflexivity;
    apply update_where_ids; intros e; reflexivity.
Qed.

Lemma unique_ids_preserved (now : timestamp) (fault : option progress_stmt)
    (cu : current_user) (r : request) (d : db) :
  NoDup (map e_id (enrollments d)) ->
  NoDup (map e_id (enrollments (out_db
           (handle strip upper check_password_hash float_of_string format_0f
              str_of_int now fault cu r d)))).
Proof.
  intros Hnd.
  assert (Hupd : forall p f, (forall e, e_id (f e) = e_id e) ->
            NoDup (map e_id (update_where p f (enrollments d)))).
  { intros p f Hf. rewrite update_where_ids by exact Hf. exact Hnd. }
  destruct r as [code key|id|id|id|id|id|cid field|cid sid field]; cbn [handle].
  - unfold student_enroll, login_required.
    destruct (negb (cu_is_authenticated cu)); cbn; auto.
    destruct (negb (is_student cu)); cbn; auto.
    destruct (is_empty _ || is_empty _); cbn; auto.
    destruct (select_course_by_code d _) as [[c u]|]; cbn; auto.
    destruct (key_rejected _ _ _); cbn; auto.
    destruct (find _ (enrollments d)); cbn; auto.
    destruct (c_max_students c <=? count_approved d (c_id c)); cbn; auto.
    unfold insert_enrollment. destruct (existsb _ _); cbn; auto.
    rewrite map_app. cbn. apply nodup_snoc; [exact Hnd|].
    intros Hin. apply in_map_iff in Hin. destruct Hin as [e [Heq He]].
    apply max_id_bound in He. lia.
  - unfold instructor_approve_enrollment.
    apply instructor_required_case; [|intros; exact Hnd].
    destruct (select_enrollment _ _ _ _) as [[[e c] u]|]; cbn; auto.
  - unfold instructor_reject_enrollment.
    apply instructor_required_case; [|intros; exact Hnd].
    destruct (select_enrollment _ _ _ _) as [[[e c] u]|]; cbn; auto.
  - unfold instructor_block_student.
    apply instructor_required_case; [|intros; exact Hnd].
    destruct (select_enrollment _ _ _ _) as [[[e c] u]|]; cbn; auto.
  - unfold instructor_remove_student.
    apply instructor_required_case; [|intros; exact Hnd].
    destruct (select_enrollment _ _ _ _) as [[[e c] u]|]; cbn; auto.
    apply delete_where_ids. exact Hnd.
  - unfold instructor_unblock_student.
    apply instructor_required_case; [|intros; exact Hnd].
    destruct (select_enrollment _ _ _ _) as [[[e c] u]|]; cbn; auto.
  - unfold instructor_set_progress_bulk.
    apply instructor_required_case; [|intros; exact Hnd].
    destruct (select_own_course d cid (cu_id cu)) as [c|]; cbn; auto.
    destruct field as [text|]; cbn; auto.
    destruct (is_empty text); cbn; auto.
    destruct (float_of_string text) as [progress|]; cbn; auto.
    destruct (out_of_range progress); cbn; auto.
    pose proof (set_progress_loop_ids c cid progress
                  (select_approved_students d cid) (enrollments d) [] []) as H.
    destruct (set_progress_loop _ _ _ _ _ _ _ _) as [l [sent stored]].
    cbn in *. rewrite H. exact Hnd.
  - unfold instructor_set_student_progress.
    apply instructor_required_case; [|intros; exact Hnd].
    destruct (select_own_course d cid (cu_id cu)) as [c|]; cbn; auto.
    assert (Hclear : NoDup (map e_id (enrollments (out_db
              (clear_manual_override format_0f fault c cid sid d))))).
    { unfold clear_manual_override. cbv zeta.
      pose proof (update_student_progress_ids fault
        (with_enrollments d
           (update_where (of_pair sid cid) (set_manual_override None)
              (enrollments d))) sid cid) as H.
      destruct (update_student_progress fault _ sid cid) as [d2 a].
      cbn in *. rewrite H. apply Hupd. intros e. reflexivity. }
    destruct field as [text|]; [|exact Hclear].
    destruct (is_empty text); [exact Hclear|].
    destruct (float_of_string text) as [progress|]; cbn; auto.
    destruct (out_of_range progress); cbn; auto.
    unfold store_manual_override. cbv zeta.
    destruct (find _ (users d)); cbn; apply Hupd; intros e; reflexivity.
Qed.

End PrimaryKey.

(** The instructor approves Alice's pending request at time 101: the row
    gets the status and the time.  Then the instructor blocks Alice: only
    the status changes. *)
Lemma approved_at_lifecycle_witness :
  (map (fun e => (e_id e, e_status e, e_approved_at e)) (enrollments Sample.db1)
     = [ (1, "pending"%string, None) ] /\
   map (fun e => (e_id e, e_status e, e_approved_at e))
       (enrollments (out_db
          (instructor_approve_enrollment 101 Sample.teacher 1 Sample.db1)))
     = [ (1, "approved"%string, Some 101) ]) /\
  map (fun e => (e_id e, e_status e, e_approved_at e))
      (enrollments (out_db (instructor_block_student Sample.teacher 1 Sample.db3)))
    = [ (1, "blocked"%string, Some 101) ].
Proof.
  assert (Hnd1 : NoDup (map e_id (enrollments Sample.db1))).
  { cbn. constructor; [intros []|constructor]. }
  assert (Hnd3 : NoDup (map e_id (enrollments Sample.db3))).
  { cbn. constructor; [intros []|constructor]. }
  split; [split; [reflexivity|]|].
  - destruct (approved_at_lifecycle Sample.strip Sample.upper
                Sample.check_password_hash Sample.float_of_string
                Sample.format_0f Sample.str_of_int 101 None Sample.teacher
                (ApproveEnrollment 1) Sample.db1 Hnd1)
      as (_ & _ & Happrove & _).
    destruct (Happrove 1 _ _ _ eq_refl eq_refl eq_refl) as [Hrows _].
    cbn [handle] in Hrows. rewrite Hrows. reflexivity.
  - destruct (approved_at_lifecycle Sample.strip Sample.upper
                Sample.check_password_hash Sample.float_of_string
                Sample.format_0f Sample.str_of_int 0 None Sample.teacher
                (BlockStudent 1) Sample.db3 Hnd3)
      as (_ & _ & _ & Hblock & _).
    destruct (Hblock 1 _ _ _ eq_refl eq_refl eq_refl) as [Hrows _].
    cbn [handle] in Hrows. rewrite Hrows. reflexivity.
Defined.

(** ** Capacity *)

Lemma filter_map_length_le {A : Type} (P : A -> bool) (g : A -> A) (l : list A) :
  (forall x, P x = true -> P (g x) = true) ->
  (List.length (filter P l) <= List.length (filter P (map g l)))%nat.
Proof.
  intros Hg. induction l as [|x l IH]; simpl; [lia|].
  destruct (P x) eqn:Hx.
  - rewrite (Hg x Hx). simpl. lia.
  - destruct (P (g x)); simpl; lia.
Qed.

Lemma filter_map_length_lt {A : Type} (P : A -> bool) (g : A -> A) (l : list A)
    (x : A) :
  (forall y, P y = true -> P (g y) = true) ->
  In x l -> P x = false -> P (g x) = true ->
  (List.length (filter P l) < List.length (filter P (map g l)))%nat.
Proof.
  intros Hg Hin Hx Hgx. induction l as [|y l IH]; simpl; [contradiction|].
  destruct Hin as [->|Hin].
  - rewrite Hx, Hgx. simpl.
    pose proof (filter_map_length_le P g l Hg). lia.
  - specialize (IH Hin). destruct (P y) eqn:Hy.
    + rewrite (Hg y Hy). simpl. lia.
    + destruct (P (g y)); simpl; lia.
Qed.

(** C3, as the code has it.  Approval makes no capacity check: whenever the
    acting instructor passes the decorator and a pending row of one of their
    courses is selected, the approval succeeds, every row with the id becomes
    approved at the current time, and the approved count of the course grows;
    if the count had reached [max_students] it now exceeds it. *)
Theorem approve_ignores_capacity (now : timestamp) (cu : current_user)
    (enrollment_id : Z) (d : db) (e : enrollment) (c : course) (u : user) :
  passes_instructor_required cu = true ->
  select_enrollment d enrollment_id (cu_id cu) "pending" = Some (e, c, u) ->
  let out := instructor_approve_enrollment now cu enrollment_id d in
  out_response out
    = Redirect "instructor_enrollments"
        ("Approved enrollment for " +++ u_full_name u +++ " in " +++ c_title c +++ ".")
        "success" /\
  enrollments (out_db out)
    = update_where (has_id enrollment_id) (set_approved now) (enrollments d) /\
  count_approved d (c_id c) < count_approved (out_db out) (c_id c) /\
  (c_max_students c <= count_approved d (c_id c) ->
   c_max_students c < count_approved (out_db out) (c_id c)).
Proof.
  intros Hpass Hsel. cbv zeta. unfold instructor_approve_enrollment.
  rewrite (instructor_required_pass cu _ d Hpass), Hsel. cbn.
  apply select_enrollment_some in Hsel.
  destruct Hsel as (He & Hid & Hst & _ & Hcid & _).
  assert (Hlt : count_approved d (c_id c)
                < count_approved
                    (with_enrollments d
                       (update_where (has_id enrollment_id) (set_approved now)
                          (enrollments d))) (c_id c)).
  { unfold count_approved, update_where. cbn.
    apply inj_lt.
    apply (filter_map_length_lt _ _ _ e); auto.
    - intros y Hy. destruct (has_id enrollment_id y); [|exact Hy].
      cbn. apply andb_true_iff in Hy. destruct Hy as [Hy _].
      rewrite Hy. reflexivity.
    - rewrite Hst. apply andb_false_r.
    - unfold has_id. rewrite Hid, Z.eqb_refl. cbn.
      rewrite Hcid, Z.eqb_refl. reflexivity. }
  split; [reflexivity|]. split; [reflexivity|]. split; [exact Hlt|].
  intros Hfull. eapply Z.le_lt_trans; [exact Hfull | exact Hlt].
Qed.

(** Bob's pending request is approved although Alice already fills the only
    place. *)
Lemma approve_ignores_capacity_witness :
  c_max_students Sample.cs101
  < count_approved
      (out_db (instructor_approve_enrollment 104 Sample.teacher 2 Sample.db2b)) 10.
Proof.
  destruct (approve_ignores_capacity 104 Sample.teacher 2 Sample.db2b
              {| e_id := 2; e_student_id := 3; e_course_id := 10;
                 e_status := "pending"; e_enrolled_at := 102;
                 e_approved_at := None; e_progress_percentage := 0%Q;
                 e_manual_progress_override := None |}
              Sample.cs101 (mk_user 3 "student" "Bob") eq_refl eq_refl)
    as (_ & _ & _ & H).
  apply H. vm_compute. discriminate.
Defined.

(** C3 fails on the code.  Alice and Bob both request enrollment in a course
    with [max_students = 1] while nobody is approved; Alice is approved, so
    the approved count equals the capacity; the approval of Bob then succeeds
    all the same and leaves two approved enrollments. *)
Lemma approve_at_capacity_counterexample :
  count_approved Sample.db2b 10 = c_max_students Sample.cs101 /\
  out_response (instructor_approve_enrollment 104 Sample.teacher 2 Sample.db2b)
    = Redirect "instructor_enrollments" "Approved enrollment for Bob in Intro."
        "success" /\
  map e_status
      (enrollments
         (out_db (instructor_approve_enrollment 104 Sample.teacher 2 Sample.db2b)))
    = [ "approved"%string; "approved"%string ] /\
  count_approved
    (out_db (instructor_approve_enrollment 104 Sample.teacher 2 Sample.db2b)) 10
    > c_max_students Sample.cs101.
Proof. vm_compute. repeat split. Qed.

(** An approval keeps the student and the course of every row. *)
Lemma approve_keeps_pairs (now : timestamp) (cu : current_user)
    (enrollment_id : Z) (d : db) (e' : enrollment) :
  In e' (enrollments (out_db (instructor_approve_enrollment now cu enrollment_id d))) ->
  exists e, In e (enrollments d) /\ e_student_id e' = e_student_id e /\
            e_course_id e' = e_course_id e.
Proof.
  unfold instructor_approve_enrollment. apply instructor_required_case.
  - destruct (select_enrollment d enrollment_id (cu_id cu) "pending")
      as [[[e c] u]|]; cbn; intros H.
    + apply in_update_where in H. destruct H as [e0 [He0 ->]].
      exists e0. destruct (has_id enrollment_id e0); auto.
    + exists e'. auto.
  - intros r H. exists e'. auto.
Qed.

Section FullCourse.

Variable strip : string -> string.
Variable upper : string -> string.
Variable check_password_hash : string -> string -> bool.

(** C7, as the code has it.  In an active course with [max_students = 1]
    and one approved enrollment, the request of a second student with the
    correct key is answered "Course is full" and creates no row: the check
    at request time is [count >= max_students] on the approved
    enrollments.  No approval attempted on that database gives the second
    student a row. *)
Theorem request_at_capacity_is_refused (now : timestamp) (cu : current_user)
    (course_code_field enrollment_key_field : string) (d : db)
    (c : course) (instructor : user) :
  cu_is_authenticated cu = true ->
  is_student cu = true ->
  is_empty (upper (strip course_code_field)) = false ->
  is_empty (strip enrollment_key_field) = false ->
  select_course_by_code d (upper (strip course_code_field)) = Some (c, instructor) ->
  key_rejected check_password_hash c (strip enrollment_key_field) = false ->
  (forall e, In e (enrollments d) ->
             ~ (e_student_id e = cu_id cu /\ e_course_id e = c_id c)) ->
  c_max_students c = 1 ->
  count_approved d (c_id c) = 1 ->
  student_enroll strip upper check_password_hash now cu
      course_code_field enrollment_key_field d
    = reply d (Redirect "student_browse_courses"
                 "Course is full. No more enrollments accepted." "warning") /\
  forall now' approver enrollment_id e',
    In e' (enrollments
             (out_db (instructor_approve_enrollment now' approver enrollment_id d))) ->
    ~ (e_student_id e' = cu_id cu /\ e_course_id e' = c_id c).
Proof.
  intros Hauth Hstud Hcode Hkey Hsel Hok Hnew Hmax Hcount. split.
  - unfold student_enroll, login_required.
    rewrite Hauth, Hstud. cbn [negb]. cbv zeta.
    rewrite Hcode, Hkey. cbn [orb]. rewrite Hsel, Hok.
    assert (Hf : find (of_pair (cu_id cu) (c_id c)) (enrollments d) = None).
    { apply find_none_forall. intros e He.
      destruct (of_pair (cu_id cu) (c_id c) e) eqn:Ht; [|reflexivity].
      apply of_pair_true in Ht. destruct (Hnew e He Ht). }
    rewrite Hf, Hmax, Hcount. reflexivity.
  - intros now' approver enrollment_id e' Hin [Hs Hc].
    apply approve_keeps_pairs in Hin. destruct Hin as [e [He [Es Ec]]].
    apply (Hnew e He). split; congruence.
Qed.

End FullCourse.

(** Bob asks for the place that Alice holds. *)
Lemma request_at_capacity_is_refused_witness :
  Sample.enroll 102 Sample.bob Sample.db2
    = reply Sample.db2 (Redirect "student_browse_courses"
                          "Course is full. No more enrollments accepted." "warning").
Proof.
  apply (request_at_capacity_is_refused Sample.strip Sample.upper
           Sample.check_password_hash 102 Sample.bob " cs101 " "secret " Sample.db2
           Sample.cs101 (mk_user 1 "instructor" "Tess")).
  - reflexivity.
  - reflexivity.
  - reflexivity.
  - reflexivity.
  - reflexivity.
  - reflexivity.
  - intros e [<-|[]] [H _]. discriminate H.
  - reflexivity.
  - reflexivity.
Defined.

(** C7 fails on the code: with Alice approved in the course of capacity 1,
    Bob's request with the correct key is turned down and no pending row is
    created. *)
Lemma request_at_capacity_counterexample :
  count_approved Sample.db2 10 = 1 /\
  c_max_students Sample.cs101 = 1 /\
  Sample.check_password_hash "hash:secret" "secret" = true /\
  out_response (Sample.enroll 102 Sample.bob Sample.db2)
    = Redirect "student_browse_courses"
        "Course is full. No more enrollments accepted." "warning" /\
  enrollments (out_db (Sample.enroll 102 Sample.bob Sample.db2))
    = enrollments Sample.db2 /\
  map e_student_id (enrollments Sample.db2) = [ 2 ].
Proof. vm_compute. repeat split. Qed.

(** ** Clearing the override *)

Lemma update_where_twice (p : enrollment -> bool) (f1 f2 : enrollment -> enrollment)
    (l : list enrollment) :
  (forall e, p (f1 e) = p e) ->
  update_where p f2 (update_where p f1 l)
  = map (fun e => if p e then f2 (f1 e) else e) l.
Proof.
  intros Hp. unfold update_where. rewrite map_map. apply map_ext.
  intros e. destruct (p e) eqn:He; [rewrite Hp, He|rewrite He]; reflexivity.
Qed.

Lemma find_cleared (student_id course_id : Z) (l : list enrollment) :
  match find (of_pair student_id course_id)
          (update_where (of_pair student_id course_id) (set_manual_override None) l)
  with
  | Some e => e_manual_progress_override e = None
  | None => True
  end.
Proof.
  destruct (find _ _) as [e1|] eqn:Hf; [|exact I].
  apply find_some in Hf. destruct Hf as [Hin Hp].
  apply in_update_where in Hin. destruct Hin as [e [He ->]].
  destruct (of_pair student_id course_id e) eqn:Hpe; [reflexivity|congruence].
Qed.

Section ClearOverride.

Variable float_of_string : string -> option Q.
Variable format_0f : Q -> string.

(** C8, as the code has it.  The owning instructor clears the override (no
    [progress] field, or an empty one) of a pair that has an enrollment.
    When no statement of the recomputation raises, the response carries, as
    [progress], the automatic value computed from the quizzes and
    submissions of the database; every row of the pair has a null override
    and that value in [progress_percentage], hence as display value; the
    other rows are untouched; the value is the automatic value of the
    resulting database; and the notification that carries it is stored.
    When a statement of the recomputation raises, the override is cleared
    all the same and the response is [success: True], but [progress] is [0]
    and [progress_percentage] is not recomputed: the display value of a row
    of the pair is what the column held.  The notification then announces
    0%, and it is not stored when the statement that raised is the
    [commit]. *)
Theorem clear_override_returns_auto (fault : option progress_stmt)
    (cu : current_user) (course_id student_id : Z)
    (progress_field : option string) (d : db) (c : course) :
  passes_instructor_required cu = true ->
  select_own_course d course_id (cu_id cu) = Some c ->
  progress_field = None \/ progress_field = Some EmptyString ->
  (exists e, In e (enrollments d) /\
             e_student_id e = student_id /\ e_course_id e = course_id) ->
  let out := instructor_set_student_progress float_of_string format_0f fault cu
               course_id student_id progress_field d in
  let auto_progress := auto_progress_of d student_id course_id in
  let of_this_pair := fun e =>
    (e_student_id e =? student_id) && (e_course_id e =? course_id) in
  let answer := fun value =>
    Jsonify
      {| j_success := true; j_error := None;
         j_message := Some ("Manual progress cleared. Automatic progress is "
                            +++ format_0f value +++ "%");
         j_progress := Some value; j_is_manual := Some false;
         j_count := None |} 200 in
  let notice := fun value =>
    {| n_user_id := student_id; n_title := "Course Progress Updated";
       n_message := "Your progress in " +++ dq +++ c_title c +++ dq
                    +++ " has been reset to automatic tracking ("
                    +++ format_0f value +++ "%)";
       n_type := "info"; n_related_id := Some course_id |} in
  ((forall s, fault = Some s -> ~ reached d course_id s) ->
   out_response out = answer auto_progress /\
   enrollments (out_db out)
     = map (fun e => if of_this_pair e
                     then {| e_id := e_id e; e_student_id := e_student_id e;
                             e_course_id := e_course_id e;
                             e_status := e_status e;
                             e_enrolled_at := e_enrolled_at e;
                             e_approved_at := e_approved_at e;
                             e_progress_percentage := auto_progress;
                             e_manual_progress_override := None |}
                     else e)
           (enrollments d) /\
   (exists e', In e' (enrollments (out_db out)) /\ of_this_pair e' = true) /\
   (forall e', In e' (enrollments (out_db out)) ->
               of_this_pair e' = true ->
               e_manual_progress_override e' = None /\
               e_progress_percentage e' = auto_progress /\
               display_progress e' = auto_progress) /\
   auto_progress_of (out_db out) student_id course_id = auto_progress /\
   out_sent out = [ notice auto_progress ] /\
   out_stored out = [ notice auto_progress ]) /\
  (forall s, fault = Some s -> reached d course_id s ->
   out_response out = answer 0%Q /\
   enrollments (out_db out)
     = map (fun e => if of_this_pair e
                     then {| e_id := e_id e; e_student_id := e_student_id e;
                             e_course_id := e_course_id e;
                             e_status := e_status e;
                             e_enrolled_at := e_enrolled_at e;
                             e_approved_at := e_approved_at e;
                             e_progress_percentage := e_progress_percentage e;
                             e_manual_progress_override := None |}
                     else e)
           (enrollments d) /\
   (forall e', In e' (enrollments (out_db out)) ->
               of_this_pair e' = true ->
               e_manual_progress_override e' = None /\
               display_progress e' = e_progress_percentage e' /\
               exists e, In e (enrollments d) /\ of_this_pair e = true /\
                         e_progress_percentage e' = e_progress_percentage e) /\
   out_sent out = [ notice 0%Q ] /\
   out_stored out = match s with
                    | Commit => []
                    | _ => [ notice 0%Q ]
                    end).
Proof.
  intros Hpass Hown Hfield [e0 [He0 Hp0]]. cbv zeta.
  apply of_pair_true in Hp0.
  assert (Hout :
    instructor_set_student_progress float_of_string format_0f fault cu
      course_id student_id progress_field d
    = clear_manual_override format_0f fault c course_id student_id d).
  { unfold instructor_set_student_progress.
    rewrite (instructor_required_pass cu _ d Hpass), Hown.
    destruct Hfield as [->| ->]; reflexivity. }
  rewrite Hout. unfold clear_manual_override. cbv zeta. split.
  - intros Hfault.
    destruct (update_student_progress_unreached fault
                (with_enrollments d
                   (update_where (of_pair student_id course_id)
                      (set_manual_override None) (enrollments d)))
                student_id course_id Hfault) as [-> ->].
    rewrite update_student_progress_no_fault.
    cbn [out_db out_response out_sent out_stored enrollments with_enrollments
         send_notification].
    pose proof (find_cleared student_id course_id (enrollments d)) as Hfind.
    assert (Hret :
      match find (of_pair student_id course_id)
              (update_where (of_pair student_id course_id)
                 (set_manual_override None) (enrollments d))
      with
      | Some e => match e_manual_progress_override e with
                  | Some manual => manual
                  | None => auto_progress_of d student_id course_id
                  end
      | None => auto_progress_of d student_id course_id
      end = auto_progress_of d student_id course_id).
    { destruct (find _ _) as [e1|]; [rewrite Hfind|]; reflexivity. }
    change (auto_progress_of
              (with_enrollments d
                 (update_where (of_pair student_id course_id)
                    (set_manual_override None) (enrollments d)))
              student_id course_id)
      with (auto_progress_of d student_id course_id).
    rewrite Hret.
    rewrite update_where_twice by (intros e; reflexivity).
    split; [reflexivity|]. split; [reflexivity|].
    split; [|split; [|split; [|split]]]; try reflexivity.
    + exists (set_progress_percentage (auto_progress_of d student_id course_id)
                (set_manual_override None e0)).
      split; [|exact Hp0].
      apply in_map_iff. exists e0. rewrite Hp0. auto.
    + intros e' Hin Hp. apply in_map_iff in Hin.
      destruct Hin as [e [<- He]].
      destruct (of_pair student_id course_id e) eqn:Hpe.
      * repeat split.
      * unfold of_pair in Hpe. congruence.
  - intros s -> Hs.
    rewrite update_student_progress_raises by exact Hs.
    cbn [out_db out_response out_sent out_stored enrollments with_enrollments].
    split; [reflexivity|]. split; [reflexivity|]. split; [|split].
    + intros e' Hin Hp. apply in_update_where in Hin.
      destruct Hin as [e [He ->]].
      destruct (of_pair student_id course_id e) eqn:Hpe.
      * split; [reflexivity|]. split; [reflexivity|].
        exists e. repeat split; assumption.
      * unfold of_pair in Hpe. congruence.
    + reflexivity.
    + destruct s; reflexivity.
Qed.

End ClearOverride.

(** The instructor clears the override of 90 set on Alice's enrollment: two
    of four quizzes are submitted. *)
Lemma clear_override_returns_auto_witness :
  (exists body,
     out_response (Sample.set_progress None Sample.teacher 10 2 None Sample.db4)
       = Jsonify body 200 /\
     j_progress body = Some (auto_progress_of Sample.db4 2 10)) /\
  (auto_progress_of Sample.db4 2 10 == 50)%Q /\
  map (fun e => (e_manual_progress_override e, e_progress_percentage e))
      (enrollments (out_db
         (Sample.set_progress None Sample.teacher 10 2 None Sample.db4)))
    = [ (None, auto_progress_of Sample.db4 2 10) ].
Proof.
  destruct (clear_override_returns_auto Sample.float_of_string Sample.format_0f
              None Sample.teacher 10 2 None Sample.db4 Sample.cs101
              eq_refl eq_refl (or_introl eq_refl)) as [H _].
  - eexists. split; [left; reflexivity | split; reflexivity].
  - destruct H as (Hresp & Hrows & _); [intros s Hs; discriminate Hs|].
    split; [|split; [reflexivity|]].
    + eexists. split; [exact Hresp | reflexivity].
    + unfold Sample.set_progress. rewrite Hrows. reflexivity.
Defined.

(** C8 fails on the code.  On the schema [init_db] creates, [assignments]
    has no column [is_active] and the count of the quizzes raises.  The
    instructor clears the override of 90 on Alice's enrollment: the
    override is removed and the response is [success: True] with
    [progress] 0, although two of the four quizzes are submitted; the
    automatic value is not recomputed, and the display value afterwards is
    the 90 that [progress_percentage] held. *)
Lemma clear_override_on_init_db_schema_counterexample :
  schema_fault init_db_assignments_columns = Some CountQuizzes /\
  map (fun e => (e_manual_progress_override e, e_progress_percentage e))
      (enrollments Sample.db4)
    = [ (Some (90 # 1)%Q, (90 # 1)%Q) ] /\
  count_quizzes Sample.db4 10 = 4 /\ count_submitted Sample.db4 2 10 = 2 /\
  (exists body,
     out_response
       (Sample.set_progress (schema_fault init_db_assignments_columns)
          Sample.teacher 10 2 None Sample.db4)
       = Jsonify body 200 /\
     j_success body = true /\ j_progress body = Some 0%Q) /\
  map (fun e => (e_manual_progress_override e, display_progress e))
      (enrollments (out_db
         (Sample.set_progress (schema_fault init_db_assignments_columns)
            Sample.teacher 10 2 None Sample.db4)))
    = [ (None, (90 # 1)%Q) ] /\
  ~ (90 # 1 == auto_progress_of Sample.db4 2 10)%Q /\
  ~ (0 == auto_progress_of Sample.db4 2 10)%Q.
Proof.
  split; [reflexivity|]. split; [reflexivity|]. split; [reflexivity|].
  split; [reflexivity|]. split; [|split; [reflexivity|]].
  - eexists. split; [reflexivity|]. split; reflexivity.
  - split; vm_compute; discriminate.
Qed.

(** ** Errors *)

Lemma untouched_reply (d : db) (r : response) : untouched d (reply d r).
Proof. intros _. repeat split. Qed.

Lemma untouched_accepted (d : db) (out : outcome) :
  refused (out_response out) = false -> untouched d out.
Proof. intros H H'. congruence. Qed.

Section Errors.

Variable strip : string -> string.
Variable upper : string -> string.
Variable check_password_hash : string -> string -> bool.
Variable float_of_string : string -> option Q.
Variable format_0f : Q -> string.
Variable str_of_int : Z -> string.

Lemma transition_untouched (d : db) (cu : current_user) (enrollment_id : Z)
    (status : string) (fail : response)
    (succeed : enrollment * course * user -> outcome) :
  (forall r, refused (out_response (succeed r)) = false) ->
  untouched d
    (instructor_required cu
       match select_enrollment d enrollment_id (cu_id cu) status with
       | None => reply d fail
       | Some r => succeed r
       end d).
Proof.
  intros Hs. apply instructor_required_case; [|apply untouched_reply].
  destruct (select_enrollment d enrollment_id (cu_id cu) status) as [r|];
    [apply untouched_accepted, Hs | apply untouched_reply].
Qed.

(** C9, as the code has it.  Every response that turns a request down
    comes with the database the request found and without a notification
    sent; a malformed progress value is answered 400 by both setters, and an
    approval or rejection of an enrollment that is not pending is answered
    with the "not found or already processed" error.  A storage fault at a
    statement that [update_student_progress] reaches is caught inside the
    function: the database stays as it was and the caller receives the value
    [0]; the instructor who clears an override is then answered
    [success: True] with [progress] 0. *)
Theorem errors_reported_except_recompute_fault (now : timestamp)
    (fault : option progress_stmt) (cu : current_user) (d : db) :
  (forall r,
     untouched d (handle strip upper check_password_hash float_of_string
                    format_0f str_of_int now fault cu r d)) /\
  (forall course_id student_id text c,
     passes_instructor_required cu = true ->
     select_own_course d course_id (cu_id cu) = Some c ->
     is_empty text = false ->
     match float_of_string text with
     | None => True
     | Some progress => (progress < 0)%Q \/ (100 < progress)%Q
     end ->
     exists msg,
       instructor_set_student_progress float_of_string format_0f fault cu
           course_id student_id (Some text) d
         = reply d (Jsonify (json_error msg) 400) /\
       instructor_set_progress_bulk float_of_string format_0f str_of_int cu
           course_id (Some text) d
         = reply d (Jsonify (json_error msg) 400)) /\
  (forall enrollment_id,
     passes_instructor_required cu = true ->
     (forall e, In e (enrollments d) -> e_id e = enrollment_id ->
                e_status e <> "pending"%string) ->
     instructor_approve_enrollment now cu enrollment_id d
       = reply d (Redirect "instructor_enrollments"
                    "Enrollment not found or already processed." "error") /\
     instructor_reject_enrollment cu enrollment_id d
       = reply d (Redirect "instructor_enrollments"
                    "Enrollment not found or already processed." "error")) /\
  (forall s student_id course_id,
     reached d course_id s ->
     update_student_progress (Some s) d student_id course_id = (d, 0%Q)) /\
  (forall s student_id course_id c,
     passes_instructor_required cu = true ->
     select_own_course d course_id (cu_id cu) = Some c ->
     reached d course_id s ->
     out_response (instructor_set_student_progress float_of_string format_0f
                     (Some s) cu course_id student_id None d)
       = Jsonify
           {| j_success := true; j_error := None;
              j_message := Some ("Manual progress cleared. Automatic progress is "
                                 +++ format_0f 0%Q +++ "%");
              j_progress := Some 0%Q; j_is_manual := Some false;
              j_count := None |} 200).
Proof.
  split; [|split; [|split; [|split]]].
  - intros r. destruct r as [code key|id|id|id|id|id|cid field|cid sid field];
      cbn [handle].
    + unfold student_enroll, login_required.
      destruct (negb (cu_is_authenticated cu)); [apply untouched_reply|].
      destruct (negb (is_student cu)); [apply untouched_reply|]. cbv zeta.
      destruct (is_empty _ || is_empty _); [apply untouched_reply|].
      destruct (select_course_by_code d _) as [[c u]|]; [|apply untouched_reply].
      destruct (key_rejected _ _ _); [apply untouched_reply|].
      destruct (find _ (enrollments d)); [apply untouched_reply|].
      destruct (c_max_students c <=? count_approved d (c_id c));
        [apply untouched_reply|].
      destruct (insert_enrollment now d (cu_id cu) (c_id c));
        [apply untouched_accepted; reflexivity | apply untouched_reply].
    + apply transition_untouched. intros [[e c] u]. reflexivity.
    + apply transition_untouched. intros [[e c] u]. reflexivity.
    + apply transition_untouched. intros [[e c] u]. reflexivity.
    + apply transition_untouched. intros [[e c] u]. reflexivity.
    + apply transition_untouched. intros [[e c] u]. reflexivity.
    + unfold instructor_set_progress_bulk.
      apply instructor_required_case; [|apply untouched_reply].
      destruct (select_own_course d cid (cu_id cu)) as [c|];
        [|apply untouched_reply].
      destruct field as [text|]; [|apply untouched_reply].
      destruct (is_empty text); [apply untouched_reply|].
      destruct (float_of_string text) as [progress|]; [|apply untouched_reply].
      destruct (out_of_range progress); [apply untouched_reply|].
      cbv zeta. destruct (set_progress_loop _ _ _ _ _ _ _ _) as [l [sent stored]].
      apply untouched_accepted. reflexivity.
    + unfold instructor_set_student_progress.
      apply instructor_required_case; [|apply untouched_reply].
      destruct (select_own_course d cid (cu_id cu)) as [c|];
        [|apply untouched_reply].
      assert (Hclear :
        untouched d (clear_manual_override format_0f fault c cid sid d)).
      { unfold clear_manual_override. cbv zeta.
        destruct (update_student_progress fault _ sid cid).
        apply untouched_accepted. reflexivity. }
      destruct field as [text|]; [|apply Hclear].
      destruct (is_empty text); [apply Hclear|].
      destruct (float_of_string text) as [progress|]; [|apply untouched_reply].
      destruct (out_of_range progress); [apply untouched_reply|].
      unfold store_manual_override. cbv zeta. destruct (find _ (users d));
        apply untouched_accepted; reflexivity.
  - intros course_id student_id text c Hpass Hown Htext Hbad.
    unfold instructor_set_student_progress, instructor_set_progress_bulk.
    rewrite !(instructor_required_pass cu _ d Hpass), Hown, Htext.
    destruct (float_of_string text) as [progress|].
    + assert (Hrange : out_of_range progress = true).
      { unfold out_of_range. apply orb_true_iff.
        destruct Hbad as [H|H]; [left|right]; apply negb_true_iff;
          (destruct (Qle_bool _ _) eqn:E; [|reflexivity]);
          apply Qle_bool_iff in E; exfalso;
          apply (Qlt_not_le _ _ H); exact E. }
      rewrite Hrange. eexists. split; reflexivity.
    + eexists. split; reflexivity.
  - intros enrollment_id Hpass Hnot.
    assert (Hsel : select_enrollment d enrollment_id (cu_id cu) "pending" = None).
    { destruct (select_enrollment d enrollment_id (cu_id cu) "pending")
        as [[[e c] u]|] eqn:E; [|reflexivity].
      apply select_enrollment_some in E. destruct E as (He & Hid & Hst & _).
      destruct (Hnot e He Hid Hst). }
    unfold instructor_approve_enrollment, instructor_reject_enrollment.
    rewrite !(instructor_required_pass cu _ d Hpass), Hsel.
    split; reflexivity.
  - intros s student_id course_id Hs. unfold update_student_progress.
    rewrite update_student_progress_fault by exact Hs. reflexivity.
  - intros s student_id course_id c Hpass Hown Hs.
    unfold instructor_set_student_progress.
    rewrite (instructor_required_pass cu _ d Hpass), Hown.
    unfold clear_manual_override, update_student_progress.
    rewrite update_student_progress_fault; [reflexivity|exact Hs].
Qed.

End Errors.

(** The storage raises at the quiz count while the instructor clears Alice's
    override. *)
Lemma errors_reported_except_recompute_fault_witness :
  update_student_progress (Some CountQuizzes) Sample.db4 2 10 = (Sample.db4, 0%Q) /\
  untouched Sample.db4 (Sample.enroll 105 Sample.bob Sample.db4).
Proof.
  pose proof (errors_reported_except_recompute_fault Sample.strip Sample.upper
    Sample.check_password_hash Sample.float_of_string Sample.format_0f
    Sample.str_of_int 105 None Sample.bob Sample.db4) as (H1 & _ & _ & H2 & _).
  split.
  - apply H2. intros H. discriminate H.
  - exact (H1 (StudentEnroll " cs101 " "secret ")).
Defined.

(** C9 fails on the code.  The storage raises at the quiz count while the
    instructor clears the override of 90 on Alice's enrollment: the [try]
    block is left by the exception, yet the function returns [0] and the
    instructor is answered [success: True] with [progress] 0, although two of
    the four quizzes are submitted and the row still shows 90. *)
Lemma recompute_fault_counterexample :
  update_student_progress_try (Some CountQuizzes) Sample.db4 2 10 = None /\
  snd (update_student_progress (Some CountQuizzes) Sample.db4 2 10) = 0%Q /\
  out_response
    (Sample.set_progress (Some CountQuizzes) Sample.teacher 10 2 None Sample.db4)
    = Jsonify
        {| j_success := true; j_error := None;
           j_message := Some "Manual progress cleared. Automatic progress is 0%"%string;
           j_progress := Some 0%Q; j_is_manual := Some false; j_count := None |} 200 /\
  map e_progress_percentage
    (enrollments (out_db
       (Sample.set_progress (Some CountQuizzes) Sample.teacher 10 2 None Sample.db4)))
    = [ (90 # 1)%Q ] /\
  (auto_progress_of Sample.db4 2 10 == 50)%Q.
Proof. vm_compute. repeat split. Qed.

(** ** Setting the override *)

Section SetOverride.

Variable float_of_string : string -> option Q.
Variable format_0f : Q -> string.


(** Whatever the database, the stored override goes into both columns of
    every row of the pair. *)
Lemma store_manual_override_columns (c : course) (course_id student_id : Z)
    (progress : Q) (d : db) (e' : enrollment) :
  In e' (enrollments (out_db (store_manual_override format_0f c course_id
                                student_id progress d))) ->
  of_pair student_id course_id e' = true ->
  e_manual_progress_override e' = Some progress /\
  e_progress_percentage e' = progress.
Proof.
  unfold store_manual_override. cbv zeta.
  destruct (find _ (users d)); cbn; intros Hin Hp;
    apply in_update_where in Hin; destruct Hin as [e [He ->]];
    (destruct (of_pair student_id course_id e) eqn:Hpe;
       [split; reflexivity | congruence]).
Qed.

End SetOverride.



(** C1 on the code.  Alice has submitted two of the four quizzes and the row
    holds the automatic value; the owning instructor sets the override to 90.
    The [UPDATE] writes 90 into [progress_percentage] as well, which no
    longer is the automatic value of the database; the bulk setter does the
    same. *)
Theorem set_progress_overwrites_percentage :
  (map e_progress_percentage (enrollments Sample.db3)
     = [ auto_progress_of Sample.db3 2 10 ] /\
   (auto_progress_of Sample.db3 2 10 == 50)%Q) /\
  out_response
    (Sample.set_progress None Sample.teacher 10 2 (Some "90"%string) Sample.db3)
    = Jsonify
        {| j_success := true; j_error := None;
           j_message := Some "Progress set to 90% for Alice"%string;
           j_progress := Some (90 # 1)%Q; j_is_manual := Some true;
           j_count := None |} 200 /\
  map (fun e => (e_manual_progress_override e, e_progress_percentage e))
      (enrollments Sample.db4)
    = [ (Some (90 # 1)%Q, (90 # 1)%Q) ] /\
  (auto_progress_of Sample.db4 2 10 == 50)%Q /\
  ~ (90 # 1 == auto_progress_of Sample.db4 2 10)%Q /\
  map (fun e => (e_manual_progress_override e, e_progress_percentage e))
      (enrollments (out_db
         (instructor_set_progress_bulk Sample.float_of_string Sample.format_0f
            Sample.str_of_int Sample.teacher 10 (Some "90"%string) Sample.db3)))
    = [ (Some (90 # 1)%Q, (90 # 1)%Q) ].
Proof.
  vm_compute. repeat split. discriminate.
Qed.

(** ** The contract on the sample database *)

(** Bob requests enrollment with the right key while Alice's request is
    pending and nobody is approved. *)
Lemma student_enroll_contract_witness :
  exists e_new,
    enrollments (out_db (Sample.enroll 102 Sample.bob Sample.db1))
      = enrollments Sample.db1 ++ [e_new] /\
    e_student_id e_new = 3 /\ e_status e_new = "pending"%string.
Proof.
  destruct (student_enroll_contract Sample.strip Sample.upper
              Sample.check_password_hash 102 Sample.bob " cs101 " "secret " Sample.db1
              eq_refl eq_refl eq_refl eq_refl) as [_ H].
  destruct (H Sample.cs101 (mk_user 1 "instructor" "Tess") eq_refl) as [_ H1].
  destruct (H1 eq_refl) as [_ H2].
  assert (Hnew : forall e, In e (enrollments Sample.db1) ->
                   ~ (e_student_id e = cu_id Sample.bob
                      /\ e_course_id e = c_id Sample.cs101)).
  { intros e [<-|[]] [E _]. discriminate E. }
  destruct (H2 Hnew) as [_ H3].
  destruct H3 as [e_new (E1 & E2 & _ & E3 & _)]; [reflexivity|].
  exists e_new. repeat split; assumption.
Defined.

(** * Further properties *)

(** ** The transition table *)

Lemma carries_refl e : carries e e.
Proof. repeat split. Qed.

Lemma carried_refl l : carried l l.
Proof. intros e H. exists e. split; [exact H | apply carries_refl]. Qed.

Lemma carried_trans l1 l2 l3 : carried l1 l2 -> carried l2 l3 -> carried l1 l3.
Proof.
  intros H12 H23 e1 H1.
  destruct (H12 e1 H1) as [e2 [H2 (A & B & C & D)]].
  destruct (H23 e2 H2) as [e3 [H3 (A' & B' & C' & D')]].
  exists e3. split; [exact H3|]. repeat split; congruence.
Qed.

Lemma carried_update l p f :
  (forall e, carries e (f e)) -> carried l (update_where p f l).
Proof.
  intros Hf e H. exists (if p e then f e else e). split.
  - apply in_update_where. exists e. auto.
  - destruct (p e); [apply Hf | apply carries_refl].
Qed.

Lemma update_student_progress_carried (fault : option progress_stmt) (d : db)
    (student_id course_id : Z) :
  carried (enrollments d)
          (enrollments (fst (update_student_progress fault d student_id course_id))).
Proof.
  unfold update_student_progress, update_student_progress_try.
  destruct fault as [[]|]; cbn;
    destruct (count_quizzes d course_id =? 0); cbn;
    try apply carried_refl;
    apply carried_update; intros e; repeat split.
Qed.

Section Table.

Variable strip : string -> string.
Variable upper : string -> string.
Variable check_password_hash : string -> string -> bool.
Variable float_of_string : string -> option Q.
Variable format_0f : Q -> string.
Variable str_of_int : Z -> string.

Lemma set_progress_loop_carried (c : course) (course_id : Z) (progress : Q)
    (students : list (Z * string)) (l : list enrollment)
    (sent stored : list notification) :
  carried l (fst (set_progress_loop format_0f c course_id progress students l sent stored)).
Proof.
  revert l sent stored. induction students as [|s rest IH]; intros l sent stored; simpl.
  - apply carried_refl.
  - eapply carried_trans; [|apply IH].
    apply carried_update. intros e. repeat split.
Qed.

Lemma set_progress_bulk_carried (cu : current_user) (course_id : Z)
    (progress_field : option string) (d : db) :
  carried (enrollments d)
          (enrollments (out_db (instructor_set_progress_bulk float_of_string
             format_0f str_of_int cu course_id progress_field d))).
Proof.
  unfold instructor_set_progress_bulk.
  apply instructor_required_case; [|intros r; apply carried_refl].
  destruct (select_own_course d course_id (cu_id cu)) as [c|];
    [|apply carried_refl].
  destruct progress_field as [text|]; [|apply carried_refl].
  destruct (is_empty text); [apply carried_refl|].
  destruct (float_of_string text) as [progress|]; [|apply carried_refl].
  destruct (out_of_range progress); [apply carried_refl|].
  cbv zeta.
  pose proof (set_progress_loop_carried c course_id progress
                (select_approved_students d course_id) (enrollments d) [] []) as H.
  destruct (set_progress_loop format_0f c course_id progress
              (select_approved_students d course_id) (enrollments d) [] [])
    as [l [sent stored]].
  exact H.
Qed.

Lemma set_student_progress_carried (fault : option progress_stmt)
    (cu : current_user) (course_id student_id : Z)
    (progress_field : option string) (d : db) :
  carried (enrollments d)
          (enrollments (out_db (instructor_set_student_progress float_of_string
             format_0f fault cu course_id student_id progress_field d))).
Proof.
  unfold instructor_set_student_progress.
  apply instructor_required_case; [|intros r; apply carried_refl].
  destruct (select_own_course d course_id (cu_id cu)) as [c|];
    [|apply carried_refl].
  assert (Hclear : carried (enrollments d) (enrollments (out_db
            (clear_manual_override format_0f fault c course_id student_id d)))).
  { unfold clear_manual_override. cbv zeta.
    pose proof (update_student_progress_carried fault
      (with_enrollments d
         (update_where (of_pair student_id course_id)
            (set_manual_override None) (enrollments d)))
      student_id course_id) as H.
    destruct (update_student_progress fault _ student_id course_id) as [d2 a].
    cbn in *. eapply carried_trans; [|exact H].
    apply carried_update. intros e. repeat split. }
  destruct progress_field as [text|]; [|exact Hclear].
  destruct (is_empty text); [exact Hclear|].
  destruct (float_of_string text) as [progress|]; [|apply carried_refl].
  destruct (out_of_range progress); [apply carried_refl|].
  unfold store_manual_override. cbv zeta.
  destruct (find _ (users d)); cbn;
    apply carried_update; intros e; repeat split.
Qed.

(** What becomes of a row under a transition: it stays, or it is the selected
    row and is changed by [f]. *)
Lemma transition_fate (d : db) (cu : current_user) (enrollment_id : Z)
    (status : string) (f : enrollment -> enrollment)
    (fail : outcome) (succeed : enrollment * course * user -> outcome)
    (e : enrollment) (P : outcome -> Prop) :
  out_db fail = d ->
  (forall r, enrollments (out_db (succeed r))
             = update_where (has_id enrollment_id) f (enrollments d)) ->
  NoDup (map e_id (enrollments d)) ->
  In e (enrollments d) ->
  (forall out, In e (enrollments (out_db out)) -> P out) ->
  (forall out, e_id e = enrollment_id -> e_status e = status ->
               In (f e) (enrollments (out_db out)) -> P out) ->
  P (instructor_required cu
       match select_enrollment d enrollment_id (cu_id cu) status with
       | None => fail
       | Some r => succeed r
       end d).
Proof.
  intros Hfail Hsucc Hnd He Hstay Hstep.
  apply instructor_required_case; [|intros r; apply Hstay; exact He].
  destruct (select_enrollment d enrollment_id (cu_id cu) status)
    as [[[e0 c] u]|] eqn:Hsel; [|apply Hstay; rewrite Hfail; exact He].
  destruct (has_id enrollment_id e) eqn:Hid.
  - unfold has_id in Hid. apply Z.eqb_eq in Hid.
    apply select_enrollment_some in Hsel.
    destruct Hsel as (He0 & Hid0 & Hst0 & _).
    assert (e = e0) by (apply (nodup_id_unique (enrollments d)); congruence).
    subst e0. apply Hstep; auto. rewrite Hsucc.
    apply in_update_where. exists e.
    unfold has_id. rewrite Hid, Z.eqb_refl. auto.
  - apply Hstay. rewrite Hsucc.
    apply in_update_where. exists e. rewrite Hid. auto.
Qed.

(** X1. The fate of a row under any request of the core, on a table with
    unique ids: the row is still there with its id, student and course, and
    its status is the old one or has made the step of the transition table
    that the request stands for (pending to approved or rejected, approved
    to blocked, blocked to approved); or the request is a removal of this
    approved row.  In particular a rejected row is never deleted and stays
    rejected.  Its progress columns are another matter: the [UPDATE] of the
    single-student setter has no condition on the status. *)
Theorem rows_follow_transition_table (now : timestamp)
    (fault : option progress_stmt) (cu : current_user) (r : request) (d : db) :
  NoDup (map e_id (enrollments d)) ->
  forall e, In e (enrollments d) ->
    ((exists e',
        In e' (enrollments (out_db (handle strip upper check_password_hash
                 float_of_string format_0f str_of_int now fault cu r d))) /\
        e_id e' = e_id e /\ e_student_id e' = e_student_id e /\
        e_course_id e' = e_course_id e /\
        follows_table r (e_status e) (e_status e')) \/
     (r = RemoveStudent (e_id e) /\ e_status e = "approved"%string)) /\
    (e_status e = "rejected"%string ->
     exists e',
       In e' (enrollments (out_db (handle strip upper check_password_hash
                float_of_string format_0f str_of_int now fault cu r d))) /\
       e_id e' = e_id e /\ e_student_id e' = e_student_id e /\
       e_course_id e' = e_course_id e /\ e_status e' = "rejected"%string).
Proof.
  intros Hnd e He.
  assert (Hfate :
    (exists e',
        In e' (enrollments (out_db (handle strip upper check_password_hash
                 float_of_string format_0f str_of_int now fault cu r d))) /\
        e_id e' = e_id e /\ e_student_id e' = e_student_id e /\
        e_course_id e' = e_course_id e /\
        follows_table r (e_status e) (e_status e')) \/
     (r = RemoveStudent (e_id e) /\ e_status e = "approved"%string)).
  {
    assert (Hcar : forall l', carried (enrollments d) l' ->
              exists e', In e' l' /\ e_id e' = e_id e /\
                e_student_id e' = e_student_id e /\ e_course_id e' = e_course_id e /\
                follows_table r (e_status e) (e_status e')).
    { intros l' H. destruct (H e He) as [e' [Hin (A & B & C & D)]].
      exists e'. repeat split; auto. left. exact D. }
    assert (Hsame : forall l', In e l' ->
              exists e', In e' l' /\ e_id e' = e_id e /\
                e_student_id e' = e_student_id e /\ e_course_id e' = e_course_id e /\
                follows_table r (e_status e) (e_status e')).
    { intros l' H. exists e. repeat split; auto. left. reflexivity. }
    destruct r as [code key|id|id|id|id|id|cid field|cid sid field]; cbn [handle].
    - left. apply Hsame.
      unfold student_enroll, login_required.
      destruct (negb (cu_is_authenticated cu)); cbn; auto.
      destruct (negb (is_student cu)); cbn; auto.
      destruct (is_empty _ || is_empty _); cbn; auto.
      destruct (select_course_by_code d _) as [[c u]|]; cbn; auto.
      destruct (key_rejected _ _ _); cbn; auto.
      destruct (find _ (enrollments d)); cbn; auto.
      destruct (c_max_students c <=? count_approved d (c_id c)); cbn; auto.
      unfold insert_enrollment. destruct (existsb _ _); cbn; auto.
      apply in_or_app. left. exact He.
    - left. unfold instructor_approve_enrollment.
      apply (transition_fate d cu id "pending" (set_approved now) _ _ e);
        [reflexivity | intros [[? ?] ?]; reflexivity | exact Hnd | exact He
        | intros out H; apply Hsame; exact H
        | intros out Hid Hst H].
      exists (set_approved now e). split; [exact H|].
      repeat split. right. split; [exact Hst | reflexivity].
    - left. unfold instructor_reject_enrollment.
      apply (transition_fate d cu id "pending" (set_status "rejected") _ _ e);
        [reflexivity | intros [[? ?] ?]; reflexivity | exact Hnd | exact He
        | intros out H; apply Hsame; exact H
        | intros out Hid Hst H].
      exists (set_status "rejected" e). split; [exact H|].
      repeat split. right. split; [exact Hst | reflexivity].
    - left. unfold instructor_block_student.
      apply (transition_fate d cu id "approved" (set_status "blocked") _ _ e);
        [reflexivity | intros [[? ?] ?]; reflexivity | exact Hnd | exact He
        | intros out H; apply Hsame; exact H
        | intros out Hid Hst H].
      exists (set_status "blocked" e). split; [exact H|].
      repeat split. right. split; [exact Hst | reflexivity].
    - unfold instructor_remove_student.
      apply instructor_required_case; [|intros r; left; apply Hsame; exact He].
      destruct (select_enrollment d id (cu_id cu) "approved")
        as [[[e0 c] u]|] eqn:Hsel; [|left; apply Hsame; exact He].
      cbn. destruct (has_id id e) eqn:Hid.
      + right. unfold has_id in Hid. apply Z.eqb_eq in Hid.
        apply select_enrollment_some in Hsel.
        destruct Hsel as (He0 & Hid0 & Hst0 & _).
        assert (e = e0) by (apply (nodup_id_unique (enrollments d)); congruence).
        subst e0. split; [congruence | exact Hst0].
      + left. apply Hsame. unfold delete_where. apply filter_In.
        rewrite Hid. auto.
    - left. unfold instructor_unblock_student.
      apply (transition_fate d cu id "blocked" (set_status "approved") _ _ e);
        [reflexivity | intros [[? ?] ?]; reflexivity | exact Hnd | exact He
        | intros out H; apply Hsame; exact H
        | intros out Hid Hst H].
      exists (set_status "approved" e). split; [exact H|].
      repeat split. right. split; [exact Hst | reflexivity].
    - left. apply Hcar. apply set_progress_bulk_carried.
    - left. apply Hcar. apply set_student_progress_carried.
  }
  split; [exact Hfate|]. intros Hrej.
  destruct Hfate as [[e' (Hin & A & B & C & Hf)]|[_ Hst]];
    [|rewrite Hrej in Hst; discriminate Hst].
  exists e'. repeat split; auto.
  destruct Hf as [Hf|Hf]; [congruence|].
  rewrite Hrej in Hf.
  destruct r; first [destruct Hf as [Hf _]; discriminate Hf | destruct Hf].
Qed.

End Table.

Lemma rows_follow_transition_table_witness :
  let bob_row :=
    {| e_id := 2; e_student_id := 3; e_course_id := 10; e_status := "pending";
       e_enrolled_at := 102; e_approved_at := None; e_progress_percentage := 0%Q;
       e_manual_progress_override := None |} in
  (exists e',
     In e' (enrollments (out_db
              (instructor_approve_enrollment 104 Sample.teacher 2 Sample.db2b))) /\
     e_id e' = 2 /\ e_student_id e' = 3 /\ e_course_id e' = 10 /\
     follows_table (ApproveEnrollment 2) "pending" (e_status e')) \/
  (ApproveEnrollment 2 = RemoveStudent 2 /\ "pending"%string = "approved"%string).
Proof.
  cbv zeta.
  assert (Hnd : NoDup (map e_id (enrollments Sample.db2b))).
  { cbn. repeat constructor; cbn; intuition discriminate. }
  refine (proj1 (rows_follow_transition_table Sample.strip Sample.upper
           Sample.check_password_hash Sample.float_of_string Sample.format_0f
           Sample.str_of_int 104 None Sample.teacher (ApproveEnrollment 2)
           Sample.db2b Hnd
           {| e_id := 2; e_student_id := 3; e_course_id := 10;
              e_status := "pending"; e_enrolled_at := 102; e_approved_at := None;
              e_progress_percentage := 0%Q; e_manual_progress_override := None |}
           _)).
  cbn. right. left. reflexivity.
Defined.

(** The status of a rejected row stays, its progress columns do not: Bob's
    request is rejected, and the instructor then sets Bob's progress to 90. *)
Example setter_rewrites_rejected_row :
  let rejected :=
    out_db (instructor_reject_enrollment Sample.teacher 2 Sample.db1b) in
  map (fun e => (e_student_id e, e_status e, e_manual_progress_override e,
                 e_progress_percentage e))
      (enrollments rejected)
    = [ (2, "pending"%string, None, 0%Q); (3, "rejected"%string, None, 0%Q) ] /\
  map (fun e => (e_student_id e, e_status e, e_manual_progress_override e,
                 e_progress_percentage e))
      (enrollments (out_db
         (Sample.set_progress None Sample.teacher 10 3 (Some "90"%string)
            rejected)))
    = [ (2, "pending"%string, None, 0%Q);
        (3, "rejected"%string, Some (90 # 1)%Q, (90 # 1)%Q) ].
Proof. vm_compute. split; reflexivity. Qed.

(** ** Keys of the enrollment table *)

Lemma update_where_keys {K : Type} (key : enrollment -> K)
    (p : enrollment -> bool) (f : enrollment -> enrollment) (l : list enrollment) :
  (forall e, key (f e) = key e) ->
  map key (update_where p f l) = map key l.
Proof.
  intros Hf. unfold update_where. rewrite map_map. apply map_ext.
  intros e. destruct (p e); [apply Hf|reflexivity].
Qed.

Lemma delete_where_keys {K : Type} (key : enrollment -> K)
    (p : enrollment -> bool) (l : list enrollment) :
  NoDup (map key l) -> NoDup (map key (delete_where p l)).
Proof.
  unfold delete_where. induction l as [|x l IH]; simpl; intros H; [constructor|].
  inversion H as [|? ? Hnot Hnd]; subst.
  destruct (negb (p x)); simpl; [|apply IH; exact Hnd].
  constructor; [|apply IH; exact Hnd].
  intros Hin. apply Hnot. apply in_map_iff in Hin.
  destruct Hin as [e [He Hin]]. apply filter_In in Hin.
  apply in_map_iff. exists e. tauto.
Qed.

Lemma nodup_snoc_key {K : Type} (l : list K) (x : K) :
  NoDup l -> ~ In x l -> NoDup (l ++ [x]).
Proof.
  induction l as [|y l IH]; simpl; intros Hnd Hx.
  - constructor; [intros []|constructor].
  - inversion Hnd as [|? ? Hnot Hnd']; subst. constructor.
    + intros Hin. apply in_app_or in Hin. destruct Hin as [Hin|[->|[]]]; tauto.
    + apply IH; tauto.
Qed.

Section Keys.

Variable strip : string -> string.
Variable upper : string -> string.
Variable check_password_hash : string -> string -> bool.
Variable float_of_string : string -> option Q.
Variable format_0f : Q -> string.
Variable str_of_int : Z -> string.

Lemma set_progress_loop_keys {K : Type} (key : enrollment -> K)
    (c : course) (course_id : Z) (progress : Q)
    (students : list (Z * string)) (l : list enrollment)
    (sent stored : list notification) :
  (forall m p e, key (set_override_and_percentage m p e) = key e) ->
  map key (fst (set_progress_loop format_0f c course_id progress students l sent stored))
  = map key l.
Proof.
  intros Hkey. revert l sent stored.
  induction students as [|s rest IH]; intros l sent stored; simpl;
    [reflexivity|].
  rewrite IH. apply update_where_keys. intros e. apply Hkey.
Qed.

Lemma update_student_progress_keys {K : Type} (key : enrollment -> K)
    (fault : option progress_stmt) (d : db) (student_id course_id : Z) :
  (forall p e, key (set_progress_percentage p e) = key e) ->
  map key (enrollments (fst (update_student_progress fault d student_id course_id)))
  = map key (enrollments d).
Proof.
  intros Hkey.
  unfold update_student_progress, update_student_progress_try.
  destruct fault as [[]|]; cbn;
    destruct (count_quizzes d course_id =? 0); cbn;
    try reflexivity;
    apply update_where_keys; intros e; apply Hkey.
Qed.

(** X2. No request of the core creates a second enrollment row for a
    (student, course) pair: if the pairs of the table are pairwise distinct
    before a request, they are so after it. *)
Theorem unique_pairs_preserved (now : timestamp) (fault : option progress_stmt)
    (cu : current_user) (r : request) (d : db) :
  NoDup (enrollment_pairs d) ->
  NoDup (enrollment_pairs (out_db
           (handle strip upper check_password_hash float_of_string format_0f
              str_of_int now fault cu r d))).
Proof.
  unfold enrollment_pairs. intros Hnd.
  set (key := fun e => (e_student_id e, e_course_id e)) in *.
  assert (Hupd : forall p f, (forall e, key (f e) = key e) ->
            NoDup (map key (update_where p f (enrollments d)))).
  { intros p f Hf. rewrite update_where_keys by exact Hf. exact Hnd. }
  destruct r as [code key0|id|id|id|id|id|cid field|cid sid field]; cbn [handle].
  - unfold student_enroll, login_required.
    destruct (negb (cu_is_authenticated cu)); cbn; auto.
    destruct (negb (is_student cu)); cbn; auto.
    destruct (is_empty _ || is_empty _); cbn; auto.
    destruct (select_course_by_code d _) as [[c u]|]; cbn; auto.
    destruct (key_rejected _ _ _); cbn; auto.
    destruct (find _ (enrollments d)) eqn:Hfind; cbn; auto.
    destruct (c_max_students c <=? count_approved d (c_id c)); cbn; auto.
    unfold insert_enrollment. destruct (existsb _ _); cbn; auto.
    rewrite map_app. cbn. apply nodup_snoc_key; [exact Hnd|].
    intros Hin. apply in_map_iff in Hin. destruct Hin as [e [Heq He]].
    rewrite find_none_forall in Hfind. specialize (Hfind e He).
    unfold key in Heq. inversion Heq as [[Hs Hc]].
    unfold of_pair in Hfind. rewrite Hs, Hc, !Z.eqb_refl in Hfind.
    discriminate.
  - unfold instructor_approve_enrollment.
    apply instructor_required_case; [|intros; exact Hnd].
    destruct (select_enrollment _ _ _ _) as [[[e c] u]|]; cbn; auto.
  - unfold instructor_reject_enrollment.
    apply instructor_required_case; [|intros; exact Hnd].
    destruct (select_enrollment _ _ _ _) as [[[e c] u]|]; cbn; auto.
  - unfold instructor_block_student.
    apply instructor_required_case; [|intros; exact Hnd].
    destruct (select_enrollment _ _ _ _) as [[[e c] u]|]; cbn; auto.
  - unfold instructor_remove_student.
    apply instructor_required_case; [|intros; exact Hnd].
    destruct (select_enrollment _ _ _ _) as [[[e c] u]|]; cbn; auto.
    apply delete_where_keys. exact Hnd.
  - unfold instructor_unblock_student.
    apply instructor_required_case; [|intros; exact Hnd].
    destruct (select_enrollment _ _ _ _) as [[[e c] u]|]; cbn; auto.
  - unfold instructor_set_progress_bulk.
    apply instructor_required_case; [|intros; exact Hnd].
    destruct (select_own_course d cid (cu_id cu)) as [c|]; cbn; auto.
    destruct field as [text|]; cbn; auto.
    destruct (is_empty text); cbn; auto.
    destruct (float_of_string text) as [progress|]; cbn; auto.
    destruct (out_of_range progress); cbn; auto.
    pose proof (set_progress_loop_keys key c cid progress
                  (select_approved_students d cid) (enrollments d) [] []
                  (fun _ _ _ => eq_refl)) as H.
    destruct (set_progress_loop _ _ _ _ _ _ _ _) as [l [sent stored]].
    cbn in *. rewrite H. exact Hnd.
  - unfold instructor_set_student_progress.
    apply instructor_required_case; [|intros; exact Hnd].
    destruct (select_own_course d cid (cu_id cu)) as [c|]; cbn; auto.
    assert (Hclear : NoDup (map key (enrollments (out_db
              (clear_manual_override format_0f fault c cid sid d))))).
    { unfold clear_manual_override. cbv zeta.
      pose proof (update_student_progress_keys key fault
        (with_enrollments d
           (update_where (of_pair sid cid) (set_manual_override None)
              (enrollments d))) sid cid (fun _ _ => eq_refl)) as H.
      destruct (update_student_progress fault _ sid cid) as [d2 a].
      cbn in *. rewrite H. apply Hupd. intros e. reflexivity. }
    destruct field as [text|]; [|exact Hclear].
    destruct (is_empty text); [exact Hclear|].
    destruct (float_of_string text) as [progress|]; cbn; auto.
    destruct (out_of_range progress); cbn; auto.
    unfold store_manual_override. cbv zeta.
    destruct (find _ (users d)); cbn; apply Hupd; intros e; reflexivity.
Qed.

(** X3. Enrollment ids are never reused.  If no row has an id beyond the
    sequence, the same holds after any request of the core, the sequence has
    not gone down, and every row that was not there before has an id beyond
    the old sequence, hence beyond every id handed out so far. *)
Theorem enrollment_ids_never_reused (now : timestamp)
    (fault : option progress_stmt) (cu : current_user) (r : request) (d : db) :
  ids_below_seq d ->
  let d' := out_db (handle strip upper check_password_hash float_of_string
                      format_0f str_of_int now fault cu r d) in
  ids_below_seq d' /\
  enrollments_seq d <= enrollments_seq d' /\
  forall e', In e' (enrollments d') ->
    (exists e, In e (enrollments d) /\ e_id e = e_id e') \/
    enrollments_seq d < e_id e'.
Proof.
  intros Hinv. cbv zeta.
  assert (Hkeep : forall d', enrollments_seq d' = enrollments_seq d ->
            map e_id (enrollments d') = map e_id (enrollments d) ->
            ids_below_seq d' /\ enrollments_seq d <= enrollments_seq d' /\
            forall e', In e' (enrollments d') ->
              (exists e, In e (enrollments d) /\ e_id e = e_id e') \/
              enrollments_seq d < e_id e').
  { intros d' Hseq Hids.
    assert (Hfrom : forall e', In e' (enrollments d') ->
              exists e, In e (enrollments d) /\ e_id e = e_id e').
    { intros e' He'. apply (in_map e_id) in He'. rewrite Hids in He'.
      apply in_map_iff in He'. destruct He' as [e [Heq He]]. exists e. auto. }
    split; [|split].
    - intros e' He'. destruct (Hfrom e' He') as [e [He Heq]].
      rewrite Hseq, <- Heq. apply Hinv. exact He.
    - rewrite Hseq. lia.
    - intros e' He'. left. apply Hfrom. exact He'. }
  assert (Hsame : ids_below_seq d /\ enrollments_seq d <= enrollments_seq d /\
            forall e', In e' (enrollments d) ->
              (exists e, In e (enrollments d) /\ e_id e = e_id e') \/
              enrollments_seq d < e_id e')
    by (apply Hkeep; reflexivity).
  destruct r as [code key0|id|id|id|id|id|cid field|cid sid field]; cbn [handle].
  - unfold student_enroll, login_required.
    destruct (negb (cu_is_authenticated cu)); cbn; auto.
    destruct (negb (is_student cu)); cbn; auto.
    destruct (is_empty _ || is_empty _); cbn; auto.
    destruct (select_course_by_code d _) as [[c u]|]; cbn; auto.
    destruct (key_rejected _ _ _); cbn; auto.
    destruct (find _ (enrollments d)); cbn; auto.
    destruct (c_max_students c <=? count_approved d (c_id c)); cbn; auto.
    unfold insert_enrollment. destruct (existsb _ _); cbn; auto.
    split; [|split].
    + intros e' He'. cbn in *. apply in_app_or in He'.
      destruct He' as [He'|[<-|[]]]; cbn; [|lia].
      specialize (Hinv e' He'). lia.
    + lia.
    + intros e' He'. apply in_app_or in He'.
      destruct He' as [He'|[<-|[]]]; [left; exists e'; auto|right; cbn; lia].
  - unfold instructor_approve_enrollment.
    apply instructor_required_case; [|intros; exact Hsame].
    destruct (select_enrollment _ _ _ _) as [[[e c] u]|]; [|exact Hsame].
    apply Hkeep; [reflexivity|]. cbn. apply update_where_keys. reflexivity.
  - unfold instructor_reject_enrollment.
    apply instructor_required_case; [|intros; exact Hsame].
    destruct (select_enrollment _ _ _ _) as [[[e c] u]|]; [|exact Hsame].
    apply Hkeep; [reflexivity|]. cbn. apply update_where_keys. reflexivity.
  - unfold instructor_block_student.
    apply instructor_required_case; [|intros; exact Hsame].
    destruct (select_enrollment _ _ _ _) as [[[e c] u]|]; [|exact Hsame].
    apply Hkeep; [reflexivity|]. cbn. apply update_where_keys. reflexivity.
  - unfold instructor_remove_student.
    apply instructor_required_case; [|intros; exact Hsame].
    destruct (select_enrollment _ _ _ _) as [[[e c] u]|]; [|exact Hsame].
    cbn. split; [|split].
    + intros e' He'. cbn in He'. apply filter_In in He'. apply Hinv. tauto.
    + cbn. lia.
    + intros e' He'. apply filter_In in He'. left. exists e'. tauto.
  - unfold instructor_unblock_student.
    apply instructor_required_case; [|intros; exact Hsame].
    destruct (select_enrollment _ _ _ _) as [[[e c] u]|]; [|exact Hsame].
    apply Hkeep; [reflexivity|]. cbn. apply update_where_keys. reflexivity.
  - unfold instructor_set_progress_bulk.
    apply instructor_required_case; [|intros; exact Hsame].
    destruct (select_own_course d cid (cu_id cu)) as [c|]; [|exact Hsame].
    destruct field as [text|]; [|exact Hsame].
    destruct (is_empty text); [exact Hsame|].
    destruct (float_of_string text) as [progress|]; [|exact Hsame].
    destruct (out_of_range progress); [exact Hsame|].
    cbv zeta.
    pose proof (set_progress_loop_keys e_id c cid progress
                  (select_approved_students d cid) (enrollments d) [] []
                  (fun _ _ _ => eq_refl)) as H.
    destruct (set_progress_loop _ _ _ _ _ _ _ _) as [l [sent stored]].
    apply Hkeep; [reflexivity|exact H].
  - unfold instructor_set_student_progress.
    apply instructor_required_case; [|intros; exact Hsame].
    destruct (select_own_course d cid (cu_id cu)) as [c|]; [|exact Hsame].
    assert (Hclear :
      let d' := out_db (clear_manual_override format_0f fault c cid sid d) in
      ids_below_seq d' /\ enrollments_seq d <= enrollments_seq d' /\
      forall e', In e' (enrollments d') ->
        (exists e, In e (enrollments d) /\ e_id e = e_id e') \/
        enrollments_seq d < e_id e').
    { cbv zeta. unfold clear_manual_override. cbv zeta.
      set (d1 := with_enrollments d
                   (update_where (of_pair sid cid) (set_manual_override None)
                      (enrollments d))).
      pose proof (update_student_progress_keys e_id fault d1 sid cid
                    (fun _ _ => eq_refl)) as H.
      assert (Hseq : enrollments_seq (fst (update_student_progress fault d1 sid cid))
                     = enrollments_seq d).
      { unfold update_student_progress, update_student_progress_try.
        destruct fault as [[]|]; cbn;
          destruct (count_quizzes d1 cid =? 0); reflexivity. }
      destruct (update_student_progress fault d1 sid cid) as [d2 a].
      cbn in *. apply Hkeep; [exact Hseq|].
      rewrite H. apply update_where_keys. reflexivity. }
    destruct field as [text|]; [|exact Hclear].
    destruct (is_empty text); [exact Hclear|].
    destruct (float_of_string text) as [progress|]; [|exact Hsame].
    destruct (out_of_range progress); [exact Hsame|].
    unfold store_manual_override. cbv zeta.
    destruct (find _ (users d)); cbn; (apply Hkeep; [reflexivity|]);
      cbn; apply update_where_keys; reflexivity.
Qed.

End Keys.

Lemma unique_pairs_preserved_witness :
  NoDup (enrollment_pairs
           (out_db (Sample.enroll 105 Sample.bob Sample.db2b))).
Proof.
  apply (unique_pairs_preserved Sample.strip Sample.upper
           Sample.check_password_hash Sample.float_of_string Sample.format_0f
           Sample.str_of_int 105 None Sample.bob
           (StudentEnroll " cs101 " "secret ") Sample.db2b).
  cbn. repeat constructor; cbn; intuition discriminate.
Defined.

Lemma enrollment_ids_never_reused_witness :
  let d := out_db (instructor_remove_student Sample.teacher 1 Sample.db2) in
  let d' := out_db (Sample.enroll 110 Sample.alice d) in
  ids_below_seq d' /\
  enrollments_seq d <= enrollments_seq d' /\
  forall e', In e' (enrollments d') ->
    (exists e, In e (enrollments d) /\ e_id e = e_id e') \/
    enrollments_seq d < e_id e'.
Proof.
  cbv zeta.
  assert (Hinv : ids_below_seq
            (out_db (instructor_remove_student Sample.teacher 1 Sample.db2))).
  { intros e He. cbn in He. destruct He. }
  apply (enrollment_ids_never_reused Sample.strip Sample.upper
           Sample.check_password_hash Sample.float_of_string Sample.format_0f
           Sample.str_of_int 110 None Sample.alice
           (StudentEnroll " cs101 " "secret ")
           (out_db (instructor_remove_student Sample.teacher 1 Sample.db2)) Hinv).
Defined.

(** ** Automatic progress: range and idempotence *)

(** X4. The automatic progress is a percentage: whatever the quizzes and
    submissions in the database, it lies between 0 and 100, because the
    submitted quizzes counted are distinct active quizzes of the course. *)
Theorem auto_progress_is_percentage (d : db) (student_id course_id : Z) :
  (0 <= auto_progress_of d student_id course_id)%Q /\
  (auto_progress_of d student_id course_id <= 100)%Q /\
  (0 <= snd (update_student_progress None
               (with_enrollments d
                  (update_where (of_pair student_id course_id)
                     (set_manual_override None) (enrollments d)))
               student_id course_id))%Q /\
  forall e',
    In e' (enrollments (fst (update_student_progress None d student_id course_id))) ->
    of_pair student_id course_id e' = true ->
    (0 <= e_progress_percentage e' <= 100)%Q.
Proof.
  pose proof (auto_progress_of_bounds d student_id course_id) as Hrange.
  destruct Hrange as [Hlo Hhi].
  split; [exact Hlo|]. split; [exact Hhi|]. split.
  - rewrite update_student_progress_no_fault. cbn [snd].
    pose proof (find_cleared student_id course_id (enrollments d)) as Hf.
    cbn [enrollments with_enrollments].
    destruct (find _ _) as [e1|]; [rewrite Hf|]; exact Hlo.
  - rewrite update_student_progress_no_fault. cbn [fst].
    intros e' Hin Hp. cbn in Hin. apply in_update_where in Hin.
    destruct Hin as [e [He ->]].
    destruct (of_pair student_id course_id e) eqn:Hpe; [|congruence].
    cbn. split; assumption.
Qed.

Lemma find_update_where (p : enrollment -> bool) (f : enrollment -> enrollment)
    (l : list enrollment) :
  (forall e, p (f e) = p e) ->
  find p (update_where p f l) = option_map f (find p l).
Proof.
  intros Hp. induction l as [|x l IH]; simpl; [reflexivity|].
  destruct (p x) eqn:Hx.
  - rewrite Hp, Hx. reflexivity.
  - rewrite Hx. exact IH.
Qed.

(** X5. Recomputing the progress is idempotent: a second recomputation,
    with no submission in between, finds the database the first one left and
    returns the same value. *)
Theorem update_student_progress_idempotent (d : db) (student_id course_id : Z) :
  update_student_progress None
    (fst (update_student_progress None d student_id course_id))
    student_id course_id
  = update_student_progress None d student_id course_id.
Proof.
  rewrite !update_student_progress_no_fault. cbn [fst].
  set (auto := auto_progress_of d student_id course_id).
  change (auto_progress_of
            (with_enrollments d
               (update_where (of_pair student_id course_id)
                  (set_progress_percentage auto) (enrollments d)))
            student_id course_id) with auto.
  cbn [enrollments with_enrollments].
  f_equal.
  - unfold with_enrollments. cbn. f_equal.
    rewrite update_where_twice by (intros e; reflexivity).
    unfold update_where. apply map_ext. intros e.
    destruct (of_pair student_id course_id e); reflexivity.
  - rewrite find_update_where by (intros e; reflexivity).
    destruct (find _ (enrollments d)) as [e|]; cbn; reflexivity.
Qed.

(** ** Blocking and unblocking *)

Lemma find_map_map {A B C : Type} (g : A -> B) (f : B -> option C) (l : list A) :
  find_map f (map g l) = find_map (fun x => f (g x)) l.
Proof.
  induction l as [|x l IH]; simpl; [reflexivity|].
  destruct (f (g x)); [reflexivity | exact IH].
Qed.

Lemma find_map_only {A B : Type} (f : A -> option B) (l : list A) (x : A) :
  In x l -> (forall y, In y l -> f y = None \/ y = x) ->
  find_map f l = f x.
Proof.
  induction l as [|y l IH]; simpl; intros Hin Hnone; [contradiction|].
  assert (Htail : forall z, In z l -> f z = None \/ z = x)
    by (intros z Hz; apply Hnone; right; exact Hz).
  destruct (f y) as [b|] eqn:Hy.
  - destruct (Hnone y (or_introl eq_refl)) as [H|H]; [congruence|].
    subst y. symmetry. exact Hy.
  - destruct Hin as [Hin|Hin].
    + subst y. rewrite Hy. apply find_map_none. intros z Hz.
      destruct (Htail z Hz) as [H|H]; [exact H|]. subst z. exact Hy.
    + apply IH; assumption.
Qed.

(** With unique ids the row with the id decides the selection. *)
Lemma select_enrollment_by_id (d : db) (enrollment_id instructor_id : Z)
    (status : string) (e : enrollment) :
  NoDup (map e_id (enrollments d)) ->
  In e (enrollments d) -> e_id e = enrollment_id ->
  select_enrollment d enrollment_id instructor_id status
  = if String.eqb (e_status e) status then
      c <- find (fun c => (c_id c =? e_course_id e)
                          && (c_instructor_id c =? instructor_id)) (courses d) ;;
      u <- find (fun u => u_id u =? e_student_id e) (users d) ;;
      Some (e, c, u)
    else None.
Proof.
  intros Hnd He Hid. unfold select_enrollment.
  rewrite (find_map_only _ (enrollments d) e He).
  - unfold has_id. rewrite Hid, Z.eqb_refl. reflexivity.
  - intros y Hy. destruct (has_id enrollment_id y) eqn:Hy'; [right|left; reflexivity].
    unfold has_id in Hy'. apply Z.eqb_eq in Hy'.
    apply (nodup_id_unique (enrollments d)); congruence.
Qed.

Lemma set_status_same (e : enrollment) (s : string) :
  e_status e = s -> set_status s e = e.
Proof. intros <-. destruct e; reflexivity. Qed.

(** X6. Blocking and then unblocking restores the enrollment table.  When
    the acting instructor blocks an approved enrollment of one of their
    courses and then unblocks it, the unblocking succeeds and every row,
    the approval time of the blocked one included, is as it was before the
    two requests; the student has received the two notices. *)
Theorem block_then_unblock_restores (cu : current_user) (enrollment_id : Z)
    (d : db) (e : enrollment) (c : course) (u : user) :
  passes_instructor_required cu = true ->
  NoDup (map e_id (enrollments d)) ->
  select_enrollment d enrollment_id (cu_id cu) "approved" = Some (e, c, u) ->
  let blocked := out_db (instructor_block_student cu enrollment_id d) in
  let out := instructor_unblock_student cu enrollment_id blocked in
  In (set_status "blocked" e) (enrollments blocked) /\
  out_response out
    = Redirect "instructor_enrollments"
        ("Unblocked " +++ u_full_name u +++ " for " +++ c_title c +++ ".")
        "success" /\
  enrollments (out_db out) = enrollments d /\
  map n_title (notifications (out_db out))
    = map n_title (notifications d)
      ++ [ "Course Access Blocked"%string; "Course Access Restored"%string ].
Proof.
  intros Hpass Hnd Hsel. cbv zeta.
  pose proof (select_enrollment_some _ _ _ _ _ _ _ Hsel)
    as (He & Hid & Hst & _).
  pose proof (select_enrollment_by_id d enrollment_id (cu_id cu) "approved" e
                Hnd He Hid) as Hby.
  rewrite Hsel, Hst, String.eqb_refl in Hby.
  destruct (find _ (courses d)) as [c0|] eqn:Hfc; [|discriminate].
  destruct (find _ (users d)) as [u0|] eqn:Hfu; [|discriminate].
  inversion Hby; subst c0 u0.
  unfold instructor_block_student.
  rewrite (instructor_required_pass cu _ d Hpass), Hsel. cbn [out_db reply].
  set (d1 := notify_student _ e "Course Access Blocked" _ "warning").
  assert (Hrows : enrollments d1
            = update_where (has_id enrollment_id) (set_status "blocked")
                (enrollments d)) by reflexivity.
  assert (Hin1 : In (set_status "blocked" e) (enrollments d1)).
  { rewrite Hrows. apply in_update_where. exists e.
    unfold has_id. rewrite Hid, Z.eqb_refl. auto. }
  assert (Hnd1 : NoDup (map e_id (enrollments d1))).
  { rewrite Hrows, update_where_ids by (intros x; reflexivity). exact Hnd. }
  pose proof (select_enrollment_by_id d1 enrollment_id (cu_id cu) "blocked"
                (set_status "blocked" e) Hnd1 Hin1 Hid) as Hby1.
  assert (Hsel1 : select_enrollment d1 enrollment_id (cu_id cu) "blocked"
                  = Some (set_status "blocked" e, c, u)).
  { rewrite Hby1.
    change (courses d1) with (courses d). change (users d1) with (users d).
    cbn [e_status set_status e_course_id e_student_id].
    rewrite Hfc, Hfu. reflexivity. }
  unfold instructor_unblock_student.
  rewrite (instructor_required_pass cu _ d1 Hpass), Hsel1.
  cbn [out_db out_response reply].
  split; [exact Hin1|]. split; [reflexivity|]. split.
  - cbn [enrollments notify_student with_notification with_enrollments].
    rewrite Hrows.
    rewrite update_where_twice by (intros x; reflexivity).
    rewrite <- (map_id (enrollments d)) at 2. apply map_ext_in.
    intros x Hx. destruct (has_id enrollment_id x) eqn:Hx'; [|reflexivity].
    unfold has_id in Hx'. apply Z.eqb_eq in Hx'.
    assert (x = e) by (apply (nodup_id_unique (enrollments d)); congruence).
    subst x. destruct e; cbn in *. subst. reflexivity.
  - cbn. rewrite !map_app. cbn. rewrite <- app_assoc. reflexivity.
Qed.

(** Alice is blocked and unblocked by the instructor. *)
Lemma block_then_unblock_restores_witness :
  enrollments
    (out_db (instructor_unblock_student Sample.teacher 1
               (out_db (instructor_block_student Sample.teacher 1 Sample.db3))))
  = enrollments Sample.db3.
Proof.
  assert (Hnd : NoDup (map e_id (enrollments Sample.db3))).
  { cbn. constructor; [intros []|constructor]. }
  destruct (block_then_unblock_restores Sample.teacher 1 Sample.db3
              {| e_id := 1; e_student_id := 2; e_course_id := 10;
                 e_status := "approved"; e_enrolled_at := 100;
                 e_approved_at := Some 101;
                 e_progress_percentage := float_percentage 2 4;
                 e_manual_progress_override := None |}
              Sample.cs101 (mk_user 2 "student" "Alice") eq_refl Hnd eq_refl)
    as (_ & _ & H & _).
  exact H.
Defined.

(** ** The bulk setter *)

Section Bulk.

Variable float_of_string : string -> option Q.
Variable format_0f : Q -> string.
Variable str_of_int : Z -> string.

(** The loop of [UPDATE]s is one pass over the table. *)
Lemma set_progress_loop_map (c : course) (course_id : Z) (progress : Q)
    (students : list (Z * string)) (l : list enrollment)
    (sent stored : list notification) :
  set_progress_loop format_0f c course_id progress students l sent stored
  = (map (fun e =>
            if (e_course_id e =? course_id)
               && existsb (fun s => fst s =? e_student_id e) students
            then set_override_and_percentage progress progress e else e) l,
     (sent ++ map (fun s => progress_notification (fst s) course_id
                              (updated_message format_0f c progress)) students,
      stored)).
Proof.
  revert l sent stored.
  induction students as [|s rest IH]; intros l sent stored; simpl.
  - f_equal.
    + rewrite <- (map_id l) at 1. apply map_ext. intros e.
      rewrite andb_false_r. reflexivity.
    + rewrite app_nil_r. reflexivity.
  - rewrite IH, app_nil_r. f_equal.
    + unfold update_where. rewrite map_map. apply map_ext. intros e.
      unfold of_pair. rewrite (Z.eqb_sym (fst s) (e_student_id e)).
      destruct (e_student_id e =? fst s) eqn:Hs;
        destruct (e_course_id e =? course_id) eqn:Hc; cbn;
        rewrite ?Hc; cbn; try reflexivity.
      destruct (existsb _ rest); reflexivity.
    + rewrite <- app_assoc. reflexivity.
Qed.

(** X7. The bulk setter with a value in [0,100], by the owning instructor:
    the rows changed are those of the course whose student is on the list of
    approved students with a row in [users]; each of them gets the value as
    override and as stored percentage; rows of other courses are untouched;
    [send_notification] is called once per listed student, each time before
    the [UPDATE]s are committed, so that no notification is stored or
    emitted; and [count] is the length of the list. *)
Theorem bulk_setter_changes_listed_rows (cu : current_user) (course_id : Z)
    (text : string) (progress : Q) (d : db) (c : course) :
  passes_instructor_required cu = true ->
  select_own_course d course_id (cu_id cu) = Some c ->
  is_empty text = false ->
  float_of_string text = Some progress ->
  (0 <= progress)%Q -> (progress <= 100)%Q ->
  let out := instructor_set_progress_bulk float_of_string format_0f str_of_int
               cu course_id (Some text) d in
  let students := select_approved_students d course_id in
  enrollments (out_db out)
    = map (fun e =>
             if (e_course_id e =? course_id)
                && existsb (fun s => fst s =? e_student_id e) students
             then set_override_and_percentage progress progress e else e)
          (enrollments d) /\
  (forall e, In e (enrollments d) -> e_course_id e <> course_id ->
             In e (enrollments (out_db out))) /\
  map n_user_id (out_sent out) = map fst students /\
  out_stored out = [] /\
  exists body,
    out_response out = Jsonify body 200 /\ j_success body = true /\
    j_count body = Some (Z.of_nat (List.length students)).
Proof.
  intros Hpass Hown Htext Hfloat Hlo Hhi. cbv zeta.
  unfold instructor_set_progress_bulk.
  rewrite (instructor_required_pass cu _ d Hpass), Hown, Htext, Hfloat.
  assert (Hrange : out_of_range progress = false).
  { unfold out_of_range.
    apply Qle_bool_iff in Hlo. apply Qle_bool_iff in Hhi.
    rewrite Hlo, Hhi. reflexivity. }
  rewrite Hrange. cbv zeta. rewrite set_progress_loop_map.
  cbn [out_db out_response out_sent out_stored enrollments with_enrollments].
  split; [reflexivity|]. split; [|split; [|split]].
  - intros e He Hne. apply in_map_iff. exists e. split; [|exact He].
    apply Z.eqb_neq in Hne. rewrite Hne. reflexivity.
  - cbn. rewrite map_map. reflexivity.
  - reflexivity.
  - eexists. split; [reflexivity|]. split; reflexivity.
Qed.

End Bulk.

(** The instructor sets 90 for the whole of CS101: Alice is approved, Bob's
    request is pending. *)
Lemma bulk_setter_changes_listed_rows_witness :
  map (fun e => (e_student_id e, e_manual_progress_override e))
      (enrollments (out_db
         (instructor_set_progress_bulk Sample.float_of_string Sample.format_0f
            Sample.str_of_int Sample.teacher 10 (Some "90"%string) Sample.db2b)))
  = [ (2, Some (90 # 1)%Q); (3, None) ] /\
  map n_user_id
    (out_sent
       (instructor_set_progress_bulk Sample.float_of_string Sample.format_0f
          Sample.str_of_int Sample.teacher 10 (Some "90"%string) Sample.db2b))
  = [ 2 ] /\
  out_stored
    (instructor_set_progress_bulk Sample.float_of_string Sample.format_0f
       Sample.str_of_int Sample.teacher 10 (Some "90"%string) Sample.db2b)
  = [].
Proof.
  destruct (bulk_setter_changes_listed_rows Sample.float_of_string
              Sample.format_0f Sample.str_of_int Sample.teacher 10 "90"
              (90 # 1)%Q Sample.db2b Sample.cs101
              eq_refl eq_refl eq_refl eq_refl) as (H & _ & Hsent & Hstored & _).
  - discriminate.
  - discriminate.
  - rewrite H, Hsent, Hstored. repeat split.
Defined.

(** ** Override precedence *)

Section Precedence.

Variable format_0f : Q -> string.

(** X8. An override outlives recomputation.  After the override of a pair
    is stored, a recomputation (say by a quiz submission) leaves the
    override of the rows of the pair in place, so that the display value
    stays the override, whether or not a statement of the recomputation
    raises.  When none raises, it puts the automatic value back into
    [progress_percentage] of those rows and returns the override when the
    pair has a row.  When one raises, it changes nothing, so that
    [progress_percentage] keeps the override value, and returns [0]. *)
Theorem override_survives_recomputation (fault : option progress_stmt)
    (c : course) (course_id student_id : Z) (progress : Q) (d : db) :
  let stored := out_db (store_manual_override format_0f c course_id student_id
                          progress d) in
  let recomputed := update_student_progress fault stored student_id course_id in
  (forall e', In e' (enrollments (fst recomputed)) ->
              of_pair student_id course_id e' = true ->
              e_manual_progress_override e' = Some progress /\
              display_progress e' = progress) /\
  ((forall s, fault = Some s -> ~ reached d course_id s) ->
   (forall e', In e' (enrollments (fst recomputed)) ->
               of_pair student_id course_id e' = true ->
               e_progress_percentage e' = auto_progress_of d student_id course_id) /\
   ((exists e, In e (enrollments d) /\ of_pair student_id course_id e = true) ->
    snd recomputed = progress)) /\
  (forall s, fault = Some s -> reached d course_id s ->
   recomputed = (stored, 0%Q) /\
   forall e', In e' (enrollments (fst recomputed)) ->
              of_pair student_id course_id e' = true ->
              e_progress_percentage e' = progress).
Proof.
  cbv zeta.
  assert (Hstored : enrollments (out_db (store_manual_override format_0f c
                      course_id student_id progress d))
            = update_where (of_pair student_id course_id)
                (set_override_and_percentage progress progress) (enrollments d)).
  { unfold store_manual_override. cbv zeta.
    destruct (find _ (users d)); reflexivity. }
  assert (Hauto : auto_progress_of (out_db (store_manual_override format_0f c
                      course_id student_id progress d)) student_id course_id
            = auto_progress_of d student_id course_id).
  { unfold store_manual_override. cbv zeta.
    destruct (find _ (users d)); reflexivity. }
  assert (Hquizzes : count_quizzes (out_db (store_manual_override format_0f c
                       course_id student_id progress d)) course_id
            = count_quizzes d course_id).
  { unfold store_manual_override. cbv zeta.
    destruct (find _ (users d)); reflexivity. }
  assert (Hrow : forall e',
            In e' (enrollments (out_db (store_manual_override format_0f c
                     course_id student_id progress d))) ->
            of_pair student_id course_id e' = true ->
            e_manual_progress_override e' = Some progress /\
            e_progress_percentage e' = progress).
  { intros e' Hin Hp. rewrite Hstored in Hin. apply in_update_where in Hin.
    destruct Hin as [e [He ->]].
    destruct (of_pair student_id course_id e) eqn:Hpe; [|congruence].
    split; reflexivity. }
  split; [|split].
  - intros e' Hin Hp.
    assert (Hkey : In (of_pair student_id course_id e',
                       e_manual_progress_override e')
                      (map (fun e => (of_pair student_id course_id e,
                                      e_manual_progress_override e))
                           (enrollments (out_db (store_manual_override
                              format_0f c course_id student_id progress d))))).
    { rewrite <- (update_student_progress_keys
                    (fun e => (of_pair student_id course_id e,
                               e_manual_progress_override e))
                    fault _ student_id course_id)
        by (intros p e; reflexivity).
      apply (in_map (fun e => (of_pair student_id course_id e,
                               e_manual_progress_override e))). exact Hin. }
    apply in_map_iff in Hkey. destruct Hkey as [e [Heq He]].
    injection Heq as Hpe Hov. rewrite Hp in Hpe.
    destruct (Hrow e He Hpe) as [Hm _].
    assert (Hm' : e_manual_progress_override e' = Some progress) by congruence.
    split; [exact Hm'|]. unfold display_progress. rewrite Hm'. reflexivity.
  - intros Hfault.
    assert (Hfault' : forall s, fault = Some s ->
              ~ reached (out_db (store_manual_override format_0f c course_id
                                   student_id progress d)) course_id s).
    { intros s Hs Hr. apply (Hfault s Hs). unfold reached in *.
      rewrite <- Hquizzes. exact Hr. }
    rewrite (proj1 (update_student_progress_unreached fault _ student_id
                      course_id Hfault')).
    rewrite update_student_progress_no_fault. cbn [fst snd].
    rewrite Hauto, Hstored. split.
    + intros e' Hin Hp. cbn in Hin.
      rewrite update_where_twice in Hin by (intros e; reflexivity).
      apply in_map_iff in Hin. destruct Hin as [e [<- He]].
      destruct (of_pair student_id course_id e) eqn:Hpe; [|congruence].
      reflexivity.
    + intros [e [He Hp]].
      rewrite find_update_where by (intros x; reflexivity).
      destruct (find (of_pair student_id course_id) (enrollments d))
        as [e1|] eqn:Hf.
      * reflexivity.
      * rewrite find_none_forall in Hf. specialize (Hf e He). congruence.
  - intros s -> Hs.
    assert (Hs' : reached (out_db (store_manual_override format_0f c course_id
                                     student_id progress d)) course_id s).
    { unfold reached in *. rewrite Hquizzes. exact Hs. }
    rewrite (update_student_progress_raises s _ student_id course_id Hs').
    split; [reflexivity|]. cbn [fst]. intros e' Hin Hp.
    exact (proj2 (Hrow e' Hin Hp)).
Qed.

End Precedence.

(** Alice's override of 90 is stored; the quizzes are recounted, once with
    the storage answering and once on the schema [init_db] creates. *)
Lemma override_survives_recomputation_witness :
  snd (update_student_progress None Sample.db4 2 10) = (90 # 1)%Q /\
  map (fun e => (e_manual_progress_override e, e_progress_percentage e))
      (enrollments (fst (update_student_progress None Sample.db4 2 10)))
    = [ (Some (90 # 1)%Q, auto_progress_of Sample.db3 2 10) ] /\
  update_student_progress (schema_fault init_db_assignments_columns)
    Sample.db4 2 10 = (Sample.db4, 0%Q).
Proof.
  split; [|split].
  - destruct (override_survives_recomputation Sample.format_0f None
                Sample.cs101 10 2 (90 # 1)%Q Sample.db3) as (_ & H & _).
    destruct H as [_ H]; [intros s Hs; discriminate Hs|].
    apply H. eexists. split; [left; reflexivity | reflexivity].
  - reflexivity.
  - destruct (override_survives_recomputation Sample.format_0f
                (schema_fault init_db_assignments_columns)
                Sample.cs101 10 2 (90 # 1)%Q Sample.db3) as (_ & _ & H).
    destruct (H CountQuizzes eq_refl) as [Heq _];
      [intros E; discriminate E|].
    exact Heq.
Defined.

(** ** Access levels *)

(** X9. The two decorators on a logged-in user.  An admin passes both
    [admin_required] and [instructor_required]; anyone else is turned away
    by [admin_required]; an instructor whose account is pending or rejected
    is turned away by [instructor_required], in both cases with the
    "pending approval" warning. *)
Theorem access_levels (cu : current_user) (view : outcome) (d : db) :
  cu_is_authenticated cu = true ->
  (is_admin cu = true ->
     admin_required cu view d = view /\ instructor_required cu view d = view) /\
  (is_admin cu = false ->
     admin_required cu view d
     = reply d (Redirect "dashboard" "Access denied. Admin privileges required."
                  "error")) /\
  (is_instructor_pending cu = true \/ is_instructor_rejected cu = true ->
     instructor_required cu view d
     = reply d (Redirect "dashboard"
         "Your instructor account is pending approval. Please wait for admin approval."
         "warning")).
Proof.
  intros Hauth. unfold admin_required, instructor_required.
  rewrite Hauth. cbn [negb orb].
  split; [|split].
  - intros Hadmin. rewrite Hadmin. split; reflexivity.
  - intros Hadmin. rewrite Hadmin. reflexivity.
  - unfold is_instructor_pending, is_instructor_rejected, is_instructor_approved.
    intros H.
    assert (Hrole : is_instructor cu = true)
      by (destruct H as [H|H]; apply andb_true_iff in H; tauto).
    assert (Hadmin : is_admin cu = false).
    { unfold is_admin, is_instructor in *. apply String.eqb_eq in Hrole.
      rewrite Hrole. reflexivity. }
    assert (Hstatus : String.eqb (cu_instructor_approval_status cu) "approved" = false).
    { destruct H as [H|H]; apply andb_true_iff in H; destruct H as [_ H];
        apply String.eqb_eq in H; rewrite H; reflexivity. }
    rewrite Hadmin, Hrole. cbn [negb]. rewrite Hstatus. reflexivity.
Qed.

Lemma access_levels_witness :
  let rejected :=
    {| cu_is_authenticated := true; cu_id := 4; cu_role := "instructor";
       cu_full_name := "Omar"; cu_instructor_approval_status := "rejected" |} in
  instructor_approve_enrollment 104 rejected 2 Sample.db2b
  = reply Sample.db2b (Redirect "dashboard"
      "Your instructor account is pending approval. Please wait for admin approval."
      "warning").
Proof.
  cbv zeta. unfold instructor_approve_enrollment.
  apply (access_levels
           {| cu_is_authenticated := true; cu_id := 4; cu_role := "instructor";
              cu_full_name := "Omar";
              cu_instructor_approval_status := "rejected" |}).
  - reflexivity.
  - right. reflexivity.
Defined.

(** ** The schema that [init_db] creates *)

(** X10. On a database whose [assignments] table has the columns [init_db]
    gives it, the quiz count of [update_student_progress] names the column
    [is_active], which the table lacks: the statement raises, the [except]
    clause returns 0, and no row is changed, whatever the student, the
    course and the submissions.  With that column added no statement
    raises. *)
Theorem update_student_progress_on_init_db_schema (d : db)
    (student_id course_id : Z) :
  schema_fault init_db_assignments_columns = Some CountQuizzes /\
  update_student_progress (schema_fault init_db_assignments_columns)
    d student_id course_id = (d, 0%Q) /\
  schema_fault ("is_active"%string :: init_db_assignments_columns) = None.
Proof.
  split; [reflexivity|]. split; [|reflexivity].
  change (schema_fault init_db_assignments_columns) with (Some CountQuizzes).
  unfold update_student_progress.
  rewrite update_student_progress_fault; [reflexivity|].
  intros H. discriminate H.
Qed.

(** ** Grading a quiz *)

Section Grading.

Variable strip : string -> string.
Variable form : Z -> string.

Lemma total_app (l1 l2 : list Z) : total (l1 ++ l2) = total l1 + total l2.
Proof.
  unfold total. induction l1 as [|x l1 IH]; simpl; [reflexivity|]. rewrite IH. lia.
Qed.

Lemma grading_loop_sums (questions : list quiz_question)
    (total_score total_possible : Z) (mcq_answers : list graded_answer) :
  let '(score, possible, answers) :=
    grading_loop strip form questions total_score total_possible mcq_answers in
  possible = total_possible + total (map qq_points questions) /\
  score = total_score
          + total (map qq_points (filter (answered_correctly strip form) questions)) /\
  exists added,
    answers = mcq_answers ++ added /\
    map ga_question_id added
      = map qq_id (filter (answered strip form) questions) /\
    score = total_score + total (map ga_points_earned added).
Proof.
  revert total_score total_possible mcq_answers.
  induction questions as [|q rest IH]; intros ts tp acc.
  - cbn. repeat split; try lia. exists []. rewrite app_nil_r. cbn.
    repeat split; lia.
  - cbn [grading_loop filter map]. unfold answered_correctly at 1, answered at 1 2.
    destruct (is_empty (strip (form (qq_id q)))) eqn:Hempty; cbn [negb andb].
    + specialize (IH ts (tp + qq_points q) acc).
      destruct (grading_loop strip form rest ts (tp + qq_points q) acc)
        as [[s p] a].
      destruct IH as (IH1 & IH2 & added & IH3 & IH4 & IH5).
      split; [cbn [total fold_right]; fold (total (map qq_points rest)); lia|].
      split; [exact IH2|]. exists added. auto.
    + set (correct := match qq_correct_answer q with
                      | Some c => String.eqb (strip (form (qq_id q))) c
                      | None => false
                      end).
      set (a0 := {| ga_question_id := qq_id q;
                    ga_selected_option := strip (form (qq_id q));
                    ga_is_correct := correct;
                    ga_points_earned := if correct then qq_points q else 0 |}).
      specialize (IH (ts + (if correct then qq_points q else 0))
                     (tp + qq_points q) (acc ++ [a0])).
      destruct (grading_loop strip form rest
                  (ts + (if correct then qq_points q else 0))
                  (tp + qq_points q) (acc ++ [a0])) as [[s p] a].
      destruct IH as (IH1 & IH2 & added & IH3 & IH4 & IH5).
      split; [cbn [total fold_right]; fold (total (map qq_points rest)); lia|].
      split.
      * destruct correct; cbn [map total fold_right];
          fold (total (map qq_points
                         (filter (answered_correctly strip form) rest))); lia.
      * exists (a0 :: added). split; [rewrite IH3, <- app_assoc; reflexivity|].
        split; [cbn [map ga_question_id a0]; f_equal; exact IH4|].
        cbn [map total fold_right ga_points_earned a0].
        fold (total (map ga_points_earned added)). lia.
Qed.

Lemma total_filter_le (f : quiz_question -> bool) (questions : list quiz_question) :
  (forall q, In q questions -> 0 <= qq_points q) ->
  0 <= total (map qq_points (filter f questions))
    <= total (map qq_points questions).
Proof.
  induction questions as [|q rest IH]; intros Hpos; [cbn; lia|].
  assert (0 <= qq_points q) by (apply Hpos; left; reflexivity).
  assert (H1 : 0 <= total (map qq_points (filter f rest))
               <= total (map qq_points rest))
    by (apply IH; intros; apply Hpos; right; assumption).
  cbn [filter map]. destruct (f q); cbn [map total fold_right];
    fold (total (map qq_points (filter f rest)));
    fold (total (map qq_points rest)); lia.
Qed.

Lemma filter_all {A} (f : A -> bool) (l : list A) :
  (forall x, In x l -> f x = true) -> filter f l = l.
Proof.
  induction l as [|x l IH]; intros H; [reflexivity|]. cbn.
  rewrite (H x (or_introl eq_refl)). f_equal. apply IH. intros; apply H; right; assumption.
Qed.

(** X11. The score of a quiz submission.  [total_possible] is the sum of the
    points of all questions of the quiz, answered or not; one answer is
    recorded per question whose field is not empty once stripped, in the
    order of the questions; [total_score] is the sum of the points recorded
    with the answers, which is the sum of the points of the questions
    answered with their correct answer.  With no negative points the score
    lies between 0 and [total_possible], and it reaches [total_possible]
    when every question is answered correctly. *)
Theorem quiz_score (questions : list quiz_question) :
  let '(total_score, total_possible, mcq_answers) :=
    grading_loop strip form questions 0 0 [] in
  total_possible = total (map qq_points questions) /\
  map ga_question_id mcq_answers
    = map qq_id (filter (answered strip form) questions) /\
  total_score = total (map ga_points_earned mcq_answers) /\
  total_score
    = total (map qq_points (filter (answered_correctly strip form) questions)) /\
  ((forall q, In q questions -> 0 <= qq_points q) ->
     0 <= total_score <= total_possible) /\
  ((forall q, In q questions -> answered_correctly strip form q = true) ->
     total_score = total_possible).
Proof.
  pose proof (grading_loop_sums questions 0 0 []) as H.
  destruct (grading_loop strip form questions 0 0 []) as [[s p] a].
  destruct H as (H1 & H2 & added & H3 & H4 & H5). cbn [app] in H3. subst a.
  rewrite Z.add_0_l in H1, H2, H5.
  split; [exact H1|]. split; [exact H4|]. split; [exact H5|].
  split; [exact H2|]. split.
  - intros Hpos. rewrite H1, H2. apply total_filter_le. exact Hpos.
  - intros Hall. rewrite H1, H2, (filter_all _ _ Hall). reflexivity.
Qed.

End Grading.

(** ** Quiz submission *)


Lemma nodup_map_filter {K R : Type} (key : R -> K) (keep : R -> bool)
    (rows : list R) (Hnd : NoDup (map key rows)) :
  NoDup (map key (filter keep rows)).
Proof.
  induction rows as [|row rows IH]; [constructor|].
  apply NoDup_cons_iff in Hnd. destruct Hnd as [Hfresh Hnd].
  cbn [filter]. destruct (keep row); [|exact (IH Hnd)].
  cbn [map]. constructor; [|exact (IH Hnd)].
  intros Hin. apply Hfresh. apply in_map_iff in Hin.
  destruct Hin as (other & Hkey & Hin). apply filter_In in Hin.
  apply in_map_iff. exists other. tauto.
Qed.

Lemma fold_max_bound (l : list Z) (x : Z) :
  In x l -> x <= fold_right Z.max 0 l.
Proof.
  induction l as [|y l IH]; intros H; [destruct H|].
  cbn. destruct H as [->|H]; [lia|]. specialize (IH H). lia.
Qed.

Lemma update_submissions_key {K : Type} (key : submission_row -> K)
    (p : submission_row -> bool) (f : submission_row -> submission_row)
    (l : list submission_row) :
  (forall r, key (f r) = key r) ->
  map key (update_submissions p f l) = map key l.
Proof.
  intros Hf. unfold update_submissions. rewrite map_map. apply map_ext.
  intros r. destruct (p r); [apply Hf|reflexivity].
Qed.







Lemma filter_and {A : Type} (f g : A -> bool) (l : list A) :
  filter (fun a => f a && g a) l = filter f (filter g l).
Proof.
  induction l as [|x l IH]; [reflexivity|].
  cbn [filter]. destruct (g x); cbn [filter]; rewrite ?andb_true_r, ?andb_false_r;
    [destruct (f x); rewrite IH; reflexivity|exact IH].
Qed.

Lemma filter_none {A : Type} (p : A -> bool) (l : list A) :
  (forall a, In a l -> p a = false) -> filter p l = [].
Proof.
  induction l as [|x l IH]; intros H; [reflexivity|].
  cbn [filter]. rewrite (H x (or_introl eq_refl)).
  apply IH. intros a Ha. apply H. right. exact Ha.
Qed.

Lemma filter_unique_id (l : list assignment) (x : assignment) :
  NoDup (map a_id l) -> In x l ->
  filter (fun a => a_id a =? a_id x) l = [x].
Proof.
  induction l as [|y l IH]; intros Hnd Hin; [destruct Hin|].
  inversion Hnd as [|z l' Hnotin Hnd']; subst. cbn [filter].
  destruct Hin as [->|Hin].
  - rewrite Z.eqb_refl. f_equal. apply filter_none. intros a Ha.
    apply Z.eqb_neq. intros E. apply Hnotin. rewrite <- E. apply in_map. exact Ha.
  - destruct (a_id y =? a_id x) eqn:E.
    + apply Z.eqb_eq in E. destruct Hnotin. rewrite E. apply in_map. exact Hin.
    + apply IH; assumption.
Qed.


Section Submission.

Variable strip : string -> string.
Variable str_of_int : Z -> string.
Variable format_1f : Q -> string.






End Submission.

(** ** Deleting a quiz *)

Lemma instructor_required_refusal (cu : current_user) (view : outcome) (d : db) :
  instructor_required cu view d
  = match instructor_refusal cu with
    | Some refusal => reply d refusal
    | None => view
    end.
Proof.
  unfold instructor_required, instructor_refusal.
  destruct (negb (cu_is_authenticated cu)); [reflexivity|].
  destruct (is_admin cu); [reflexivity|].
  destruct (negb (is_instructor cu)); [reflexivity|].
  destruct (negb (is_instructor_approved cu)); reflexivity.
Qed.

Lemma filter_split_length {A : Type} (f g : A -> bool) (l : list A) :
  List.length (filter f l)
  = (List.length (filter (fun a => f a && g a) l)
     + List.length (filter f (filter (fun a => negb (g a)) l)))%nat.
Proof.
  induction l as [|x l IH]; [reflexivity|].
  cbn [filter]. destruct (g x); cbn [negb filter];
    destruct (f x); cbn [andb List.length]; lia.
Qed.

Lemma existsb_filter_submissions (quiz_id assignment_id student_id : Z)
    (l : list submission_row) :
  assignment_id <> quiz_id ->
  existsb (fun sub => (s_assignment_id sub =? assignment_id)
                      && (s_student_id sub =? student_id))
          (map to_submission
             (filter (fun r => negb (sr_assignment_id r =? quiz_id)) l))
  = existsb (fun sub => (s_assignment_id sub =? assignment_id)
                        && (s_student_id sub =? student_id))
            (map to_submission l).
Proof.
  intros Hne. induction l as [|r l IH]; [reflexivity|].
  cbn [filter map existsb]. destruct (sr_assignment_id r =? quiz_id) eqn:E.
  - cbn [negb]. rewrite IH. apply Z.eqb_eq in E.
    cbn [to_submission s_assignment_id s_student_id].
    replace (sr_assignment_id r =? assignment_id) with false; [reflexivity|].
    symmetry. apply Z.eqb_neq. congruence.
  - cbn [negb map existsb]. rewrite IH. reflexivity.
Qed.

Section DeleteQuiz.

Variable title : assignment -> string.

(** X15. Deleting a quiz keeps the constraints of the quiz tables.  Whoever
    asks and whatever the ids are, when the primary keys, the [UNIQUE] pairs,
    the sequence of [assignment_submissions] and the reference from an
    answer to its submission hold before [instructor_delete_quiz], they hold
    after it: the answers of the submissions that go are deleted with them,
    so no answer is left without its submission. *)
Theorem delete_quiz_keeps_constraints (cu : current_user)
    (course_id quiz_id : Z) (s : school) :
  school_ok s ->
  school_ok (fst (instructor_delete_quiz title cu course_id quiz_id s)).
Proof.
  intros Hok. unfold instructor_delete_quiz.
  destruct (instructor_refusal cu); [exact Hok|].
  destruct (select_own_quiz (core s) quiz_id course_id (cu_id cu)) as [quiz|];
    [|exact Hok].
  destruct Hok as (Hq & Hid & Hpair & Hseq & Href & Hans).
  cbn [fst]. unfold school_ok.
  cbn [sc_quiz_questions sc_submissions sc_submissions_seq sc_mcq_answers].
  split; [apply nodup_map_filter; exact Hq|].
  split; [apply nodup_map_filter; exact Hid|].
  split; [apply nodup_map_filter; exact Hpair|].
  split; [intros r Hr; apply filter_In in Hr; apply Hseq; tauto|].
  split; [|apply nodup_map_filter; exact Hans].
  intros a Ha. apply filter_In in Ha. destruct Ha as [Ha Hkeep].
  destruct (Href a Ha) as (r & Hr & Hra). exists r. split; [|exact Hra].
  apply filter_In. split; [exact Hr|].
  destruct (sr_assignment_id r =? quiz_id) eqn:E; [|reflexivity].
  apply negb_true_iff in Hkeep.
  assert (Hex : existsb (fun r0 => (sr_assignment_id r0 =? quiz_id)
                                   && (sr_id r0 =? ma_submission_id a))
                  (sc_submissions s) = true).
  { apply existsb_exists. exists r. split; [exact Hr|].
    rewrite E, Hra, Z.eqb_refl. reflexivity. }
  rewrite Hex in Hkeep. discriminate.
Qed.

(** X16. Deleting a quiz does not recompute the progress.  With unique
    assignment ids, an accepted [instructor_delete_quiz] leaves every row of
    [enrollments] as it was; yet an active quiz that goes lowers the number
    of quizzes of its course by one, and the number of quizzes a student has
    submitted by one when the student had submitted it.  So
    [progress_percentage] keeps the value computed with the deleted quiz
    until the next recomputation. *)
Theorem delete_quiz_keeps_stored_progress (cu : current_user)
    (course_id quiz_id : Z) (s : school) (quiz : assignment) :
  NoDup (map a_id (assignments (core s))) ->
  instructor_refusal cu = None ->
  select_own_quiz (core s) quiz_id course_id (cu_id cu) = Some quiz ->
  let s' := fst (instructor_delete_quiz title cu course_id quiz_id s) in
  enrollments (core s') = enrollments (core s) /\
  count_quizzes (core s') course_id
  = count_quizzes (core s) course_id
    - (if is_active_quiz course_id quiz then 1 else 0) /\
  forall student_id,
    count_submitted (core s') student_id course_id
    = count_submitted (core s) student_id course_id
      - (if is_active_quiz course_id quiz
            && has_submission (core s) student_id quiz then 1 else 0).
Proof.
  intros Hnd Hpass Hquiz s'. subst s'. unfold instructor_delete_quiz.
  rewrite Hpass, Hquiz. cbn [fst].
  pose proof (find_some _ _ Hquiz) as [Hin Hfound].
  apply andb_true_iff in Hfound. destruct Hfound as [Hfound _].
  apply andb_true_iff in Hfound. destruct Hfound as [Hqid _].
  apply Z.eqb_eq in Hqid. subst quiz_id.
  cbn [core assignments] in Hnd, Hin.
  split; [reflexivity|].
  unfold count_quizzes, count_submitted.
  cbn [core sc_db sc_submissions assignments assignment_submissions
       with_assignments].
  split.
  - rewrite (filter_split_length (is_active_quiz course_id)
               (fun a => a_id a =? a_id quiz) (assignments (sc_db s))).
    rewrite filter_and, (filter_unique_id _ quiz Hnd Hin). cbn [filter].
    destruct (is_active_quiz course_id quiz); cbn [List.length]; lia.
  - intros student_id.
    rewrite !nodup_fixed_point
      by (repeat apply nodup_map_filter; exact Hnd).
    rewrite !length_map.
    rewrite (filter_split_length
               (fun a => is_active_quiz course_id a
                         && has_submission (core s) student_id a)
               (fun a => a_id a =? a_id quiz) (assignments (sc_db s))).
    rewrite (filter_and (fun a => is_active_quiz course_id a
                                  && has_submission (core s) student_id a)
               (fun a => a_id a =? a_id quiz)).
    rewrite (filter_unique_id _ quiz Hnd Hin). cbn [filter].
    rewrite (filter_ext_in
               (fun a => is_active_quiz course_id a
                         && has_submission (core s) student_id a)
               (fun a => is_active_quiz course_id a
                         && has_submission
                              (core
                                 {| sc_db :=
                                      with_assignments (sc_db s)
                                        (filter (fun a0 => negb (a_id a0 =? a_id quiz))
                                           (assignments (sc_db s)));
                                    sc_submissions :=
                                      filter (fun r => negb (sr_assignment_id r
                                                             =? a_id quiz))
                                        (sc_submissions s);
                                    sc_submissions_seq := sc_submissions_seq s;
                                    sc_quiz_questions :=
                                      filter (fun q => negb (qq_assignment_id q
                                                             =? a_id quiz))
                                        (sc_quiz_questions s);
                                    sc_mcq_answers :=
                                      delete_answers_of_quiz (a_id quiz)
                                        (sc_submissions s) (sc_mcq_answers s) |})
                              student_id a)).
    + destruct (is_active_quiz course_id quiz
                && has_submission (core s) student_id quiz); cbn [List.length]; lia.
    + intros a Ha. apply filter_In in Ha. destruct Ha as [_ Hne].
      apply negb_true_iff, Z.eqb_neq in Hne. f_equal.
      unfold has_submission.
      cbn [core sc_submissions assignment_submissions].
      symmetry. apply existsb_filter_submissions. exact Hne.
Qed.

End DeleteQuiz.

Lemma nodup_key_unique {K R : Type} (key : R -> K) (rows : list R) (x y : R) :
  NoDup (map key rows) -> In x rows -> In y rows -> key x = key y -> x = y.
Proof.
  induction rows as [|row rows IH]; intros Hnd Hx Hy Hkey; [destruct Hx|].
  apply NoDup_cons_iff in Hnd. destruct Hnd as [Hfresh Hnd].
  destruct Hx as [->|Hx], Hy as [->|Hy].
  - reflexivity.
  - destruct Hfresh. rewrite Hkey. apply in_map. exact Hy.
  - destruct Hfresh. rewrite <- Hkey. apply in_map. exact Hx.
  - apply IH; assumption.
Qed.

(** ** Deleting a course *)

Lemma passes_instructor_refusal (cu : current_user) :
  passes_instructor_required cu = true -> instructor_refusal cu = None.
Proof.
  unfold passes_instructor_required, instructor_refusal. intros H.
  apply andb_true_iff in H. destruct H as [-> H]. cbn [negb].
  destruct (is_admin cu); [reflexivity|]. cbn [orb] in H.
  apply andb_true_iff in H. destruct H as [-> ->]. reflexivity.
Qed.

Section DeleteCourse.

Variable strip : string -> string.
Variable upper : string -> string.
Variable check_password_hash : string -> string -> bool.

(** X17. Deleting a course takes its enrollments with it and nothing else.
    When the instructor who owns the course deletes it, no course row and no
    enrollment row of that course is left, the rows of every other course
    are the ones there were, in their order, and the assignments and
    submissions of the deleted course stay in their tables.  With unique
    course codes, a student who then asks to enroll with the code of the
    deleted course is told that the course is not found, and no row is
    added. *)
Theorem delete_course_removes_enrollments (now : timestamp)
    (cu student : current_user) (course_id : Z) (d : db) (c : course)
    (course_code_field enrollment_key_field : string) :
  passes_instructor_required cu = true ->
  select_own_course d course_id (cu_id cu) = Some c ->
  NoDup (map c_course_code (courses d)) ->
  cu_is_authenticated student = true -> is_student student = true ->
  upper (strip course_code_field) = c_course_code c ->
  is_empty (c_course_code c) = false ->
  is_empty (strip enrollment_key_field) = false ->
  let out := instructor_delete_course cu course_id d in
  out_response out
  = Redirect "instructor_courses"
      ("Course " +++ dq +++ c_title c +++ dq +++ " has been deleted successfully.")
      "success" /\
  (forall c', In c' (courses (out_db out)) -> c_id c' <> course_id) /\
  (forall e, In e (enrollments (out_db out)) -> e_course_id e <> course_id) /\
  (forall other, other <> course_id ->
     filter (fun c' => c_id c' =? other) (courses (out_db out))
     = filter (fun c' => c_id c' =? other) (courses d) /\
     filter (fun e => e_course_id e =? other) (enrollments (out_db out))
     = filter (fun e => e_course_id e =? other) (enrollments d)) /\
  assignments (out_db out) = assignments d /\
  assignment_submissions (out_db out) = assignment_submissions d /\
  student_enroll strip upper check_password_hash now student
    course_code_field enrollment_key_field (out_db out)
  = reply (out_db out)
      (Redirect "student_browse_courses"
         ("Course with code " +++ dq +++ c_course_code c +++ dq
          +++ " not found or is inactive.") "error").
Proof.
  intros Hpass Hown Hcodes Hauth Hstudent Hcode Hnonempty Hkey out.
  subst out. unfold instructor_delete_course.
  rewrite instructor_required_refusal, (passes_instructor_refusal cu Hpass), Hown.
  cbn [reply out_response out_db with_courses with_enrollments courses
       enrollments assignments assignment_submissions].
  pose proof (find_some _ _ Hown) as [Hin Hc].
  apply andb_true_iff in Hc. destruct Hc as [Hcid _]. apply Z.eqb_eq in Hcid.
  split; [reflexivity|]. split.
  { intros c' Hc'. apply filter_In in Hc'. destruct Hc' as [_ Hne].
    apply negb_true_iff, Z.eqb_neq in Hne. exact Hne. }
  split.
  { intros e He. apply filter_In in He. destruct He as [_ Hne].
    apply negb_true_iff, Z.eqb_neq in Hne. exact Hne. }
  split.
  { intros other Hother. unfold delete_where. split.
    - rewrite <- filter_and. apply filter_ext. intros c'.
      destruct (c_id c' =? other) eqn:E; [|reflexivity].
      apply Z.eqb_eq in E. rewrite E.
      apply Z.eqb_neq in Hother. rewrite Hother. reflexivity.
    - rewrite <- filter_and. apply filter_ext. intros e.
      destruct (e_course_id e =? other) eqn:E; [|reflexivity].
      apply Z.eqb_eq in E. rewrite E.
      apply Z.eqb_neq in Hother. rewrite Hother. reflexivity. }
  split; [reflexivity|]. split; [reflexivity|].
  unfold student_enroll, login_required. rewrite Hauth, Hstudent. cbn [negb].
  cbv zeta. rewrite Hcode, Hnonempty, Hkey. cbn [orb].
  unfold select_course_by_code. cbn [courses users].
  rewrite find_map_none; [reflexivity|].
  intros c' Hc'. apply filter_In in Hc'. destruct Hc' as [Hc' Hne].
  destruct (String.eqb_spec (c_course_code c') (c_course_code c)) as [E|E];
    [|reflexivity].
  exfalso. apply negb_true_iff, Z.eqb_neq in Hne. apply Hne. rewrite <- Hcid.
  f_equal. apply (nodup_key_unique c_course_code (courses d)); assumption.
Qed.

End DeleteCourse.

(** ** Accounts *)

Lemma admin_required_refusal (cu : current_user) (view : outcome) (d : db) :
  admin_required cu view d
  = match admin_refusal cu with
    | Some refusal => reply d refusal
    | None => view
    end.
Proof.
  unfold admin_required, admin_refusal.
  destruct (negb (cu_is_authenticated cu) || negb (is_admin cu)); reflexivity.
Qed.

Lemma admin_passes (cu : current_user) :
  cu_is_authenticated cu = true -> is_admin cu = true ->
  admin_refusal cu = None /\ login_refusal cu = None.
Proof.
  unfold admin_refusal, login_refusal. intros -> ->. split; reflexivity.
Qed.

Lemma update_account_ids (user_id : Z) (f : account -> account)
    (l : list account) :
  (forall a, ac_id (f a) = ac_id a) ->
  map ac_id (update_account user_id f l) = map ac_id l.
Proof.
  intros Hf. unfold update_account. rewrite map_map. apply map_ext.
  intros a. destruct (ac_id a =? user_id); [apply Hf|reflexivity].
Qed.

Lemma find_account_unique (p : account -> bool) (l : list account)
    (a : account) (user_id : Z) :
  NoDup (map ac_id l) -> In a l -> ac_id a = user_id ->
  (forall b, p b = true -> ac_id b = user_id) ->
  find p l = if p a then Some a else None.
Proof.
  intros Hnd Hin Hid Hp. destruct (find p l) as [b|] eqn:Hfind.
  - apply find_some in Hfind. destruct Hfind as [Hb Hpb].
    assert (b = a).
    { apply (nodup_key_unique ac_id l); try assumption.
      rewrite (Hp b Hpb). symmetry. exact Hid. }
    subst b. rewrite Hpb. reflexivity.
  - rewrite (find_none _ _ Hfind a Hin). reflexivity.
Qed.

Lemma find_update_account (p : account -> bool) (f : account -> account)
    (l : list account) (a : account) (user_id : Z) :
  NoDup (map ac_id l) -> In a l -> ac_id a = user_id ->
  (forall b, p b = true -> ac_id b = user_id) ->
  (forall b, ac_id (f b) = ac_id b) ->
  find p (update_account user_id f l) = if p (f a) then Some (f a) else None.
Proof.
  intros Hnd Hin Hid Hp Hf.
  apply (find_account_unique p _ (f a) user_id); try assumption.
  - rewrite update_account_ids by exact Hf. exact Hnd.
  - unfold update_account. apply in_map_iff. exists a.
    split; [|exact Hin]. rewrite Hid, Z.eqb_refl. reflexivity.
  - rewrite Hf. exact Hid.
Qed.

Lemma select_pending_after_decision (status : string) (admin_id : Z)
    (now : timestamp) (l : list account) (instructor_id : Z) :
  String.eqb status "pending" = false ->
  select_pending_instructor
    (update_account instructor_id (set_decision status admin_id now) l)
    instructor_id = None.
Proof.
  intros Hstatus. unfold select_pending_instructor. apply find_none_forall.
  intros b Hb. unfold update_account in Hb. apply in_map_iff in Hb.
  destruct Hb as (a & <- & _).
  destruct (ac_id a =? instructor_id) eqn:E.
  - cbn [set_decision ac_id ac_role ac_instructor_approval_status].
    rewrite Hstatus, andb_false_r. reflexivity.
  - rewrite E. reflexivity.
Qed.

(** X18. The decision on an instructor is taken once.  After an admin has
    approved or rejected a pending instructor, [admin_approve_instructor] and
    [admin_reject_instructor] leave the accounts and the notifications as
    they are, whoever calls them and whenever; called by an admin they
    answer "Instructor not found or already processed.".  So a rejected
    instructor cannot be approved afterwards, nor an approved one
    rejected. *)
Theorem instructor_decision_is_final (now later : timestamp)
    (cu cu' : current_user) (instructor_id : Z) (s : site) (a : account) :
  admin_refusal cu = None ->
  select_pending_instructor (st_accounts s) instructor_id = Some a ->
  forall s',
    s' = fst (admin_approve_instructor now cu instructor_id s) \/
    s' = fst (admin_reject_instructor now cu instructor_id s) ->
    fst (admin_approve_instructor later cu' instructor_id s') = s' /\
    fst (admin_reject_instructor later cu' instructor_id s') = s' /\
    (admin_refusal cu' = None ->
     snd (admin_approve_instructor later cu' instructor_id s')
     = Redirect "admin_instructors"
         "Instructor not found or already processed." "error" /\
     snd (admin_reject_instructor later cu' instructor_id s')
     = Redirect "admin_instructors"
         "Instructor not found or already processed." "error").
Proof.
  intros Hadmin Hpending s' Hs'.
  assert (Hnone : select_pending_instructor (st_accounts s') instructor_id = None).
  { destruct Hs' as [-> | ->];
      unfold admin_approve_instructor, admin_reject_instructor, decide_instructor;
      rewrite Hadmin, Hpending; cbn [fst st_accounts];
      apply select_pending_after_decision; reflexivity. }
  unfold admin_approve_instructor, admin_reject_instructor, decide_instructor.
  rewrite Hnone.
  destruct (admin_refusal cu') as [refusal|]; cbn [fst snd].
  - repeat split; discriminate.
  - repeat split.
Qed.

(** X19. Approval opens the instructor views, rejection keeps them closed.
    On accounts with unique ids, a pending instructor whose account is active
    is loaded as a user that [instructor_required] turns away with the
    pending-approval warning; once an admin has approved the account it is
    loaded as a user that passes [instructor_required], and the row records
    the admin; once rejected, it is still turned away, with the same
    warning. *)
Theorem approval_opens_instructor_views (now : timestamp) (cu : current_user)
    (instructor_id : Z) (s : site) (a : account) (view : outcome) (d : db) :
  admin_refusal cu = None ->
  NoDup (map ac_id (st_accounts s)) ->
  select_pending_instructor (st_accounts s) instructor_id = Some a ->
  ac_is_active a = true ->
  let pending_warning :=
    reply d (Redirect "dashboard"
      "Your instructor account is pending approval. Please wait for admin approval."
      "warning") in
  let approved := fst (admin_approve_instructor now cu instructor_id s) in
  let rejected := fst (admin_reject_instructor now cu instructor_id s) in
  (exists u, load_user (st_accounts s) instructor_id = Some u /\
             instructor_required u view d = pending_warning) /\
  (exists u, load_user (st_accounts approved) instructor_id = Some u /\
             instructor_required u view d = view) /\
  In (set_decision "approved" (cu_id cu) now a) (st_accounts approved) /\
  (exists u, load_user (st_accounts rejected) instructor_id = Some u /\
             instructor_required u view d = pending_warning).
Proof.
  intros Hadmin Hnd Hpending Hactive pending_warning approved rejected.
  subst pending_warning approved rejected.
  unfold admin_approve_instructor, admin_reject_instructor, decide_instructor.
  rewrite Hadmin, Hpending. cbn [fst st_accounts].
  pose proof (find_some _ _ Hpending) as [Hin Ha].
  apply andb_true_iff in Ha. destruct Ha as [Ha Hstatus].
  apply andb_true_iff in Ha. destruct Ha as [Hid Hrole].
  apply Z.eqb_eq in Hid.
  assert (Hp : forall b, (ac_id b =? instructor_id) && ac_is_active b = true ->
                         ac_id b = instructor_id).
  { intros b Hb. apply andb_true_iff in Hb. apply Z.eqb_eq. tauto. }
  unfold load_user.
  rewrite (find_account_unique _ _ a instructor_id Hnd Hin Hid Hp).
  rewrite !(find_update_account _ _ _ a instructor_id Hnd Hin Hid Hp)
    by reflexivity.
  cbn [set_decision ac_id ac_is_active]. rewrite Hid, Z.eqb_refl, Hactive.
  cbn [andb option_map].
  destruct (ac_instructor_approval_status a) as [status|] eqn:Hst;
    [|discriminate].
  apply String.eqb_eq in Hstatus. subst status.
  split.
  { eexists. split; [reflexivity|].
    unfold instructor_required, user_of_account, is_admin, is_instructor,
      is_instructor_approved, is_instructor.
    cbn [cu_is_authenticated cu_role cu_instructor_approval_status negb].
    rewrite Hst. apply String.eqb_eq in Hrole. rewrite Hrole. reflexivity. }
  split.
  { eexists. split; [reflexivity|].
    unfold instructor_required, user_of_account, is_admin, is_instructor,
      is_instructor_approved, is_instructor.
    cbn [cu_is_authenticated cu_role cu_instructor_approval_status negb
         set_decision ac_role ac_instructor_approval_status].
    apply String.eqb_eq in Hrole. rewrite Hrole. reflexivity. }
  split.
  { unfold update_account. apply in_map_iff. exists a.
    split; [|exact Hin]. rewrite Hid, Z.eqb_refl. reflexivity. }
  eexists. split; [reflexivity|].
  unfold instructor_required, user_of_account, is_admin, is_instructor,
    is_instructor_approved, is_instructor.
  cbn [cu_is_authenticated cu_role cu_instructor_approval_status negb
       set_decision ac_role ac_instructor_approval_status].
  apply String.eqb_eq in Hrole. rewrite Hrole. reflexivity.
Qed.

Lemma update_account_twice (user_id : Z) (status : bool) (l : list account)
    (a : account) :
  NoDup (map ac_id l) -> In a l -> ac_id a = user_id ->
  update_account user_id (set_is_active (ac_is_active a))
    (update_account user_id (set_is_active status) l) = l.
Proof.
  intros Hnd Hin Hid. unfold update_account. rewrite map_map.
  rewrite <- (map_id l) at 2. apply map_ext_in. intros b Hb.
  destruct (ac_id b =? user_id) eqn:E.
  - cbn [set_is_active ac_id]. rewrite E. apply Z.eqb_eq in E.
    assert (b = a) by (apply (nodup_key_unique ac_id l); congruence).
    subst b. destruct a; reflexivity.
  - rewrite E. reflexivity.
Qed.

Lemma toggle_selects (l : list account) (user_id : Z) (role : string)
    (a : account) :
  NoDup (map ac_id l) ->
  select_account l user_id role = Some a ->
  In a l /\ ac_id a = user_id /\
  select_account (update_account user_id
                    (set_is_active (negb (ac_is_active a))) l) user_id role
  = Some (set_is_active (negb (ac_is_active a)) a) /\
  load_user (update_account user_id
               (set_is_active (negb (ac_is_active a))) l) user_id
  = if ac_is_active a then None
    else Some (user_of_account (set_is_active true a)).
Proof.
  intros Hnd Hsel. pose proof (find_some _ _ Hsel) as [Hin Ha].
  pose proof Ha as Hpa.
  apply andb_true_iff in Ha. destruct Ha as [Hid Hrole]. apply Z.eqb_eq in Hid.
  split; [exact Hin|]. split; [exact Hid|]. split.
  - unfold select_account.
    rewrite (find_update_account _ _ _ a user_id Hnd Hin Hid);
      [|intros b Hb; apply andb_true_iff in Hb; apply Z.eqb_eq; tauto
       |reflexivity].
    cbn [set_is_active ac_id ac_role]. rewrite Hpa. reflexivity.
  - unfold load_user.
    rewrite (find_update_account _ _ _ a user_id Hnd Hin Hid);
      [|intros b Hb; apply andb_true_iff in Hb; apply Z.eqb_eq; tauto
       |reflexivity].
    cbn [set_is_active ac_id ac_is_active]. rewrite Hid, Z.eqb_refl.
    destruct (ac_is_active a); reflexivity.
Qed.

(** X20. Blocking an account logs its user out, and the toggle is its own
    inverse.  On accounts with unique ids, after an admin has toggled the
    block of a student (of an instructor) whose account was active,
    [load_user] finds no user for the id, so that every later request of
    that user is anonymous; when the account was blocked, the user is loaded
    again.  A second toggle restores the accounts exactly. *)
Theorem toggle_block_round_trip (cu : current_user) (user_id : Z) (s : site)
    (a : account) :
  cu_is_authenticated cu = true -> is_admin cu = true ->
  NoDup (map ac_id (st_accounts s)) ->
  (select_account (st_accounts s) user_id "student" = Some a ->
   let blocked := fst (admin_toggle_student_block cu user_id s) in
   load_user (st_accounts blocked) user_id
   = (if ac_is_active a then None
      else Some (user_of_account (set_is_active true a))) /\
   fst (admin_toggle_student_block cu user_id blocked) = s) /\
  (select_account (st_accounts s) user_id "instructor" = Some a ->
   let blocked := fst (admin_toggle_instructor_block cu user_id s) in
   load_user (st_accounts blocked) user_id
   = (if ac_is_active a then None
      else Some (user_of_account (set_is_active true a))) /\
   fst (admin_toggle_instructor_block cu user_id blocked) = s).
Proof.
  intros Hauth Hadmin Hnd.
  destruct (admin_passes cu Hauth Hadmin) as [Hpass Hlogin].
  split; intros Hsel blocked; subst blocked;
    unfold admin_toggle_student_block, admin_toggle_instructor_block;
    rewrite ?Hlogin, Hpass, Hsel; cbn [fst st_accounts st_db];
    destruct (toggle_selects _ _ _ _ Hnd Hsel) as (Hin & Hid & Hsel' & Hload);
    (split; [exact Hload|]);
    rewrite Hsel'; cbn [fst set_is_active ac_is_active];
    rewrite negb_involutive;
    rewrite (update_account_twice user_id _ _ a Hnd Hin Hid);
    destruct s; reflexivity.
Qed.

(** X21. Deleting a student needs a table that [init_db] does not create.
    For an admin and an existing student: on a database with the tables of
    [init_db], [admin_delete_student] answers 500 with "no such table:
    student_notes" and deletes nothing.  On a database that has the table,
    it answers with success, the account can no longer be loaded, no
    enrollment of the student is left, the other accounts and enrollments
    are the ones there were, and the submissions of the student stay. *)
Theorem delete_student_needs_student_notes (tables : list string)
    (cu : current_user) (student_id : Z) (s : site) (a : account) :
  cu_is_authenticated cu = true -> is_admin cu = true ->
  select_account (st_accounts s) student_id "student" = Some a ->
  admin_delete_student init_db_tables cu student_id s
  = (s, Jsonify (json_error "no such table: student_notes") 500) /\
  (In "student_notes"%string tables ->
   let s' := fst (admin_delete_student tables cu student_id s) in
   snd (admin_delete_student tables cu student_id s)
   = Jsonify (json_message "Student deleted successfully") 200 /\
   load_user (st_accounts s') student_id = None /\
   (forall b, In b (st_accounts s') <->
              In b (st_accounts s) /\ ac_id b <> student_id) /\
   (forall e, In e (enrollments (site_db s')) <->
              In e (enrollments (site_db s)) /\ e_student_id e <> student_id) /\
   assignment_submissions (site_db s') = assignment_submissions (site_db s)).
Proof.
  intros Hauth Hadmin Hsel.
  destruct (admin_passes cu Hauth Hadmin) as [Hpass Hlogin].
  unfold admin_delete_student. rewrite Hlogin, Hpass, Hsel.
  split; [reflexivity|]. intros Htable.
  assert (Hex : existsb (String.eqb "student_notes") tables = true).
  { apply existsb_exists. exists "student_notes"%string.
    split; [exact Htable|apply String.eqb_refl]. }
  rewrite Hex. cbn [negb fst snd st_accounts st_db site_db enrollments
                    with_enrollments assignment_submissions].
  split; [reflexivity|]. split.
  { unfold load_user.
    replace (find _ _) with (@None account); [reflexivity|].
    symmetry. apply find_none_forall. intros b Hb.
    apply filter_In in Hb. destruct Hb as [_ Hne].
    apply negb_true_iff in Hne. rewrite Hne. reflexivity. }
  split.
  { intros b. rewrite filter_In, negb_true_iff, Z.eqb_neq. reflexivity. }
  split; [|reflexivity].
  intros e. unfold delete_where.
  rewrite filter_In, negb_true_iff, Z.eqb_neq. reflexivity.
Qed.

(** ** Grading a submission *)

Section GradeProps.

Variable strip : string -> string.
Variable float_of_string : string -> option Q.
Variable str_of_int : Z -> string.
Variable max_points : assignment -> option Z.

(** X24. A grade reaches any submission.  An instructor who owns one
    assignment and sends a grade between 0 and the [max_points] of that
    assignment is answered with success, and every submission with the id
    of the request receives the grade, the feedback and the time, whatever
    assignment, course and instructor that submission belongs to: the
    submission is looked up by its id alone, and the bound checked is the
    one of the assignment named in the request.  The other submissions and
    the core tables are unchanged. *)
Theorem grade_reaches_any_submission (now : timestamp) (cu : current_user)
    (course_id assignment_id submission_id : Z)
    (grade_field feedback_field : string) (s : school) (a : assignment)
    (g : Q) (m : Z) :
  instructor_refusal cu = None ->
  select_own_quiz (core s) assignment_id course_id (cu_id cu) = Some a ->
  is_empty (strip grade_field) = false ->
  float_of_string (strip grade_field) = Some g ->
  max_points a = Some m ->
  (0 <= g)%Q -> (g <= inject_Z m)%Q ->
  let out := instructor_grade_submission strip float_of_string str_of_int
               max_points now cu course_id assignment_id submission_id
               grade_field feedback_field s in
  snd out = Jsonify (json_message "Submission graded successfully") 200 /\
  (forall r, In r (sc_submissions s) -> sr_id r = submission_id ->
     In (set_grade (Some g) (strip feedback_field) now r)
        (sc_submissions (fst out))) /\
  (forall r, In r (sc_submissions s) -> sr_id r <> submission_id ->
     In r (sc_submissions (fst out))) /\
  List.length (sc_submissions (fst out)) = List.length (sc_submissions s) /\
  core (fst out) = core s.
Proof.
  intros Hpass Hown Hgrade Hfloat Hmax Hlo Hhi out. subst out.
  unfold instructor_grade_submission. rewrite Hpass, Hown. cbv zeta.
  rewrite Hgrade, Hfloat. cbn [option_map]. unfold check_grade. rewrite Hmax.
  apply Qle_bool_iff in Hlo, Hhi. rewrite Hlo, Hhi. cbn [negb fst snd].
  split; [reflexivity|]. cbn [sc_submissions].
  split.
  { intros r Hr Hid. unfold update_submissions. apply in_map_iff.
    exists r. split; [|exact Hr]. rewrite Hid, Z.eqb_refl. reflexivity. }
  split.
  { intros r Hr Hid. unfold update_submissions. apply in_map_iff.
    exists r. split; [|exact Hr]. apply Z.eqb_neq in Hid. rewrite Hid.
    reflexivity. }
  split; [unfold update_submissions; apply length_map|].
  unfold core. cbn [sc_db sc_submissions]. f_equal.
  apply update_submissions_key. reflexivity.
Qed.

End GradeProps.

(** ** Creating a course *)

Lemma find_map_app {A B : Type} (f : A -> option B) (l1 l2 : list A) :
  find_map f l1 = None -> find_map f (l1 ++ l2) = find_map f l2.
Proof.
  induction l1 as [|x l1 IH]; intros H; [reflexivity|].
  cbn [app find_map] in *. destruct (f x); [discriminate|]. apply IH. exact H.
Qed.

Section CreateProps.

Variable strip : string -> string.
Variable upper : string -> string.
Variable check_password_hash : string -> string -> bool.
Variable int_of_string : string -> option Z.
Variable generate_password_hash : string -> string.

(** X25. A course that has just been created admits an enrollment request.
    Suppose a non-empty hash of a key verifies against that key.  When an
    instructor with a row in [users] creates a course with a code no course
    has, a title, a key of six characters or more and room for at least one
    student and less than [2^63], the course gets an id above every course
    id, and a student who
    then sends a code and a key that normalise to the ones of the form
    (whatever their case and the blanks around them) has a pending
    enrollment appended for that course, provided every enrollment row
    refers to a course. *)
Theorem created_course_admits_enrollment (now : timestamp)
    (cu student : current_user) (form : course_form)
    (course_code_field enrollment_key_field : string) (s : catalog)
    (instructor : user) (max_students : Z) :
  (forall key, check_password_hash (generate_password_hash key) key = true) ->
  (forall key, is_empty (generate_password_hash key) = false) ->
  passes_instructor_required cu = true ->
  find (fun u => u_id u =? cu_id cu) (users (ct_db s)) = Some instructor ->
  is_empty (upper (strip (cf_course_code form))) = false ->
  is_empty (strip (cf_title form)) = false ->
  is_empty (strip (cf_enrollment_key form)) = false ->
  (6 <= len (strip (cf_enrollment_key form)))%nat ->
  match cf_max_students form with
  | Some text => int_of_string text
  | None => Some 50
  end = Some max_students ->
  0 < max_students < 2 ^ 63 ->
  (forall c, In c (courses (ct_db s)) ->
             c_course_code c <> upper (strip (cf_course_code form))) ->
  (forall e, In e (enrollments (ct_db s)) ->
             exists c, In c (courses (ct_db s)) /\ c_id c = e_course_id e) ->
  cu_is_authenticated student = true -> is_student student = true ->
  upper (strip course_code_field) = upper (strip (cf_course_code form)) ->
  strip enrollment_key_field = strip (cf_enrollment_key form) ->
  let created := instructor_create_course strip upper int_of_string
                   generate_password_hash cu (Some form) s in
  let out := student_enroll strip upper check_password_hash now student
               course_code_field enrollment_key_field (ct_db (fst created)) in
  snd created
  = Respond (Redirect "instructor_courses"
               ("Course " +++ dq +++ strip (cf_title form) +++ dq
                +++ " created successfully!") "success") /\
  exists c e_new,
    courses (ct_db (fst created)) = courses (ct_db s) ++ [c] /\
    (forall c', In c' (courses (ct_db s)) -> c_id c' < c_id c) /\
    c_instructor_id c = cu_id cu /\
    c_course_code c = upper (strip (cf_course_code form)) /\
    enrollments (out_db out) = enrollments (ct_db s) ++ [e_new] /\
    e_student_id e_new = cu_id student /\
    e_course_id e_new = c_id c /\
    e_status e_new = "pending"%string /\
    out_response out
    = Redirect "student_browse_courses"
        ("Enrollment request submitted for " +++ dq +++ strip (cf_title form)
         +++ dq +++ "! Your instructor (" +++ u_full_name instructor
         +++ ") will review and approve your request.") "success".
Proof.
  intros Hcheck Hhash Hpass Hinstructor Hcode Htitle Hkey Hlen Hmax Hroom
    Hfresh Hrefs Hauth Hstudent Hcode' Hkey' created out.
  subst out created. unfold instructor_create_course.
  rewrite (passes_instructor_refusal cu Hpass). cbv zeta.
  rewrite Hcode, Htitle, Hkey, Hmax.
  replace (len (strip (cf_enrollment_key form)) <? 6)%nat with false
    by (symmetry; apply Nat.ltb_ge; exact Hlen).
  rewrite (proj2 (find_none_forall _ (courses (ct_db s)))).
  2: { intros c Hc. apply String.eqb_neq. apply Hfresh. exact Hc. }
  replace (fits_sqlite_integer max_students) with true.
  2: { symmetry. unfold fits_sqlite_integer. apply andb_true_intro.
       split; [apply Z.leb_le | apply Z.ltb_lt]; lia. }
  cbn [negb].
  cbn [fst snd ct_db]. split; [reflexivity|].
  set (new_id := Z.max (ct_courses_seq s)
                   (fold_right Z.max 0 (map c_id (courses (ct_db s)))) + 1).
  set (course_code := upper (strip (cf_course_code form))) in *.
  assert (Hids : forall c', In c' (courses (ct_db s)) -> c_id c' < new_id).
  { intros c' Hc'.
    pose proof (fold_max_bound (map c_id (courses (ct_db s))) (c_id c')
                  (in_map c_id _ _ Hc')).
    unfold new_id. lia. }
  assert (Hnone : forall e, In e (enrollments (ct_db s)) ->
                            (e_course_id e =? new_id) = false).
  { intros e He. destruct (Hrefs e He) as (c' & Hc' & <-).
    apply Z.eqb_neq. specialize (Hids c' Hc'). lia. }
  unfold student_enroll, login_required. rewrite Hauth, Hstudent. cbn [negb].
  cbv zeta. rewrite Hcode', Hkey'. fold course_code. rewrite Hcode, Hkey.
  cbn [orb]. unfold select_course_by_code.
  cbn [with_courses courses users].
  rewrite find_map_app.
  2: { apply find_map_none. intros c' Hc'.
       replace (String.eqb (c_course_code c') course_code) with false;
         [reflexivity|].
       symmetry. apply String.eqb_neq. apply Hfresh. exact Hc'. }
  cbn [find_map c_course_code c_is_active c_instructor_id].
  rewrite String.eqb_refl, Hinstructor. cbn [andb].
  unfold key_rejected. cbn [c_enrollment_key_hash].
  rewrite Hhash, Hcheck. cbn [orb negb c_id enrollments].
  rewrite (proj2 (find_none_forall _ (enrollments (ct_db s)))).
  2: { intros e He. unfold of_pair. rewrite (Hnone e He). apply andb_false_r. }
  unfold count_approved. cbn [enrollments c_max_students].
  rewrite filter_none.
  2: { intros e He. rewrite (Hnone e He). reflexivity. }
  cbn [List.length Z.of_nat].
  replace (max_students <=? 0) with false
    by (symmetry; apply Z.leb_gt; exact (proj1 Hroom)).
  unfold insert_enrollment. cbn [with_courses enrollments].
  replace (existsb (of_pair (cu_id student) new_id) (enrollments (ct_db s)))
    with false.
  2: { symmetry. apply not_true_is_false. intros Hex.
       apply existsb_exists in Hex. destruct Hex as (e & He & Hp).
       unfold of_pair in Hp. rewrite (Hnone e He), andb_false_r in Hp.
       discriminate. }
  do 2 eexists.
  split; [reflexivity|]. split; [exact Hids|]. split; [reflexivity|].
  split; [reflexivity|].
  cbn [reply out_db out_response with_notification enrollments].
  split; [reflexivity|]. repeat split.
Qed.

(** A key is measured in characters, not in bytes. *)
Example len_counts_code_points :
  let e_acute := String (Ascii.ascii_of_nat 195)
                   (String (Ascii.ascii_of_nat 169) EmptyString) in
  len (e_acute +++ e_acute +++ e_acute) = 3%nat /\
  String.length (e_acute +++ e_acute +++ e_acute) = 6%nat /\
  len "logic1" = 6%nat.
Proof. repeat split. Qed.

(** A [max_students] that sqlite3 cannot bind creates nothing. *)
Lemma create_course_overflow (cu : current_user) (form : course_form)
    (s : catalog) (max_students : Z) :
  passes_instructor_required cu = true ->
  is_empty (upper (strip (cf_course_code form))) = false ->
  is_empty (strip (cf_title form)) = false ->
  is_empty (strip (cf_enrollment_key form)) = false ->
  (6 <= len (strip (cf_enrollment_key form)))%nat ->
  match cf_max_students form with
  | Some text => int_of_string text
  | None => Some 50
  end = Some max_students ->
  2 ^ 63 <= max_students ->
  (forall c, In c (courses (ct_db s)) ->
             c_course_code c <> upper (strip (cf_course_code form))) ->
  instructor_create_course strip upper int_of_string generate_password_hash
    cu (Some form) s
  = (s, Render "instructor/create_course.html"
          (Some ("Error creating course. Please try again."%string,
                 "error"%string))).
Proof.
  intros Hpass Hcode Htitle Hkey Hlen Hmax Hbig Hfresh.
  unfold instructor_create_course.
  rewrite (passes_instructor_refusal cu Hpass). cbv zeta.
  rewrite Hcode, Htitle, Hkey, Hmax.
  replace (len (strip (cf_enrollment_key form)) <? 6)%nat with false
    by (symmetry; apply Nat.ltb_ge; exact Hlen).
  rewrite (proj2 (find_none_forall _ (courses (ct_db s)))).
  2: { intros c Hc. apply String.eqb_neq. apply Hfresh. exact Hc. }
  replace (fits_sqlite_integer max_students) with false; [reflexivity|].
  symmetry. unfold fits_sqlite_integer. apply andb_false_intro2.
  apply Z.ltb_ge. exact Hbig.
Qed.

End CreateProps.

(** ** The inbox *)

Lemma mark_where_read_by (user_id : Z) (p : inbox_row -> bool)
    (table : list inbox_row) :
  (forall n, In n table -> p n = true -> nt_user_id n = user_id) ->
  Forall2 (read_by user_id) table (mark_where p table).
Proof.
  induction table as [|n table IH]; intros Hown; [constructor|].
  cbn [mark_where map]. constructor.
  - destruct (p n) eqn:Hp; [|left; reflexivity].
    destruct (nt_is_read n) eqn:Hread.
    + left. destruct n; cbn in Hread; subst; reflexivity.
    + right. split; [apply Hown; [left; reflexivity|exact Hp]|].
      split; [exact Hread|reflexivity].
  - apply IH. intros m Hm. apply Hown. right. exact Hm.
Qed.

Lemma read_by_refl (user_id : Z) (table : list inbox_row) :
  Forall2 (read_by user_id) table table.
Proof. induction table; constructor; [left; reflexivity|assumption]. Qed.

Lemma read_by_others (user_id other : Z) (table table' : list inbox_row) :
  Forall2 (read_by user_id) table table' -> other <> user_id ->
  filter (fun n => nt_user_id n =? other) table'
  = filter (fun n => nt_user_id n =? other) table.
Proof.
  intros H Hother. induction H as [|n n' l l' Hn _ IH]; [reflexivity|].
  cbn [filter]. rewrite IH. destruct Hn as [->|(Hu & _ & ->)]; [reflexivity|].
  cbn [set_read nt_user_id]. rewrite Hu.
  replace (user_id =? other) with false; [reflexivity|].
  symmetry. apply Z.eqb_neq. congruence.
Qed.

Lemma filter_at_most_one {K R : Type} (key : R -> K) (k : K) (p : R -> bool)
    (rows : list R) :
  NoDup (map key rows) ->
  (forall r, In r rows -> p r = true -> key r = k) ->
  List.length (filter p rows) = if existsb p rows then 1%nat else 0%nat.
Proof.
  induction rows as [|row rows IH]; intros Hnd Hp; [reflexivity|].
  apply NoDup_cons_iff in Hnd. destruct Hnd as [Hfresh Hnd].
  cbn [filter existsb]. destruct (p row) eqn:Hrow.
  - cbn [orb List.length]. f_equal. rewrite filter_none; [reflexivity|].
    intros other Hother. destruct (p other) eqn:E; [|reflexivity].
    destruct Hfresh. rewrite (Hp row (or_introl eq_refl) Hrow).
    rewrite <- (Hp other (or_intror Hother) E). apply in_map. exact Hother.
  - cbn [orb]. apply IH; [exact Hnd|].
    intros r Hr. apply Hp. right. exact Hr.
Qed.

Lemma unread_after_mark (user_id : Z) (p : inbox_row -> bool)
    (table : list inbox_row) :
  unread_count (mark_where p table) user_id
  = Z.of_nat (List.length
      (filter (fun n => (nt_user_id n =? user_id) && negb (nt_is_read n))
         (filter (fun n => negb (p n)) table))).
Proof.
  unfold unread_count. f_equal. induction table as [|n table IH]; [reflexivity|].
  cbn [mark_where map filter]. fold (mark_where p table).
  destruct (p n); cbn [negb set_read nt_user_id nt_is_read filter].
  - rewrite andb_false_r. exact IH.
  - destruct ((nt_user_id n =? user_id) && negb (nt_is_read n));
      cbn [List.length]; rewrite IH; reflexivity.
Qed.

Lemma existsb_agree {R : Type} (f g : R -> bool) (rows : list R) :
  (forall r, In r rows -> f r = g r) -> existsb f rows = existsb g rows.
Proof.
  induction rows as [|row rows IH]; intros H; [reflexivity|].
  cbn [existsb]. rewrite (H row (or_introl eq_refl)), IH; [reflexivity|].
  intros r Hr. apply H. right. exact Hr.
Qed.

Section Inbox.

Variable lower : string -> string.

(** X22. A user of the inbox touches only their own notifications.
    With unique ids, whatever the request of the inbox (the page, the
    unread count, marking one notification, following one), each row is
    left as it was or was an unread row of the caller and is now marked as
    read: no row is added, deleted or reordered, no column but [is_read]
    changes, no row goes back to unread, and the rows of every other user
    are the ones there were. *)
Theorem inbox_marks_own_rows (cu : current_user) (r : inbox_request)
    (table : list inbox_row) :
  NoDup (map nt_id table) ->
  let table' := fst (inbox_handle lower cu r table) in
  Forall2 (read_by (cu_id cu)) table table' /\
  forall other, other <> cu_id cu ->
    filter (fun n => nt_user_id n =? other) table'
    = filter (fun n => nt_user_id n =? other) table.
Proof.
  intros Hnd table'.
  assert (H : Forall2 (read_by (cu_id cu)) table table').
  { subst table'. unfold inbox_handle, notifications_view,
      get_unread_notifications_count, mark_notification_read,
      handle_notification_redirect.
    destruct r as [| |notification_id|notification_id];
      destruct (login_refusal cu); cbn [fst]; try apply read_by_refl.
    - apply mark_where_read_by. intros n _ Hp.
      apply andb_true_iff in Hp. apply Z.eqb_eq. tauto.
    - apply mark_where_read_by. intros n _ Hp.
      apply andb_true_iff in Hp. apply Z.eqb_eq. tauto.
    - destruct (find _ table) as [own|] eqn:Hfind; cbn [fst];
        [|apply read_by_refl].
      apply find_some in Hfind. destruct Hfind as [Hin Hown].
      apply andb_true_iff in Hown. destruct Hown as [Hid Huser].
      apply Z.eqb_eq in Hid, Huser.
      apply mark_where_read_by. intros n Hn Hp. apply Z.eqb_eq in Hp.
      assert (n = own)
        by (apply (nodup_key_unique nt_id table); congruence).
      subst n. exact Huser. }
  split; [exact H|]. intros other Hother.
  apply (read_by_others (cu_id cu)); assumption.
Qed.

(** X23. The unread count after reading.  For a logged-in user, the page
    of notifications leaves no notification of the user unread.  With unique
    ids, marking or following a notification lowers the unread count of the
    user by one when the notification is theirs and unread, and leaves it
    as it was otherwise: when it is already read, belongs to someone else
    or does not exist. *)
Theorem inbox_unread_count (cu : current_user) (notification_id : Z)
    (table : list inbox_row) :
  cu_is_authenticated cu = true ->
  NoDup (map nt_id table) ->
  let hit :=
    existsb (fun n => (nt_id n =? notification_id)
                      && ((nt_user_id n =? cu_id cu) && negb (nt_is_read n)))
            table in
  unread_count (fst (notifications_view cu table)) (cu_id cu) = 0 /\
  unread_count (fst (mark_notification_read cu notification_id table)) (cu_id cu)
  = unread_count table (cu_id cu) - (if hit then 1 else 0) /\
  unread_count
    (fst (handle_notification_redirect lower cu notification_id table))
    (cu_id cu)
  = unread_count table (cu_id cu) - (if hit then 1 else 0).
Proof.
  intros Hauth Hnd hit.
  unfold notifications_view, mark_notification_read,
    handle_notification_redirect, login_refusal.
  rewrite Hauth. cbn [negb fst].
  set (unread := fun n => (nt_user_id n =? cu_id cu) && negb (nt_is_read n)).
  assert (Hone : forall p,
            (forall n, p n = true -> nt_id n = notification_id) ->
            (forall n, In n table -> unread n = true ->
                       p n = (nt_id n =? notification_id)) ->
            unread_count (mark_where p table) (cu_id cu)
            = unread_count table (cu_id cu) - (if hit then 1 else 0)).
  { intros p Hp Hunread. rewrite unread_after_mark. fold unread.
    unfold unread_count. fold unread.
    rewrite (filter_split_length unread p table).
    assert (Hlen : List.length (filter (fun n => unread n && p n) table)
                   = if hit then 1%nat else 0%nat).
    { rewrite (filter_at_most_one nt_id notification_id _ table Hnd).
      - subst hit.
        rewrite (existsb_agree (fun n => unread n && p n)
                   (fun n => (nt_id n =? notification_id) && unread n) table);
          [reflexivity|].
        intros n Hn. destruct (unread n) eqn:E; cbn [andb].
        + rewrite (Hunread n Hn E), andb_true_r. reflexivity.
        + rewrite andb_false_r. reflexivity.
      - intros n _ Hn. apply andb_true_iff in Hn. apply Hp. tauto. }
    rewrite Hlen. destruct hit; lia. }
  split; [|split].
  - rewrite unread_after_mark. fold unread.
    rewrite filter_none; [reflexivity|].
    intros n Hn. apply filter_In in Hn. destruct Hn as [_ Hn].
    apply negb_true_iff in Hn. exact Hn.
  - apply Hone.
    + intros n Hn. apply andb_true_iff in Hn. apply Z.eqb_eq. tauto.
    + intros n _ Hn. unfold unread in Hn. apply andb_true_iff in Hn.
      destruct Hn as [-> _]. apply andb_true_r.
  - destruct (find _ table) as [own|] eqn:Hfind; cbn [fst].
    + apply Hone; [intros n Hn; apply Z.eqb_eq; exact Hn|reflexivity].
    + replace hit with false; [lia|]. symmetry. subst hit.
      apply not_true_is_false. intros Hex. apply existsb_exists in Hex.
      destruct Hex as (n & Hn & Hhit).
      pose proof (find_none _ _ Hfind n Hn) as Hno. cbv beta in Hno.
      apply andb_true_iff in Hhit. destruct Hhit as [H1 H2].
      apply andb_true_iff in H2. destruct H2 as [H2 _].
      rewrite H1, H2 in Hno. discriminate.
Qed.

End Inbox.

Lemma school0_ok : school_ok QuizSample.school0.
Proof.
  unfold school_ok. cbn.
  repeat split; try (repeat constructor; cbn; intuition (discriminate || lia)).
  - intros r [<-|[<-|[]]]; cbn; lia.
  - intros a [<-|[]]. eexists. split; [left; reflexivity|reflexivity].
Qed.




Lemma delete_quiz_keeps_constraints_witness :
  school_ok (fst (instructor_delete_quiz QuizSample.title Sample.teacher 10 21
                    QuizSample.school0)).
Proof.
  apply (delete_quiz_keeps_constraints QuizSample.title Sample.teacher 10 21
           QuizSample.school0 school0_ok).
Defined.

Lemma delete_quiz_keeps_stored_progress_witness :
  let s' := fst (instructor_delete_quiz QuizSample.title Sample.teacher 10 21
                   QuizSample.school0) in
  enrollments (core s') = enrollments (core QuizSample.school0) /\
  count_quizzes (core s') 10 = 4 - 1 /\
  forall student_id,
    count_submitted (core s') student_id 10
    = count_submitted (core QuizSample.school0) student_id 10
      - (if is_active_quiz 10 (Sample.quiz 21)
            && has_submission (core QuizSample.school0) student_id
                 (Sample.quiz 21)
         then 1 else 0).
Proof.
  apply (delete_quiz_keeps_stored_progress QuizSample.title Sample.teacher 10 21
           QuizSample.school0 (Sample.quiz 21)); try reflexivity.
  cbn. repeat constructor; cbn; intuition discriminate.
Defined.

Lemma delete_course_removes_enrollments_witness :
  let out := instructor_delete_course Sample.teacher 10 Sample.db2 in
  out_response out
  = Redirect "instructor_courses"
      ("Course " +++ dq +++ "Intro" +++ dq +++ " has been deleted successfully.")
      "success" /\
  (forall c', In c' (courses (out_db out)) -> c_id c' <> 10) /\
  (forall e, In e (enrollments (out_db out)) -> e_course_id e <> 10) /\
  (forall other, other <> 10 ->
     filter (fun c' => c_id c' =? other) (courses (out_db out))
     = filter (fun c' => c_id c' =? other) (courses Sample.db2) /\
     filter (fun e => e_course_id e =? other) (enrollments (out_db out))
     = filter (fun e => e_course_id e =? other) (enrollments Sample.db2)) /\
  assignments (out_db out) = assignments Sample.db2 /\
  assignment_submissions (out_db out) = assignment_submissions Sample.db2 /\
  Sample.enroll 120 Sample.bob (out_db out)
  = reply (out_db out)
      (Redirect "student_browse_courses"
         ("Course with code " +++ dq +++ "CS101" +++ dq
          +++ " not found or is inactive.") "error").
Proof.
  apply (delete_course_removes_enrollments Sample.strip Sample.upper
           Sample.check_password_hash 120 Sample.teacher Sample.bob 10
           Sample.db2 Sample.cs101 " cs101 " "secret "); try reflexivity.
  cbn. repeat constructor; cbn; intuition discriminate.
Defined.

Lemma site0_ids : NoDup (map ac_id (st_accounts SiteSample.site0)).
Proof. cbn. repeat constructor; cbn; intuition discriminate. Qed.

Lemma instructor_decision_is_final_witness :
  let s' := fst (admin_reject_instructor 300 SiteSample.admin 5 SiteSample.site0) in
  fst (admin_approve_instructor 301 SiteSample.admin 5 s') = s' /\
  fst (admin_reject_instructor 301 SiteSample.admin 5 s') = s' /\
  (admin_refusal SiteSample.admin = None ->
   snd (admin_approve_instructor 301 SiteSample.admin 5 s')
   = Redirect "admin_instructors"
       "Instructor not found or already processed." "error" /\
   snd (admin_reject_instructor 301 SiteSample.admin 5 s')
   = Redirect "admin_instructors"
       "Instructor not found or already processed." "error").
Proof.
  apply (instructor_decision_is_final 300 301 SiteSample.admin SiteSample.admin
           5 SiteSample.site0 SiteSample.pia eq_refl eq_refl
           (fst (admin_reject_instructor 300 SiteSample.admin 5
                   SiteSample.site0))
           (or_intror eq_refl)).
Defined.

Lemma approval_opens_instructor_views_witness :
  let pending_warning :=
    reply Sample.db2 (Redirect "dashboard"
      "Your instructor account is pending approval. Please wait for admin approval."
      "warning") in
  let approved :=
    fst (admin_approve_instructor 300 SiteSample.admin 5 SiteSample.site0) in
  let rejected :=
    fst (admin_reject_instructor 300 SiteSample.admin 5 SiteSample.site0) in
  (exists u, load_user (st_accounts SiteSample.site0) 5 = Some u /\
             instructor_required u SiteSample.view Sample.db2 = pending_warning) /\
  (exists u, load_user (st_accounts approved) 5 = Some u /\
             instructor_required u SiteSample.view Sample.db2 = SiteSample.view) /\
  In (set_decision "approved" 9 300 SiteSample.pia) (st_accounts approved) /\
  (exists u, load_user (st_accounts rejected) 5 = Some u /\
             instructor_required u SiteSample.view Sample.db2 = pending_warning).
Proof.
  apply (approval_opens_instructor_views 300 SiteSample.admin 5 SiteSample.site0
           SiteSample.pia SiteSample.view Sample.db2 eq_refl site0_ids
           eq_refl eq_refl).
Defined.

Lemma toggle_block_round_trip_witness :
  (let blocked := fst (admin_toggle_student_block SiteSample.admin 2
                         SiteSample.site0) in
   load_user (st_accounts blocked) 2 = None /\
   fst (admin_toggle_student_block SiteSample.admin 2 blocked)
   = SiteSample.site0) /\
  (let blocked := fst (admin_toggle_instructor_block SiteSample.admin 4
                         SiteSample.site0) in
   load_user (st_accounts blocked) 4 = None /\
   fst (admin_toggle_instructor_block SiteSample.admin 4 blocked)
   = SiteSample.site0).
Proof.
  split.
  - apply (proj1 (toggle_block_round_trip SiteSample.admin 2 SiteSample.site0
                    SiteSample.alice eq_refl eq_refl site0_ids) eq_refl).
  - apply (proj2 (toggle_block_round_trip SiteSample.admin 4 SiteSample.site0
                    SiteSample.omar eq_refl eq_refl site0_ids) eq_refl).
Defined.

Lemma delete_student_needs_student_notes_witness :
  admin_delete_student init_db_tables SiteSample.admin 2 SiteSample.site0
  = (SiteSample.site0,
     Jsonify (json_error "no such table: student_notes") 500) /\
  (In "student_notes"%string ("student_notes"%string :: init_db_tables) ->
   let s' := fst (admin_delete_student ("student_notes"%string :: init_db_tables)
                    SiteSample.admin 2 SiteSample.site0) in
   snd (admin_delete_student ("student_notes"%string :: init_db_tables)
          SiteSample.admin 2 SiteSample.site0)
   = Jsonify (json_message "Student deleted successfully") 200 /\
   load_user (st_accounts s') 2 = None /\
   (forall b, In b (st_accounts s') <->
              In b (st_accounts SiteSample.site0) /\ ac_id b <> 2) /\
   (forall e, In e (enrollments (site_db s')) <->
              In e (enrollments (site_db SiteSample.site0))
              /\ e_student_id e <> 2) /\
   assignment_submissions (site_db s')
   = assignment_submissions (site_db SiteSample.site0)).
Proof.
  apply (delete_student_needs_student_notes
           ("student_notes"%string :: init_db_tables) SiteSample.admin 2
           SiteSample.site0 SiteSample.alice eq_refl eq_refl eq_refl).
Defined.

Lemma inbox0_ids : NoDup (map nt_id InboxSample.inbox0).
Proof. cbn. repeat constructor; cbn; intuition discriminate. Qed.

Lemma inbox_marks_own_rows_witness :
  let table' := fst (inbox_handle InboxSample.lower Sample.alice
                       (FollowNotification 1) InboxSample.inbox0) in
  Forall2 (read_by 2) InboxSample.inbox0 table' /\
  forall other, other <> 2 ->
    filter (fun n => nt_user_id n =? other) table'
    = filter (fun n => nt_user_id n =? other) InboxSample.inbox0.
Proof.
  apply (inbox_marks_own_rows InboxSample.lower Sample.alice
           (FollowNotification 1) InboxSample.inbox0 inbox0_ids).
Defined.

Lemma inbox_unread_count_witness :
  unread_count (fst (notifications_view Sample.alice InboxSample.inbox0)) 2 = 0 /\
  unread_count (fst (mark_notification_read Sample.alice 1 InboxSample.inbox0)) 2
  = 1 - 1 /\
  unread_count
    (fst (handle_notification_redirect InboxSample.lower Sample.alice 1
            InboxSample.inbox0)) 2
  = 1 - 1.
Proof.
  apply (inbox_unread_count InboxSample.lower Sample.alice 1 InboxSample.inbox0
           eq_refl inbox0_ids).
Defined.

Lemma grade_reaches_any_submission_witness :
  let out := instructor_grade_submission Sample.strip Sample.float_of_string
               Sample.str_of_int QuizSample.max_points 400 Sample.other_teacher
               20 31 1 " 0 " " copied " QuizSample.school1 in
  snd out = Jsonify (json_message "Submission graded successfully") 200 /\
  (forall r, In r (sc_submissions QuizSample.school1) -> sr_id r = 1 ->
     In (set_grade (Some (inject_Z 0)) (Sample.strip " copied ") 400 r)
        (sc_submissions (fst out))) /\
  (forall r, In r (sc_submissions QuizSample.school1) -> sr_id r <> 1 ->
     In r (sc_submissions (fst out))) /\
  List.length (sc_submissions (fst out))
  = List.length (sc_submissions QuizSample.school1) /\
  core (fst out) = core QuizSample.school1.
Proof.
  apply (grade_reaches_any_submission Sample.strip Sample.float_of_string
           Sample.str_of_int QuizSample.max_points 400 Sample.other_teacher
           20 31 1 " 0 " " copied " QuizSample.school1 QuizSample.essay
           (inject_Z 0) 100 eq_refl eq_refl eq_refl eq_refl eq_refl);
    vm_compute; discriminate.
Defined.

Lemma created_course_admits_enrollment_witness :
  let created := CatalogSample.create Sample.other_teacher
                   (Some CatalogSample.form0) CatalogSample.catalog0 in
  let out := student_enroll Sample.strip Sample.upper
               Sample.check_password_hash 500 Sample.bob " CS202" "logic1 "
               (ct_db (fst created)) in
  snd created
  = Respond (Redirect "instructor_courses"
               ("Course " +++ dq +++ "Logic" +++ dq
                +++ " created successfully!") "success") /\
  exists c e_new,
    courses (ct_db (fst created)) = courses Sample.db2 ++ [c] /\
    (forall c', In c' (courses Sample.db2) -> c_id c' < c_id c) /\
    c_instructor_id c = 4 /\
    c_course_code c = "CS202"%string /\
    enrollments (out_db out) = enrollments Sample.db2 ++ [e_new] /\
    e_student_id e_new = 3 /\
    e_course_id e_new = c_id c /\
    e_status e_new = "pending"%string /\
    out_response out
    = Redirect "student_browse_courses"
        ("Enrollment request submitted for " +++ dq +++ "Logic"
         +++ dq +++ "! Your instructor (" +++ "Omar"
         +++ ") will review and approve your request.") "success".
Proof.
  apply (created_course_admits_enrollment Sample.strip Sample.upper
           Sample.check_password_hash CatalogSample.int_of_string
           CatalogSample.generate_password_hash 500 Sample.other_teacher
           Sample.bob CatalogSample.form0 " CS202" "logic1 "
           CatalogSample.catalog0 (mk_user 4 "instructor" "Omar") 30);
    try reflexivity; try lia.
  - intros key. apply String.eqb_refl.
  - intros c [<-|[]]. discriminate.
  - intros e [<-|[]]. exists Sample.cs101. split; [left|]; reflexivity.
Defined.

(** A key of three characters in six bytes, and room for [2^63] students:
    no course is created. *)
Example create_course_refusals :
  let e_acute := String (Ascii.ascii_of_nat 195)
                   (String (Ascii.ascii_of_nat 169) EmptyString) in
  CatalogSample.create Sample.other_teacher
    (Some {| cf_course_code := "cs202"; cf_title := "Logic";
             cf_enrollment_key := e_acute +++ e_acute +++ e_acute;
             cf_max_students := Some "30"%string |})
    CatalogSample.catalog0
  = (CatalogSample.catalog0,
     Render "instructor/create_course.html"
       (Some ("Enrollment key must be at least 6 characters long."%string,
              "error"%string))) /\
  CatalogSample.create Sample.other_teacher
    (Some {| cf_course_code := "cs202"; cf_title := "Logic";
             cf_enrollment_key := "logic1";
             cf_max_students := Some "9223372036854775808"%string |})
    CatalogSample.catalog0
  = (CatalogSample.catalog0,
     Render "instructor/create_course.html"
       (Some ("Error creating course. Please try again."%string,
              "error"%string))).
Proof. split; reflexivity. Qed.
